(** * Aggregation engine and agent telemetry of rag_pipeline_demo

    A shallow embedding of [agent_telemetry.py], of [instrument_tool] from
    [app_hybrid.py] and of [data_aggregator.py], together with the
    properties the design document states about them.

    Conventions of the embedding:
    - Python [int] is [Z]; a NumPy [int64] is a [Z] whose arithmetic wraps
      around ([wrap64]);
    - a Python/NumPy [float] is a binary64 number: a finite one is the
      rational it denotes ([Qc], canonical rationals, so that equal
      numbers are equal terms), beside [NaN] and the two infinities;
      the operations on floats round to nearest, ties to even
      ([round64]).  The order in which NumPy adds up an array is not
      fixed by its interface: the reductions that depend on it are the
      fields of the class [Reductions].  The durations and rates kept by
      the telemetry collector are exact rationals;
    - a Python [str] is the string of its UTF-8 encoding;
    - a Python [dict] with string keys is a [gmap string _];
    - a function that may raise returns a [Result];
    - methods of a mutable object take the object's state and return the
      new state; readings of the wall clock are explicit arguments. *)

From stdpp Require Import gmap strings list fin_maps numbers sorting pretty.
From Stdlib Require Import QArith Qcanon.

Close Scope Qc_scope.
Close Scope Q_scope.

(** ** Python values, exceptions and list slicing *)

Module Py.

(** A Python [float]: a finite number, [nan], or [inf] / [-inf]. *)
Inductive Float :=
| Fin (q : Qc)
| NaN
| Inf (negative : bool).

#[global] Instance Float_eq_dec : EqDecision Float.
Proof. solve_decision. Defined.

(** The Python objects that flow through tool results and telemetry
    records. *)
Inductive PyObj :=
| PyNone
| PyStr (s : string)
| PyInt (z : Z)
| PyFloat (x : Float)
| PyBool (b : bool).

#[global] Instance PyObj_eq_dec : EqDecision PyObj.
Proof. solve_decision. Defined.

(** An exception instance caught by [except Exception]: its class name
    and the text [str(e)]. *)
Record PyException := { exc_class : string; exc_str : string }.

#[global] Instance PyException_eq_dec : EqDecision PyException.
Proof. solve_decision. Defined.

Definition ValueError (msg : string) : PyException :=
  {| exc_class := "ValueError"; exc_str := msg |}.

(** [KeyError(key)]: [str(e)] is the [repr] of the key. *)
Definition KeyError (key : string) : PyException :=
  {| exc_class := "KeyError"; exc_str := "'" +:+ key +:+ "'" |}.

(** Outcome of a call: a returned value or a raised exception. *)
Inductive Result (A : Type) :=
| Ok (a : A)
| Raise (e : PyException).
Arguments Ok {A} a.
Arguments Raise {A} e.

#[global] Instance Result_eq_dec {A} `{EqDecision A} : EqDecision (Result A).
Proof. solve_decision. Defined.

Definition bind {A B} (r : Result A) (k : A → Result B) : Result B :=
  match r with
  | Ok a => k a
  | Raise e => Raise e
  end.

Definition is_ok {A} (r : Result A) : bool :=
  match r with Ok _ => true | Raise _ => false end.

(** [l[start:]] for an arbitrary integer [start]: a negative start counts
    from the end, and both directions are clamped to the list. *)
Definition slice_from {A} (start : Z) (l : list A) : list A :=
  let len := Z.of_nat (length l) in
  let start' := if (start <? 0)%Z then Z.max (start + len) 0
                else Z.min start len in
  drop (Z.to_nat start') l.

(** [l[-1]] on a non-empty list, as used under an emptiness test. *)
Definition last_item {A} (l : list A) : option A := last l.

(** A byte of the form [10xxxxxx] continues the code point that an
    earlier byte of the encoding started. *)
Definition is_continuation (a : Ascii.ascii) : bool :=
  let n := Ascii.nat_of_ascii a in
  (128 <=? n)%nat && (n <? 192)%nat.

(** [len(s)]: the number of code points of a string. *)
Fixpoint code_points (s : string) : nat :=
  match s with
  | EmptyString => 0
  | String a s =>
      if is_continuation a then code_points s else S (code_points s)
  end.

(** [s[:n]] on a string: its first [n] code points. *)
Fixpoint str_prefix (n : nat) (s : string) : string :=
  match s with
  | EmptyString => EmptyString
  | String a rest =>
      if is_continuation a then String a (str_prefix n rest)
      else
        match n with
        | 0 => EmptyString
        | S n' => String a (str_prefix n' rest)
        end
  end.

End Py.

Export Py.

(** ** binary64 arithmetic and the 64-bit integers of NumPy *)

Module Float64.

Local Open Scope Z_scope.

(** The value of a 64-bit two's complement integer after an operation
    whose mathematical result is [z]. *)
Definition wrap64 (z : Z) : Z := (z + 2 ^ 63) `mod` 2 ^ 64 - 2 ^ 63.

(** [2 ^ e] for an integer exponent. *)
Definition pow2 (e : Z) : Qc :=
  if 0 <=? e then Qc_of_Z (2 ^ e) else (/ Qc_of_Z (2 ^ (- e)))%Qc.

(** The integer nearest to [n / d] for [0 < d], a tie going to the even
    one. *)
Definition round_half_even (n d : Z) : Z :=
  let q := n `div` d in
  let r := n `mod` d in
  if 2 * r <? d then q
  else if d <? 2 * r then q + 1
  else if Z.even q then q else q + 1.

(** [floor (log2 (n / d))] for [0 < n] and [0 < d]. *)
Definition floor_log2 (n d : Z) : Z :=
  let e := Z.log2 n - Z.log2 d in
  if 0 <=? e
  then (if d * 2 ^ e <=? n then e else e - 1)
  else (if d <=? n * 2 ^ (- e) then e else e - 1).

(** Rounding of a real number to binary64, to nearest and ties to even:
    53 significant bits, exponents of the last bit from [-1074]
    (subnormal numbers) upwards, overflow to an infinity from [2 ^ 1024]
    on. *)
Definition round64 (x : Qc) : Float :=
  let n := Z.abs (Qnum x) in
  let d := Z.pos (Qden x) in
  if n =? 0 then Fin 0%Qc
  else
    let e := Z.max (floor_log2 n d - 52) (-1074) in
    let m := if 0 <=? e then round_half_even n (d * 2 ^ e)
             else round_half_even (n * 2 ^ (- e)) d in
    let negative := Qnum x <? 0 in
    if (0 <=? e) && (2 ^ 1024 <=? m * 2 ^ e) then Inf negative
    else Fin ((if negative then - Qc_of_Z m else Qc_of_Z m) * pow2 e)%Qc.

(** [float(n)] for an integer [n]: the nearest float. *)
Definition float_of_int (z : Z) : Float := round64 (Qc_of_Z z).

(** [x + y] on floats. *)
Definition float_add (x y : Float) : Float :=
  match x, y with
  | Fin a, Fin b => round64 (a + b)%Qc
  | Inf s, Inf s' => if bool_decide (s = s') then Inf s else NaN
  | Inf s, Fin _ => Inf s
  | Fin _, Inf s => Inf s
  | _, _ => NaN
  end.

Definition is_negative (q : Qc) : bool := Qnum q <? 0.

(** [x / y] on floats, as NumPy divides (a division by zero gives an
    infinity or [nan], it does not raise). *)
Definition float_div (x y : Float) : Float :=
  match x, y with
  | Fin a, Fin b =>
      if bool_decide (b = 0%Qc)
      then (if bool_decide (a = 0%Qc) then NaN else Inf (is_negative a))
      else round64 (a / b)%Qc
  | Fin _, Inf _ => Fin 0%Qc
  | Inf s, Fin b => Inf (xorb s (is_negative b))
  | _, _ => NaN
  end.

(** A result of adding up the numbers of a list with [float_add], in
    some order and some grouping, possibly with zeros added in: what an
    implementation of a floating-point sum returns. *)
Inductive summation : list Qc → Float → Prop :=
| summation_nil : summation [] (Fin 0%Qc)
| summation_one q : summation [q] (Fin q)
| summation_add l1 l2 x y :
    summation l1 x → summation l2 y → summation (l1 ++ l2) (float_add x y)
| summation_perm l l' x :
    l ≡ₚ l' → summation l x → summation l' x.

(** Adding up from the left, starting from [0.0]. *)
Definition sequential_sum (qs : list Qc) : Float :=
  foldl (λ acc q, float_add acc (Fin q)) (Fin 0%Qc) qs.

End Float64.

Export Float64.

(** ** agent_telemetry.py *)

Module Telemetry.

Local Open Scope Z_scope.

(** [@dataclass ToolCall] *)
Record ToolCall := {
  timestamp : string;
  tool_name : string;
  tool_input : gmap string PyObj;
  tool_output : PyObj;
  execution_time_ms : Qc;
  success : bool;
  error_message : option string
}.

#[global] Instance ToolCall_eq_dec : EqDecision ToolCall.
Proof. solve_decision. Defined.

(** State of an [AgentTelemetry] object.  [session_start_time] is the
    clock reading taken by the constructor, in seconds. *)
Record AgentTelemetry := {
  max_history : Z;
  tool_calls : list ToolCall;
  session_start_time : Qc
}.

#[global] Instance AgentTelemetry_eq_dec : EqDecision AgentTelemetry.
Proof. solve_decision. Defined.

Definition default_max_history : Z := 100.

(** [AgentTelemetry.__init__]; [now] is [datetime.now()]. *)
Definition init (now : Qc) (max_history : Z) : AgentTelemetry :=
  {| max_history := max_history;
     tool_calls := [];
     session_start_time := now |}.

Definition set_tool_calls (self : AgentTelemetry) (calls : list ToolCall)
  : AgentTelemetry :=
  {| max_history := max_history self;
     tool_calls := calls;
     session_start_time := session_start_time self |}.

(** [list.pop(0)], result discarded: the list without its first element.
    It is only called right after an [append], on a non-empty list. *)
Definition pop_front {A} (l : list A) : list A := drop 1 l.

(** [AgentTelemetry.log_tool_call]; [now_iso] is
    [datetime.now().isoformat()].  The lines written to the [logging]
    module are not part of the collector's state. *)
Definition log_tool_call (now_iso : string) (tool_name : string)
    (tool_input : gmap string PyObj) (tool_output : PyObj)
    (execution_time_ms : Qc) (success : bool)
    (error_message : option string) (self : AgentTelemetry)
  : AgentTelemetry :=
  let tool_call :=
    {| timestamp := now_iso;
       tool_name := tool_name;
       tool_input := tool_input;
       tool_output := tool_output;
       execution_time_ms := execution_time_ms;
       success := success;
       error_message := error_message |} in
  let calls := tool_calls self ++ [tool_call] in
  let calls :=
    if max_history self <? Z.of_nat (length calls)
    then pop_front calls else calls in
  set_tool_calls self calls.

(** [log_tool_call] with the arguments packed as the record it creates. *)
Definition record (c : ToolCall) (self : AgentTelemetry) : AgentTelemetry :=
  log_tool_call (timestamp c) (tool_name c) (tool_input c) (tool_output c)
    (execution_time_ms c) (success c) (error_message c) self.

(** [AgentTelemetry.get_latest_call] *)
Definition get_latest_call (self : AgentTelemetry) : option ToolCall :=
  match tool_calls self with
  | [] => None
  | _ => last_item (tool_calls self)
  end.

(** [AgentTelemetry.get_call_history]; a fresh list is returned. *)
Definition get_call_history (n : option Z) (self : AgentTelemetry)
  : list ToolCall :=
  match n with
  | None => reverse (tool_calls self)
  | Some n => reverse (slice_from (- n) (tool_calls self))
  end.

(** One turn of the counting loop:
    [counts[name] = counts.get(name, 0) + 1]. *)
Definition count_call (counts : gmap string Z) (call : ToolCall)
  : gmap string Z :=
  <[tool_name call := default 0 (counts !! tool_name call) + 1]> counts.

(** [AgentTelemetry.get_tool_call_counts] *)
Definition get_tool_call_counts (self : AgentTelemetry) : gmap string Z :=
  foldl count_call ∅ (tool_calls self).

(** The inner dictionaries [{"total": _, "success": _}]. *)
Record ToolStats := { total : Z; successes : Z }.

(** One turn of the first loop of [get_tool_success_rate]: create the
    entry of the tool if needed, count the call, count the success. *)
Definition tally (tool_stats : gmap string ToolStats) (call : ToolCall)
  : gmap string ToolStats :=
  let tool_stats :=
    match tool_stats !! tool_name call with
    | None => <[tool_name call := {| total := 0; successes := 0 |}]> tool_stats
    | Some _ => tool_stats
    end in
  let tool_stats :=
    alter (λ st, {| total := total st + 1; successes := successes st |})
          (tool_name call) tool_stats in
  if success call
  then alter (λ st, {| total := total st; successes := successes st + 1 |})
             (tool_name call) tool_stats
  else tool_stats.

(** Python's true division of two integers. *)
Definition true_div (a b : Z) : Qc := (Qc_of_Z a / Qc_of_Z b)%Qc.

(** [stats["success"] / stats["total"] if stats["total"] > 0 else 0.0] *)
Definition rate_of (stats : ToolStats) : Qc :=
  if 0 <? total stats then true_div (successes stats) (total stats)
  else 0%Qc.

(** [AgentTelemetry.get_tool_success_rate]: the second loop stores one
    rate under every key of [tool_stats]. *)
Definition get_tool_success_rate (self : AgentTelemetry) : gmap string Qc :=
  let tool_stats := foldl tally ∅ (tool_calls self) in
  rate_of <$> tool_stats.

(** [sum(times)] over floats, starting from [0]. *)
Definition py_sum (times : list Qc) : Qc :=
  foldl Qcplus 0%Qc times.

(** One turn of the loop of [get_average_execution_time]. *)
Definition collect_time (avg_times : gmap string (list Qc)) (call : ToolCall)
  : gmap string (list Qc) :=
  let avg_times :=
    match avg_times !! tool_name call with
    | None => <[tool_name call := []]> avg_times
    | Some _ => avg_times
    end in
  alter (λ times, times ++ [execution_time_ms call]) (tool_name call) avg_times.

(** [AgentTelemetry.get_average_execution_time] *)
Definition get_average_execution_time (self : AgentTelemetry)
  : gmap string Qc :=
  let avg_times := foldl collect_time ∅ (tool_calls self) in
  (λ times, (py_sum times / Qc_of_Z (Z.of_nat (length times)))%Qc)
    <$> avg_times.

Record Summary := {
  session_duration_seconds : Qc;
  total_tool_calls : Z;
  tool_call_counts : gmap string Z;
  tool_success_rates : gmap string Qc;
  average_execution_times_ms : gmap string Qc
}.

(** [AgentTelemetry.get_summary]; [now] is [datetime.now()]. *)
Definition get_summary (now : Qc) (self : AgentTelemetry) : Summary :=
  {| session_duration_seconds := (now - session_start_time self)%Qc;
     total_tool_calls := Z.of_nat (length (tool_calls self));
     tool_call_counts := get_tool_call_counts self;
     tool_success_rates := get_tool_success_rate self;
     average_execution_times_ms := get_average_execution_time self |}.

(** [AgentTelemetry.clear] *)
Definition clear (self : AgentTelemetry) : AgentTelemetry :=
  set_tool_calls self [].

(** The collector as an object: every method call is an operation that
    yields a reply and the next state. *)
Inductive Op :=
| OpRecord (c : ToolCall)
| OpClear
| OpLatest
| OpHistory (n : option Z)
| OpCounts
| OpSuccessRate
| OpAverageTime
| OpSummary (now : Qc).

Inductive Reply :=
| RUnit
| RLatest (c : option ToolCall)
| RHistory (calls : list ToolCall)
| RCounts (counts : gmap string Z)
| RRates (rates : gmap string Qc)
| RTimes (times : gmap string Qc)
| RSummary (summary : Summary).

Definition exec (op : Op) (self : AgentTelemetry) : Reply * AgentTelemetry :=
  match op with
  | OpRecord c => (RUnit, record c self)
  | OpClear => (RUnit, clear self)
  | OpLatest => (RLatest (get_latest_call self), self)
  | OpHistory n => (RHistory (get_call_history n self), self)
  | OpCounts => (RCounts (get_tool_call_counts self), self)
  | OpSuccessRate => (RRates (get_tool_success_rate self), self)
  | OpAverageTime => (RTimes (get_average_execution_time self), self)
  | OpSummary now => (RSummary (get_summary now self), self)
  end.

Definition step (self : AgentTelemetry) (op : Op) : AgentTelemetry :=
  (exec op self).2.

Definition run (ops : list Op) (self : AgentTelemetry) : AgentTelemetry :=
  foldl step self ops.

(** The capacity invariant: no more than [max_history] retained calls. *)
Definition bounded (self : AgentTelemetry) : Prop :=
  Z.of_nat (length (tool_calls self)) ≤ max_history self.

(** The retained calls of one tool, and the successful ones among them. *)
Definition calls_of (t : string) (calls : list ToolCall) : list ToolCall :=
  filter (λ c, tool_name c = t) calls.

Definition successful (calls : list ToolCall) : list ToolCall :=
  filter (λ c, success c = true) calls.

(** The calls logged by [test_max_history_enforced]
    (test_telemetry.py), with a fixed timestamp. *)
Definition test_call (i : Z) (name : string) : ToolCall :=
  {| timestamp := "2025-02-02T10:00:00";
     tool_name := name;
     tool_input := {[ "param" := PyInt i ]};
     tool_output := PyInt i;
     execution_time_ms := Qc_of_Z 1;
     success := true;
     error_message := None |}.

(** The calls logged by [test_get_tool_success_rate]. *)
Definition test_outcome (name : string) (ok : bool) : ToolCall :=
  {| timestamp := "2025-02-02T10:00:00";
     tool_name := name;
     tool_input := ∅;
     tool_output := if ok then PyInt 100 else PyNone;
     execution_time_ms := Qc_of_Z 1;
     success := ok;
     error_message := None |}.

Definition test_calls : list ToolCall :=
  [test_call 0 "tool_0"; test_call 1 "tool_1"; test_call 2 "tool_2";
   test_call 3 "tool_3"; test_call 4 "tool_4"].

End Telemetry.

(** ** instrument_tool (app_hybrid.py) *)

Module Instrument.
Import Telemetry.

Section Adapter.
(** The positional arguments, keyword arguments and results of the
    wrapped callables.  Python's [str] on each of them runs the object's
    own [__str__], which may raise; so does [str(e)] on an exception.
    [is_Exception e] is [isinstance(e, Exception)]: the other
    [BaseException]s ([KeyboardInterrupt], [SystemExit], ...) pass an
    [except Exception] clause. *)
Context {Args Kwargs Res : Type}.
Variable str_args : Args → Result string.
Variable str_kwargs : Kwargs → Result string.
Variable str_result : Res → Result string.
Variable str_exception : PyException → Result string.
Variable is_Exception : PyException → bool.

(** A callable may itself reach the shared collector, so it runs on the
    collector's state.  It returns or raises. *)
Definition Callable : Type :=
  Args → Kwargs → AgentTelemetry → Result Res * AgentTelemetry.

(** The object handed to [instrument_tool]: a LangChain tool carries
    [func] and [name]; a plain function carries [__name__]. *)
Record ToolFunc := {
  attr_func : option Callable;
  attr_name : option string;
  attr_dunder_name : option string;
  call_self : Callable
}.

Definition original_func (tool_func : ToolFunc) : Callable :=
  match attr_func tool_func with
  | Some f => f
  | None => call_self tool_func
  end.

Definition tool_name_of (tool_func : ToolFunc) : string :=
  match attr_name tool_func with
  | Some n => n
  | None => default "unknown" (attr_dunder_name tool_func)
  end.

(** [{"args": str(args)[:200], "kwargs": str(kwargs)[:200]}], evaluated
    from left to right. *)
Definition input_snapshot (args : Args) (kwargs : Kwargs)
  : Result (gmap string PyObj) :=
  bind (str_args args) (λ a,
  bind (str_kwargs kwargs) (λ k,
  Ok {[ "args" := PyStr (str_prefix 200 a);
        "kwargs" := PyStr (str_prefix 200 k) ]})).

(** [(time.time() - start_time) * 1000] *)
Definition elapsed_ms (start_time now : Qc) : Qc :=
  ((now - start_time) * Qc_of_Z 1000)%Qc.

(** The [except Exception as e] clause of the wrapper, entered with the
    exception [e] raised in the [try] block.  The arguments of
    [log_tool_call] are evaluated first, and an exception raised there
    leaves the clause in place of [e]; otherwise the failure is logged
    and [e] is raised again. *)
Definition handler (tool_func : ToolFunc) (start_time now : Qc)
    (now_iso : string) (args : Args) (kwargs : Kwargs)
    (e : PyException) (telemetry : AgentTelemetry)
  : Result Res * AgentTelemetry :=
  if is_Exception e then
    let execution_time_ms := elapsed_ms start_time now in
    match bind (input_snapshot args kwargs)
               (λ tool_input,
                  bind (str_exception e)
                       (λ message, Ok (tool_input, message))) with
    | Ok (tool_input, message) =>
        (Raise e,
         log_tool_call now_iso (tool_name_of tool_func) tool_input PyNone
           execution_time_ms false (Some message) telemetry)
    | Raise e' => (Raise e', telemetry)
    end
  else (Raise e, telemetry).

(** The [wrapper] closure returned by [instrument_tool tool_func
    telemetry].  [start_time] is the reading of [time.time()] before the
    call, [end_time] the reading after it (in the [try] block when the
    callable returned, in the [except] clause when it raised), and
    [late_time] the reading of the [except] clause when it is entered
    after [end_time] was read; [now_iso] is the timestamp taken by
    [log_tool_call].  The whole of
    [telemetry.log_tool_call(..., tool_output=str(result)[:200], ...)]
    is inside the [try] block. *)
Definition wrapper (tool_func : ToolFunc)
    (start_time end_time late_time : Qc) (now_iso : string)
    (args : Args) (kwargs : Kwargs) (telemetry : AgentTelemetry)
  : Result Res * AgentTelemetry :=
  match original_func tool_func args kwargs telemetry with
  | (Ok result, telemetry) =>
      let execution_time_ms := elapsed_ms start_time end_time in
      match bind (input_snapshot args kwargs)
                 (λ tool_input,
                    bind (str_result result)
                         (λ text, Ok (tool_input, text))) with
      | Ok (tool_input, text) =>
          (Ok result,
           log_tool_call now_iso (tool_name_of tool_func) tool_input
             (PyStr (str_prefix 200 text))
             execution_time_ms true None telemetry)
      | Raise e =>
          handler tool_func start_time late_time now_iso args kwargs
                  e telemetry
      end
  | (Raise e, telemetry) =>
      handler tool_func start_time end_time now_iso args kwargs e telemetry
  end.
End Adapter.

End Instrument.

(** ** The part of pandas that data_aggregator.py relies on *)

Module Pandas.

(** A scalar held by a dataset: a number, a text, or one of the two
    nulls, Python's [None] and the float [nan]. *)
Inductive Cell :=
| Num (q : Qc)
| Text (s : string)
| Null
| NotANumber.

#[global] Instance Cell_eq_dec : EqDecision Cell.
Proof. solve_decision. Defined.

(** A column.  The dtype [int64] holds 64-bit integers and no null; the
    dtype [float64] holds floats, [nan] ([None] here) being its null; the
    dtype [object] holds arbitrary scalars. *)
Inductive Series :=
| IntSeries (vals : list Z)
| NumSeries (vals : list (option Qc))
| ObjSeries (vals : list Cell).

Definition cell_of_int (z : Z) : Cell := Num (Qc_of_Z z).

Definition cell_of_num (v : option Qc) : Cell :=
  match v with
  | Some q => Num q
  | None => NotANumber
  end.

(** The values of a column, one per row. *)
Definition cells (s : Series) : list Cell :=
  match s with
  | IntSeries vals => cell_of_int <$> vals
  | NumSeries vals => cell_of_num <$> vals
  | ObjSeries vals => vals
  end.

(** [pd.api.types.is_numeric_dtype] *)
Definition is_numeric_dtype (s : Series) : bool :=
  match s with
  | IntSeries _ => true
  | NumSeries _ => true
  | ObjSeries _ => false
  end.

(** [pd.isna] on a scalar. *)
Definition is_null (c : Cell) : bool :=
  match c with
  | Null => true
  | NotANumber => true
  | _ => false
  end.

Definition notna (c : Cell) : bool := negb (is_null c).

(** A frame: the length of its index and its named columns, in order. *)
Record DataFrame := {
  nrows : nat;
  columns : list (string * Series)
}.

(** Frames built by pandas have one value per row in every column and,
    for the datasets of this program, pairwise distinct column names:
    the loader reads them with [pd.read_csv], which renames a repeated
    header, or with [pd.read_parquet].  On a frame with a repeated name
    [dataframe[column]] is a frame, not a series, and is outside this
    model. *)
Definition well_formed (df : DataFrame) : Prop :=
  Forall (λ col, length (cells col.2) = nrows df) (columns df)
  ∧ NoDup (columns df).*1.

(** [dataframe[column]] on a frame with pairwise distinct column names,
    [None] standing for [column not in dataframe.columns]. *)
Fixpoint lookup_column (cols : list (string * Series)) (column : string)
  : option Series :=
  match cols with
  | [] => None
  | (name, s) :: cols =>
      if decide (name = column) then Some s else lookup_column cols column
  end.

Definition get_column (df : DataFrame) (column : string) : option Series :=
  lookup_column (columns df) column.

(** *** Reductions of a numeric column (all skip nulls) *)

Definition dropna (vals : list (option Qc)) : list Qc := omap id vals.

(** [Series.count()]: the number of non-null values. *)
Definition series_count (cs : list Cell) : nat :=
  length (filter (λ c, notna c = true) cs).

(** The reductions whose result depends on how the library adds up an
    array.  [float_sum vals] is [Series.sum()] on a [float64] column and
    [mean_sum vals] the sum that [Series.mean()] takes before it divides:
    each one adds up the non-null values, in an order of its own.
    [grouped_sum] and [grouped_mean] are the reductions of one group of
    [groupby(g)[v].sum()] and [groupby(g)[v].mean()], as floats, on the
    rows of the group. *)
Class Reductions := {
  float_sum : list (option Qc) → Float;
  float_sum_order vals : summation (dropna vals) (float_sum vals);
  mean_sum : list (option Qc) → Float;
  mean_sum_order vals : summation (dropna vals) (mean_sum vals);
  grouped_sum : Series → Float;
  grouped_mean : Series → Float
}.

(** [Series.sum()] on an [int64] column: an [int64], the additions wrap
    around. *)
Definition int_sum (vals : list Z) : Z :=
  foldl (λ acc z, wrap64 (acc + z)) 0%Z vals.

(** [values.astype("f8")]: every integer becomes the nearest float. *)
Definition astype_float (vals : list Z) : list (option Qc) :=
  (λ z, match float_of_int z with
        | Fin q => Some q
        | _ => None
        end) <$> vals.

(** The quotient of a sum by the number [n] of values, [nan] when there
    is no value. *)
Definition mean_of (the_sum : Float) (n : nat) : Float :=
  if decide (n = 0) then NaN
  else float_div the_sum (float_of_int (Z.of_nat n)).

Definition Qc_min (a b : Qc) : Qc := if decide (a ≤ b)%Qc then a else b.
Definition Qc_max (a b : Qc) : Qc := if decide (a ≤ b)%Qc then b else a.

(** [Series.min()] and [Series.max()] on a [float64] column. *)
Definition series_min (vals : list (option Qc)) : Float :=
  match dropna vals with
  | [] => NaN
  | q :: qs => Fin (foldl Qc_min q qs)
  end.

Definition series_max (vals : list (option Qc)) : Float :=
  match dropna vals with
  | [] => NaN
  | q :: qs => Fin (foldl Qc_max q qs)
  end.

(** [float(Series.min())] and [float(Series.max())] on an [int64]
    column: the extremum is an [int64], [nan] on an empty column. *)
Definition int_min (vals : list Z) : Float :=
  match vals with
  | [] => NaN
  | z :: zs => float_of_int (foldl Z.min z zs)
  end.

Definition int_max (vals : list Z) : Float :=
  match vals with
  | [] => NaN
  | z :: zs => float_of_int (foldl Z.max z zs)
  end.

(** [Series.median()] on a [float64] column: the middle of the sorted
    non-null values, [(a + b) / 2] on the two central ones when their
    number is even. *)
Definition series_median (vals : list (option Qc)) : Float :=
  let sorted := merge_sort Qcle (dropna vals) in
  let n := length sorted in
  if Nat.odd n then
    match sorted !! (n / 2) with
    | Some m => Fin m
    | None => NaN
    end
  else
    match sorted !! (n / 2 - 1), sorted !! (n / 2) with
    | Some a, Some b =>
        float_div (float_add (Fin a) (Fin b)) (Fin (Qc_of_Z 2))
    | _, _ => NaN
    end.

(** [Series.median()] on an [int64] column: the values are converted
    to floats first. *)
Definition int_median (vals : list Z) : Float :=
  series_median (astype_float vals).

Section Sums.
Context `{!Reductions}.

(** [Series.sum()] on a [float64] column: nulls are skipped. *)
Definition series_sum (vals : list (option Qc)) : Float := float_sum vals.

(** [Series.mean()] on a [float64] column: [nan] when there is no
    non-null value. *)
Definition series_mean (vals : list (option Qc)) : Float :=
  mean_of (mean_sum vals) (length (dropna vals)).

(** [Series.mean()] on an [int64] column: the sum is taken on the
    values converted to floats. *)
Definition int_mean (vals : list Z) : Float :=
  mean_of (mean_sum (astype_float vals)) (length vals).
End Sums.

(** *** Distinct values *)

(** [Series.unique()]: the distinct values in order of first appearance;
    a null is a value like any other here, [None] and [nan] being two
    values. *)
Fixpoint unique_from (seen : list Cell) (cs : list Cell) : list Cell :=
  match cs with
  | [] => []
  | c :: cs =>
      if decide (c ∈ seen) then unique_from seen cs
      else c :: unique_from (c :: seen) cs
  end.

Definition unique (cs : list Cell) : list Cell := unique_from [] cs.

(** [Series.nunique()]: the distinct values with the nulls removed. *)
Definition nunique (cs : list Cell) : nat :=
  length (filter (λ c, notna c = true) (unique cs)).

(** *** Comparison with a scalar and boolean indexing *)

(** One element of [series == value]: a null equals nothing. *)
Definition cell_eqb (c value : Cell) : bool :=
  match c, value with
  | Num a, Num b => bool_decide (a = b)
  | Text a, Text b => bool_decide (a = b)
  | _, _ => false
  end.

Definition series_eq (s : Series) (value : Cell) : list bool :=
  (λ c, cell_eqb c value) <$> cells s.

(** The entries of [l] at the rows where [mask] holds. *)
Fixpoint select {A} (mask : list bool) (l : list A) : list A :=
  match mask, l with
  | b :: mask, x :: l => if b then x :: select mask l else select mask l
  | _, _ => []
  end.

Definition select_series (mask : list bool) (s : Series) : Series :=
  match s with
  | IntSeries vals => IntSeries (select mask vals)
  | NumSeries vals => NumSeries (select mask vals)
  | ObjSeries vals => ObjSeries (select mask vals)
  end.

Definition count_true (mask : list bool) : nat :=
  length (filter (λ b, b = true) mask).

(** [dataframe[mask]]: a new frame with the selected rows; dtypes are
    kept. *)
Definition select_rows (mask : list bool) (df : DataFrame) : DataFrame :=
  {| nrows := count_true mask;
     columns := prod_map id (select_series mask) <$> columns df |}.

(** [DataFrame.empty]: some axis has length 0. *)
Definition empty (df : DataFrame) : bool :=
  bool_decide (nrows df = 0) || bool_decide (columns df = []).

(** *** groupby *)

(** Order of the group keys: numbers before texts, each in its own
    order. *)
Definition cell_leb (a b : Cell) : bool :=
  match a, b with
  | Num x, Num y => bool_decide (x ≤ y)%Qc
  | Num _, _ => true
  | Text _, Num _ => false
  | Text x, Text y => String.leb x y
  | Text _, _ => true
  | _, Num _ => false
  | _, Text _ => false
  | _, _ => true
  end.

Definition cell_le (a b : Cell) : Prop := cell_leb a b = true.

#[global] Instance cell_le_dec : RelDecision cell_le.
Proof. intros a b. unfold cell_le. apply _. Defined.

(** The keys of [groupby(column)]: the distinct non-null values, sorted
    (rows with a null key belong to no group). *)
Definition group_keys (cs : list Cell) : list Cell :=
  merge_sort cell_le (filter (λ c, notna c = true) (unique cs)).

(** The rows of one group, as a mask. *)
Definition group_mask (cs : list Cell) (key : Cell) : list bool :=
  (λ c, bool_decide (c = key)) <$> cs.

(** [groupby(g).size()] *)
Definition groupby_size (cs : list Cell) : list (Cell * nat) :=
  (λ key, (key, count_true (group_mask cs key))) <$> group_keys cs.

Section Grouped.
Context `{!Reductions}.

(** [groupby(g)[v].sum()], with [float] applied to every value. *)
Definition groupby_sum (cs : list Cell) (v : Series)
  : list (Cell * Float) :=
  (λ key, (key, grouped_sum (select_series (group_mask cs key) v)))
    <$> group_keys cs.

(** [groupby(g)[v].mean()], with [float] applied to every value. *)
Definition groupby_mean (cs : list Cell) (v : Series)
  : list (Cell * Float) :=
  (λ key, (key, grouped_mean (select_series (group_mask cs key) v)))
    <$> group_keys cs.
End Grouped.

(** *** An implementation of the reductions: every sum is taken from
    the left *)

Definition sequential_float_sum (vals : list (option Qc)) : Float :=
  sequential_sum (dropna vals).

Lemma sequential_sum_order qs : summation qs (sequential_sum qs).
Proof.
  unfold sequential_sum. induction qs as [|q qs IH] using rev_ind.
  - apply summation_nil.
  - rewrite foldl_snoc. apply summation_add; [exact IH|].
    apply summation_one.
Qed.

Definition sequential : Reductions :=
  {| float_sum := sequential_float_sum;
     float_sum_order vals := sequential_sum_order (dropna vals);
     mean_sum := sequential_float_sum;
     mean_sum_order vals := sequential_sum_order (dropna vals);
     grouped_sum v :=
       match v with
       | IntSeries vals => float_of_int (int_sum vals)
       | NumSeries vals => sequential_float_sum vals
       | ObjSeries _ => NaN
       end;
     grouped_mean v :=
       match v with
       | IntSeries vals =>
           mean_of (sequential_float_sum (astype_float vals)) (length vals)
       | NumSeries vals =>
           mean_of (sequential_float_sum vals) (length (dropna vals))
       | ObjSeries _ => NaN
       end |}.

End Pandas.

(** ** data_aggregator.py *)

Module DataAggregator.
Import Pandas.

(** The texts of the [ValueError]s raised by the module. *)
Definition msg_not_found (column : string) : string :=
  "Column '" +:+ column +:+ "' not found".
Definition msg_not_numeric (column : string) : string :=
  "Column '" +:+ column +:+ "' is not numeric".
Definition msg_group_not_found (group_column : string) : string :=
  "Group column '" +:+ group_column +:+ "' not found".
Definition msg_value_not_found (value_column : string) : string :=
  "Value column '" +:+ value_column +:+ "' not found".
Definition msg_unknown_agg (agg_func : string) : string :=
  "Unknown aggregation function: " +:+ agg_func.
Definition msg_no_rows (filter_column filter_value : string) : string :=
  "No rows found where " +:+ filter_column +:+ " == " +:+ filter_value.

(** [get_available_aggregations] *)
Definition get_available_aggregations (df : DataFrame)
  : gmap string (list string) :=
  foldl (λ (aggregations : gmap string (list string)) col,
           if is_numeric_dtype col.2
           then <[col.1 := ["sum"; "avg"; "min"; "max"; "median"; "count"]]>
                  aggregations
           else <[col.1 := ["count"; "unique_values"]]> aggregations)
        ∅ (columns df).

(** [count_rows] and [count_columns] *)
Definition count_rows (df : DataFrame) : Z := Z.of_nat (nrows df).
Definition count_columns (df : DataFrame) : Z :=
  Z.of_nat (length (columns df)).

Section Engine.
Context `{!Reductions}.

(** [sum_column].  The two checks come first: the column exists, and its
    dtype is numeric ([is_numeric_dtype]).  [float] is applied to the
    result of the reduction: an [int64] or a [float64]. *)
Definition sum_column (df : DataFrame) (column : string) : Result Float :=
  match get_column df column with
  | None => Raise (ValueError (msg_not_found column))
  | Some s =>
      match s with
      | ObjSeries _ => Raise (ValueError (msg_not_numeric column))
      | IntSeries vals => Ok (float_of_int (int_sum vals))
      | NumSeries vals => Ok (series_sum vals)
      end
  end.

(** [average_column] *)
Definition average_column (df : DataFrame) (column : string) : Result Float :=
  match get_column df column with
  | None => Raise (ValueError (msg_not_found column))
  | Some s =>
      match s with
      | ObjSeries _ => Raise (ValueError (msg_not_numeric column))
      | IntSeries vals => Ok (int_mean vals)
      | NumSeries vals => Ok (series_mean vals)
      end
  end.

(** [min_column] *)
Definition min_column (df : DataFrame) (column : string) : Result Float :=
  match get_column df column with
  | None => Raise (ValueError (msg_not_found column))
  | Some s =>
      match s with
      | ObjSeries _ => Raise (ValueError (msg_not_numeric column))
      | IntSeries vals => Ok (int_min vals)
      | NumSeries vals => Ok (series_min vals)
      end
  end.

(** [max_column] *)
Definition max_column (df : DataFrame) (column : string) : Result Float :=
  match get_column df column with
  | None => Raise (ValueError (msg_not_found column))
  | Some s =>
      match s with
      | ObjSeries _ => Raise (ValueError (msg_not_numeric column))
      | IntSeries vals => Ok (int_max vals)
      | NumSeries vals => Ok (series_max vals)
      end
  end.

(** [median_column] *)
Definition median_column (df : DataFrame) (column : string) : Result Float :=
  match get_column df column with
  | None => Raise (ValueError (msg_not_found column))
  | Some s =>
      match s with
      | ObjSeries _ => Raise (ValueError (msg_not_numeric column))
      | IntSeries vals => Ok (int_median vals)
      | NumSeries vals => Ok (series_median vals)
      end
  end.
End Engine.

(** [count_column] *)
Definition count_column (df : DataFrame) (column : string) : Result Z :=
  match get_column df column with
  | None => Raise (ValueError (msg_not_found column))
  | Some s => Ok (Z.of_nat (series_count (cells s)))
  end.

(** [unique_count] *)
Definition unique_count (df : DataFrame) (column : string) : Result Z :=
  match get_column df column with
  | None => Raise (ValueError (msg_not_found column))
  | Some s => Ok (Z.of_nat (nunique (cells s)))
  end.

(** [unique_values] *)
Definition unique_values (df : DataFrame) (column : string)
  : Result (list Cell) :=
  match get_column df column with
  | None => Raise (ValueError (msg_not_found column))
  | Some s =>
      let unique_vals := unique (cells s) in
      Ok (take 20 unique_vals)
  end.

(** A dict comprehension [{k: v for k, v in items}]: a later item
    replaces an earlier one with the same key. *)
Definition dict_of_items {V} (items : list (string * V)) : gmap string V :=
  foldl (λ (d : gmap string V) item, <[item.1 := item.2]> d) ∅ items.

Section Str.
(** Python's [str] on a number. *)
Variable str_num : Qc → string.
Context `{!Reductions}.

(** [str(k)] on a scalar. *)
Definition py_str (c : Cell) : string :=
  match c with
  | Num q => str_num q
  | Text s => s
  | Null => "None"
  | NotANumber => "nan"
  end.

(** [groupby_sum] *)
Definition groupby_sum (df : DataFrame) (group_column value_column : string)
  : Result (gmap string Float) :=
  match get_column df group_column with
  | None => Raise (ValueError (msg_group_not_found group_column))
  | Some g =>
      match get_column df value_column with
      | None => Raise (ValueError (msg_value_not_found value_column))
      | Some v =>
          if is_numeric_dtype v then
            let grouped := Pandas.groupby_sum (cells g) v in
            Ok (dict_of_items (prod_map py_str id <$> grouped))
          else Raise (ValueError (msg_not_numeric value_column))
      end
  end.

(** [groupby_average] *)
Definition groupby_average (df : DataFrame)
    (group_column value_column : string)
  : Result (gmap string Float) :=
  match get_column df group_column with
  | None => Raise (ValueError (msg_group_not_found group_column))
  | Some g =>
      match get_column df value_column with
      | None => Raise (ValueError (msg_value_not_found value_column))
      | Some v =>
          if is_numeric_dtype v then
            let grouped := Pandas.groupby_mean (cells g) v in
            Ok (dict_of_items (prod_map py_str id <$> grouped))
          else Raise (ValueError (msg_not_numeric value_column))
      end
  end.

(** [groupby_count] *)
Definition groupby_count (df : DataFrame) (group_column : string)
  : Result (gmap string Z) :=
  match get_column df group_column with
  | None => Raise (ValueError (msg_group_not_found group_column))
  | Some g =>
      let grouped := Pandas.groupby_size (cells g) in
      Ok (dict_of_items (prod_map py_str Z.of_nat <$> grouped))
  end.

(** [filter_and_aggregate].  Indexing the frame with an unknown
    [filter_column] raises pandas' [KeyError]. *)
Definition filter_and_aggregate (df : DataFrame)
    (filter_column : string) (filter_value : Cell)
    (agg_column agg_func : string)
  : Result PyObj :=
  match get_column df filter_column with
  | None => Raise (KeyError filter_column)
  | Some s =>
      let filtered := select_rows (series_eq s filter_value) df in
      if empty filtered then
        Raise (ValueError (msg_no_rows filter_column (py_str filter_value)))
      else if decide (agg_func = "sum") then
        bind (sum_column filtered agg_column) (λ x, Ok (PyFloat x))
      else if decide (agg_func = "avg") then
        bind (average_column filtered agg_column) (λ x, Ok (PyFloat x))
      else if decide (agg_func = "min") then
        bind (min_column filtered agg_column) (λ x, Ok (PyFloat x))
      else if decide (agg_func = "max") then
        bind (max_column filtered agg_column) (λ x, Ok (PyFloat x))
      else if decide (agg_func = "median") then
        bind (median_column filtered agg_column) (λ x, Ok (PyFloat x))
      else if decide (agg_func = "count") then
        bind (count_column filtered agg_column) (λ n, Ok (PyInt n))
      else
        Raise (ValueError (msg_unknown_agg agg_func))
  end.
End Str.

(** *** Notions used to state the properties *)

(** The mathematical sum of a list of numbers. *)
Definition math_sum (qs : list Qc) : Qc := foldr Qcplus 0%Qc qs.

(** The non-null values of a numeric column, as numbers. *)
Definition numeric_values (s : Series) : list Qc :=
  match s with
  | IntSeries vals => Qc_of_Z <$> vals
  | NumSeries vals => dropna vals
  | ObjSeries _ => []
  end.

(** [float] applied to a value of a numeric column: the nearest float
    for an [int64], the value itself for a [float64]. *)
Definition float_of_value (s : Series) (q : Qc) : Float :=
  match s with
  | IntSeries _ => round64 q
  | _ => Fin q
  end.

(** The sum of a list of integers, and the sum of their absolute
    values. *)
Definition int_total (zs : list Z) : Z := foldr Z.add 0%Z zs.
Definition abs_total (zs : list Z) : Z :=
  foldr (λ z acc, (Z.abs z + acc)%Z) 0%Z zs.

(** The sum of the partition sizes held by a result of [groupby_count]. *)
Definition sum_values (d : gmap string Z) : Z :=
  map_fold (λ _ v acc, (v + acc)%Z) 0%Z d.

(** The rows of a column whose value is null. *)
Definition null_rows (cs : list Cell) : nat :=
  length (filter (λ c, is_null c = true) cs).

(** A message identifies a column when it contains the column's name. *)
Definition identifies (msg column : string) : bool :=
  match String.index 0 column msg with
  | Some _ => true
  | None => false
  end.

(** The six keywords of [filter_and_aggregate]. *)
Definition supported_aggregations : list string :=
  ["sum"; "avg"; "min"; "max"; "median"; "count"].

(** *** Datasets of the examples *)

Definition int_cell (z : Z) : option Qc := Some (Qc_of_Z z).

(** The fixture [sample_df] of test_aggregator.py. *)
Definition sample_df : DataFrame :=
  {| nrows := 5;
     columns :=
       [("Name", ObjSeries [Text "Alice"; Text "Bob"; Text "Charlie";
                            Text "Diana"; Text "Eve"]);
        ("Department", ObjSeries [Text "Sales"; Text "IT"; Text "Sales";
                                  Text "HR"; Text "IT"]);
        ("Salary", IntSeries [50000; 80000; 55000; 60000; 85000]%Z);
        ("Age", IntSeries [25; 30; 28; 35; 32]%Z);
        ("Bonus", IntSeries [5000; 10000; 5500; 6000; 8500]%Z)] |}.

(** Python's [str] on the integers ([str(1) == "1"]); the examples
    render no other number. *)
Definition str_int (q : Qc) : string := pretty (Qnum q).

(** A frame whose column [g] holds the integer 1 and the text ["1"]:
    [pd.DataFrame({"g": [1, "1"]})]. *)
Definition mixed_df : DataFrame :=
  {| nrows := 2;
     columns := [("g", ObjSeries [Num (Qc_of_Z 1); Text "1"])] |}.

(** A frame with a null group key:
    [pd.DataFrame({"g": ["a", None, "a"], "v": [1.0, 2.0, None]})]. *)
Definition null_key_df : DataFrame :=
  {| nrows := 3;
     columns := [("g", ObjSeries [Text "a"; Null; Text "a"]);
                 ("v", NumSeries [int_cell 1; int_cell 2; None])] |}.

(** An [int64] column whose sum does not fit in 64 bits:
    [pd.DataFrame({"v": [2**62, 2**62]})]. *)
Definition overflow_df : DataFrame :=
  {| nrows := 2; columns := [("v", IntSeries [2 ^ 62; 2 ^ 62]%Z)] |}.

(** The finite value of a float. *)
Definition float_value (x : Float) : option Qc :=
  match x with
  | Fin q => Some q
  | _ => None
  end.

(** A [float64] column of three floats:
    [pd.DataFrame({"v": [0.1, 0.2, 0.3]})]. *)
Definition tenths_df : DataFrame :=
  {| nrows := 3;
     columns :=
       [("v", NumSeries [float_value (round64 (Q2Qc (1 # 10)));
                         float_value (round64 (Q2Qc (2 # 10)));
                         float_value (round64 (Q2Qc (3 # 10)))])] |}.

(** An [object] column that holds both nulls:
    [pd.DataFrame({"c": ["a", None, float("nan"), "a"]})]. *)
Definition two_nulls_df : DataFrame :=
  {| nrows := 4;
     columns := [("c", ObjSeries [Text "a"; Null; NotANumber; Text "a"])] |}.

End DataAggregator.

(** ** create_aggregation_tools (app_hybrid.py) *)

Module AggregationTools.
Import Pandas DataAggregator Telemetry Instrument.

(** What a tool hands back to the agent: a number, a dictionary of
    group results, or a text (an error message). *)
Inductive ToolOutput :=
| OutFloat (x : Float)
| OutInt (n : Z)
| OutStr (s : string)
| OutFloatDict (d : gmap string Float)
| OutIntDict (d : gmap string Z).

#[global] Instance ToolOutput_eq_dec : EqDecision ToolOutput.
Proof. solve_decision. Defined.

(** The body shared by the aggregation tools:
    [try: return <call> except ValueError as e: return f"Error: {str(e)}"].
    Only a [ValueError] is caught. *)
Definition or_error_text {A} (wrap : A → ToolOutput) (call : Result A)
  : Result ToolOutput :=
  match call with
  | Ok a => Ok (wrap a)
  | Raise e =>
      if decide (exc_class e = "ValueError")
      then Ok (OutStr ("Error: " +:+ exc_str e))
      else Raise e
  end.

Section Tools.
(** The frame the tools are created for, and Python's [str] on numbers. *)
Variable str_num : Qc → string.
Context `{!Reductions}.
Variable df : DataFrame.

Definition sum_column_tool (column_name : string) : Result ToolOutput :=
  or_error_text OutFloat (sum_column df column_name).

Definition average_column_tool (column_name : string) : Result ToolOutput :=
  or_error_text OutFloat (average_column df column_name).

Definition min_column_tool (column_name : string) : Result ToolOutput :=
  or_error_text OutFloat (min_column df column_name).

Definition max_column_tool (column_name : string) : Result ToolOutput :=
  or_error_text OutFloat (max_column df column_name).

Definition count_column_tool (column_name : string) : Result ToolOutput :=
  or_error_text OutInt (count_column df column_name).

Definition groupby_sum_tool (group_column value_column : string)
  : Result ToolOutput :=
  or_error_text OutFloatDict
    (groupby_sum str_num df group_column value_column).

Definition groupby_average_tool (group_column value_column : string)
  : Result ToolOutput :=
  or_error_text OutFloatDict
    (groupby_average str_num df group_column value_column).

Definition groupby_count_tool (group_column : string) : Result ToolOutput :=
  or_error_text OutIntDict (groupby_count str_num df group_column).

(** [filter_count]: the column is tested by the tool itself, then the
    rows equal to [value] are counted ([len(df[df[column_name] == value])]). *)
Definition filter_count_tool (column_name : string) (value : Cell)
  : Result ToolOutput :=
  match get_column df column_name with
  | None => Ok (OutStr ("Error: Column '" +:+ column_name +:+ "' not found"))
  | Some s => Ok (OutInt (Z.of_nat (nrows (select_rows (series_eq s value) df))))
  end.

(** One call of a tool of the list returned by
    [create_aggregation_tools], with its arguments.  ([get_statistics],
    [get_columns] and [get_column_sample] are not part of the model.) *)
Inductive ToolRequest :=
| SumColumn (column_name : string)
| AverageColumn (column_name : string)
| MinColumn (column_name : string)
| MaxColumn (column_name : string)
| CountColumn (column_name : string)
| GroupbySum (group_column value_column : string)
| GroupbyAverage (group_column value_column : string)
| GroupbyCount (group_column : string)
| FilterCount (column_name : string) (value : Cell).

Definition run_tool (r : ToolRequest) : Result ToolOutput :=
  match r with
  | SumColumn c => sum_column_tool c
  | AverageColumn c => average_column_tool c
  | MinColumn c => min_column_tool c
  | MaxColumn c => max_column_tool c
  | CountColumn c => count_column_tool c
  | GroupbySum g v => groupby_sum_tool g v
  | GroupbyAverage g v => groupby_average_tool g v
  | GroupbyCount g => groupby_count_tool g
  | FilterCount c value => filter_count_tool c value
  end.

(** The call of the engine that a tool wraps, with its result injected
    into the outputs ([filter_count] has none). *)
Definition engine_call (r : ToolRequest) : option (Result ToolOutput) :=
  match r with
  | SumColumn c => Some (bind (sum_column df c) (λ x, Ok (OutFloat x)))
  | AverageColumn c => Some (bind (average_column df c) (λ x, Ok (OutFloat x)))
  | MinColumn c => Some (bind (min_column df c) (λ x, Ok (OutFloat x)))
  | MaxColumn c => Some (bind (max_column df c) (λ x, Ok (OutFloat x)))
  | CountColumn c => Some (bind (count_column df c) (λ n, Ok (OutInt n)))
  | GroupbySum g v =>
      Some (bind (groupby_sum str_num df g v) (λ d, Ok (OutFloatDict d)))
  | GroupbyAverage g v =>
      Some (bind (groupby_average str_num df g v) (λ d, Ok (OutFloatDict d)))
  | GroupbyCount g =>
      Some (bind (groupby_count str_num df g) (λ d, Ok (OutIntDict d)))
  | FilterCount _ _ => None
  end.
End Tools.

(** *** An aggregation tool behind [instrument_tool] *)

Section Instrumented.
Context {Args Kwargs X : Type}.

(** Calling the function of a tool: Python binds the positional and
    keyword arguments to the parameters ([bind_args], which raises when
    they do not fit), then runs the body.  The body of an aggregation
    tool does not touch the collector. *)
Definition tool_callable (bind_args : Args → Kwargs → Result X)
    (body : X → Result ToolOutput)
  : Callable (Args:=Args) (Kwargs:=Kwargs) (Res:=ToolOutput) :=
  λ args kwargs telemetry, (bind (bind_args args kwargs) body, telemetry).
End Instrumented.

(** *** Datasets of the examples *)

(** A numeric column without any value:
    [pd.DataFrame({"v": [float("nan"), float("nan")]})]. *)
Definition all_null_df : DataFrame :=
  {| nrows := 2; columns := [("v", NumSeries [None; None])] |}.

(** The [sum_column] tool made for a frame, as [instrument_tool]
    receives it: the [@tool] object carries the decorated function in
    [func] and its name in [name].  The call of the example passes the
    column name as the one positional argument. *)
Definition sum_column_tool_object `{!Reductions}
    (str_num : Qc → string) (df : DataFrame)
  : ToolFunc (Args:=string) (Kwargs:=unit) (Res:=ToolOutput) :=
  let func :=
    tool_callable (λ (column_name : string) (_ : unit), Ok column_name)
                  (λ column_name,
                     run_tool str_num df (SumColumn column_name)) in
  {| attr_func := Some func;
     attr_name := Some "sum_column";
     attr_dunder_name := None;
     call_self := func |}.

(** A result whose [__str__] raises, and a callable that returns it. *)
Inductive Unprintable := unprintable.

Definition str_unprintable (_ : Unprintable) : Result string :=
  Raise (ValueError "no text").

Definition returns_unprintable
  : ToolFunc (Args:=unit) (Kwargs:=unit) (Res:=Unprintable) :=
  let func : Callable := λ _ _ telemetry, (Ok unprintable, telemetry) in
  {| attr_func := None;
     attr_name := None;
     attr_dunder_name := Some "returns_unprintable";
     call_self := func |}.

End AggregationTools.

(** * Facts about binary64 rounding and 64-bit integers *)

Module Float64Facts.
Import Pandas DataAggregator.
Local Open Scope Z_scope.

Lemma pow2_nonzero k : 0 ≤ k → Qc_of_Z (2 ^ k) ≠ 0%Qc.
Proof.
  intros Hk Heq. rewrite <-Z2Qc_inj_0 in Heq. apply Z2Qc_inj in Heq.
  pose proof (Z.pow_pos_nonneg 2 k). lia.
Qed.

Lemma round_half_even_1 n : round_half_even n 1 = n.
Proof.
  unfold round_half_even. rewrite Z.mod_1_r, Z.div_1_r. done.
Qed.

Lemma floor_log2_int n : 0 < n → floor_log2 n 1 = Z.log2 n.
Proof.
  intros Hn. unfold floor_log2. change (Z.log2 1) with 0. rewrite Z.sub_0_r.
  pose proof (Z.log2_nonneg n). pose proof (Z.log2_spec n Hn).
  destruct (Z.leb_spec 0 (Z.log2 n)); [|lia].
  destruct (Z.leb_spec (1 * 2 ^ Z.log2 n) n); lia.
Qed.

(** The significand that [round64] computes for a positive integer of
    at most 53 bits, or for [2 ^ 53]. *)
Lemma round64_nat n :
  0 < n ≤ 2 ^ 53 →
  let e := Z.log2 n - 52 in
  (if 0 <=? e then round_half_even n (1 * 2 ^ e)
   else round_half_even (n * 2 ^ (- e)) 1)
  = (if 0 <=? e then n `div` 2 ^ e else n * 2 ^ (- e))
  ∧ (0 ≤ e → n = (n `div` 2 ^ e) * 2 ^ e)
  ∧ -52 ≤ e ≤ 1.
Proof.
  intros [Hpos Hle] e.
  pose proof (Z.log2_nonneg n). pose proof (Z.log2_spec n Hpos) as [Hlo Hhi].
  assert (Z.log2 n ≤ 53) as Hlog.
  { pose proof (Z.log2_le_mono n (2 ^ 53) Hle) as Hm.
    by rewrite Z.log2_pow2 in Hm. }
  assert (-52 ≤ e ≤ 1) as He by (unfold e; lia).
  destruct (Z.leb_spec 0 e) as [Hnn|Hneg].
  - assert (e = 0 ∨ e = 1) as [He0|He1] by lia.
    + rewrite He0. change (1 * 2 ^ 0) with 1. rewrite round_half_even_1.
      rewrite Z.div_1_r. split; [done|]. split; [lia|done].
    + assert (Z.log2 n = 53) as H53 by (unfold e in He1; lia).
      rewrite H53 in Hlo. assert (n = 2 ^ 53) as -> by lia.
      rewrite He1. split; [by vm_compute|]. split; [by vm_compute|done].
  - rewrite round_half_even_1. split; [done|]. split; [lia|done].
Qed.

(** An integer of magnitude at most [2 ^ 53] is a float. *)
Lemma round64_int z :
  Z.abs z ≤ 2 ^ 53 → round64 (Qc_of_Z z) = Fin (Qc_of_Z z).
Proof.
  intros Hz. unfold round64.
  change (Qnum (Qc_of_Z z)) with z. change (Z.pos (Qden (Qc_of_Z z))) with 1.
  destruct (Z.eqb_spec (Z.abs z) 0) as [H0|Hnz].
  { assert (z = 0) as -> by lia. by rewrite Z2Qc_inj_0. }
  assert (0 < Z.abs z ≤ 2 ^ 53) as Hn by lia.
  rewrite floor_log2_int by lia.
  destruct (round64_nat (Z.abs z) Hn) as (Hm & Hdiv & He).
  rewrite Z.max_l by lia. cbv zeta in Hm. rewrite Hm.
  set (e := Z.log2 (Z.abs z) - 52) in *.
  assert (Fin ((if z <? 0 then - Qc_of_Z (Z.abs z) else Qc_of_Z (Z.abs z)))
          = Fin (Qc_of_Z z)) as Hsign.
  { f_equal. destruct (Z.ltb_spec z 0).
    - rewrite <-Z2Qc_inj_opp. f_equal. lia.
    - f_equal. lia. }
  rewrite <-Hsign. unfold pow2.
  destruct (Z.leb_spec 0 e) as [Hnn|Hneg].
  - specialize (Hdiv Hnn).
    assert (Z.abs z `div` 2 ^ e * 2 ^ e < 2 ^ 1024) as Hsmall.
    { rewrite <-Hdiv. eapply Z.le_lt_trans; [apply Hn|]. by vm_compute. }
    destruct (Z.leb_spec (2 ^ 1024) (Z.abs z `div` 2 ^ e * 2 ^ e)); [lia|].
    simpl. f_equal.
    set (d := Z.abs z `div` 2 ^ e) in *. clearbody d.
    rewrite Hdiv, Z2Qc_inj_mul. destruct (z <? 0); ring.
  - simpl. f_equal. rewrite Z2Qc_inj_mul.
    pose proof (pow2_nonzero (- e) ltac:(lia)) as Hne.
    destruct (z <? 0); field; done.
Qed.

Lemma float_of_int_exact z :
  Z.abs z ≤ 2 ^ 53 → float_of_int z = Fin (Qc_of_Z z).
Proof. apply round64_int. Qed.

(** The sum of two integers is exact when it is small enough. *)
Lemma float_add_int a b :
  Z.abs (a + b) ≤ 2 ^ 53 →
  float_add (Fin (Qc_of_Z a)) (Fin (Qc_of_Z b)) = Fin (Qc_of_Z (a + b)).
Proof.
  intros Hab. simpl. rewrite <-Z2Qc_inj_add. by apply round64_int.
Qed.

(** *** 64-bit integers *)

Lemma wrap64_id z : - 2 ^ 63 ≤ z < 2 ^ 63 → wrap64 z = z.
Proof. intros Hz. unfold wrap64. rewrite Z.mod_small; lia. Qed.

Lemma wrap64_add a z : wrap64 (wrap64 a + z) = wrap64 (a + z).
Proof.
  unfold wrap64.
  replace ((a + 2 ^ 63) `mod` 2 ^ 64 - 2 ^ 63 + z + 2 ^ 63)
    with ((a + 2 ^ 63) `mod` 2 ^ 64 + z) by lia.
  replace (a + z + 2 ^ 63) with ((a + 2 ^ 63) + z) by lia.
  by rewrite Zplus_mod_idemp_l.
Qed.

(** The additions wrap one by one; the result is the wrapped total. *)
Lemma int_sum_wrap vals : int_sum vals = wrap64 (int_total vals).
Proof.
  unfold int_sum, int_total.
  induction vals as [|z vals IH] using rev_ind; [done|].
  rewrite foldl_snoc, foldr_app, IH. simpl.
  rewrite wrap64_add. f_equal.
  generalize vals. clear. intros vals.
  induction vals as [|v vals IH]; simpl; [lia|].
  rewrite <-IH. lia.
Qed.

Lemma int_total_app zs1 zs2 :
  int_total (zs1 ++ zs2) = int_total zs1 + int_total zs2.
Proof.
  unfold int_total. induction zs1 as [|z zs1 IH]; simpl; [done|].
  rewrite IH. lia.
Qed.

Lemma abs_total_app zs1 zs2 :
  abs_total (zs1 ++ zs2) = abs_total zs1 + abs_total zs2.
Proof.
  unfold abs_total. induction zs1 as [|z zs1 IH]; simpl; [done|].
  rewrite IH. lia.
Qed.

Lemma abs_total_nonneg zs : 0 ≤ abs_total zs.
Proof. unfold abs_total. induction zs as [|z zs IH]; simpl; lia. Qed.

Lemma int_total_bound zs : Z.abs (int_total zs) ≤ abs_total zs.
Proof.
  unfold int_total, abs_total. induction zs as [|z zs IH]; simpl; lia.
Qed.

Lemma int_total_Permutation zs1 zs2 :
  zs1 ≡ₚ zs2 → int_total zs1 = int_total zs2.
Proof.
  unfold int_total. induction 1; simpl; lia.
Qed.

Lemma abs_total_Permutation zs1 zs2 :
  zs1 ≡ₚ zs2 → abs_total zs1 = abs_total zs2.
Proof.
  unfold abs_total. induction 1; simpl; lia.
Qed.

Lemma abs_total_elem z zs : z ∈ zs → Z.abs z ≤ abs_total zs.
Proof.
  induction 1 as [z zs|z z' zs Hin IH]; simpl.
  - pose proof (abs_total_nonneg zs). unfold abs_total in *. lia.
  - unfold abs_total in *. simpl. lia.
Qed.

(** *** Sums of floats *)

(** Whatever the order of the additions, a sum of integers is exact as
    long as the absolute values add up to at most [2 ^ 53]: no partial
    sum needs rounding. *)
Lemma summation_exact l x :
  summation l x →
  ∀ zs, l = Qc_of_Z <$> zs → abs_total zs ≤ 2 ^ 53 →
        x = Fin (Qc_of_Z (int_total zs)).
Proof.
  induction 1 as [|q|l1 l2 x y _ IH1 _ IH2|l l' x Hperm _ IH];
    intros zs Hzs Hbound.
  - symmetry in Hzs. apply fmap_nil_inv in Hzs as ->.
    change (int_total []) with 0. by rewrite Z2Qc_inj_0.
  - destruct zs as [|z [|z' zs]]; simplify_eq/=.
    unfold int_total; simpl. by rewrite Z.add_0_r.
  - symmetry in Hzs.
    apply fmap_app_inv in Hzs as (zs1 & zs2 & -> & -> & ->).
    rewrite abs_total_app in Hbound.
    pose proof (abs_total_nonneg zs1). pose proof (abs_total_nonneg zs2).
    rewrite (IH1 zs1), (IH2 zs2) by (done || lia).
    rewrite int_total_app. apply float_add_int.
    pose proof (int_total_bound zs1). pose proof (int_total_bound zs2). lia.
  - subst l'. change (Qc_of_Z <$> zs) with (map Qc_of_Z zs) in Hperm.
    apply Permutation_map_inv in Hperm as (zs' & -> & Hzs).
    rewrite (int_total_Permutation zs zs') by done.
    apply IH; [done|]. by rewrite <-(abs_total_Permutation zs zs').
Qed.

(** A sum of no value is [0.0]. *)
Lemma summation_nil_inv x : summation [] x → x = Fin 0%Qc.
Proof.
  intros Hx. rewrite (summation_exact [] x Hx []); [|done|by vm_compute].
  change (int_total []) with 0. by rewrite Z2Qc_inj_0.
Qed.

End Float64Facts.

(** * Properties of the telemetry collector *)

Module TelemetryFacts.
Import Telemetry.
Local Open Scope Z_scope.

Lemma record_tool_calls c self :
  tool_calls (record c self) =
    if max_history self <? Z.of_nat (length (tool_calls self ++ [c]))
    then drop 1 (tool_calls self ++ [c])
    else tool_calls self ++ [c].
Proof.
  destruct c; unfold record, log_tool_call, pop_front; simpl.
  by case_match.
Qed.

Lemma record_max_history c self :
  max_history (record c self) = max_history self.
Proof. done. Qed.

Lemma step_max_history self op : max_history (step self op) = max_history self.
Proof. by destruct op. Qed.

Lemma step_session_start self op :
  session_start_time (step self op) = session_start_time self.
Proof. by destruct op. Qed.

Lemma run_max_history ops self : max_history (run ops self) = max_history self.
Proof.
  revert self; induction ops as [|op ops IH]; intros self; [done|].
  unfold run in *; simpl. by rewrite IH, step_max_history.
Qed.

Lemma run_session_start ops self :
  session_start_time (run ops self) = session_start_time self.
Proof.
  revert self; induction ops as [|op ops IH]; intros self; [done|].
  unfold run in *; simpl. by rewrite IH, step_session_start.
Qed.

Lemma record_bounded c self :
  0 ≤ max_history self → bounded self → bounded (record c self).
Proof.
  unfold bounded; intros Hm Hb.
  rewrite record_max_history, record_tool_calls.
  case_match eqn:Hlt.
  - rewrite length_drop, length_app; simpl. lia.
  - apply Z.ltb_ge in Hlt. done.
Qed.

Lemma step_bounded op self :
  0 ≤ max_history self → bounded self → bounded (step self op).
Proof.
  intros Hm Hb.
  destruct op as [c| | | | | | |];
    [by apply record_bounded | unfold bounded, step; simpl; lia | done..].
Qed.

Lemma run_bounded ops self :
  0 ≤ max_history self → bounded self → bounded (run ops self).
Proof.
  revert self; induction ops as [|op ops IH]; intros self Hm Hb; [done|].
  unfold run in *; simpl. apply IH.
  - by rewrite step_max_history.
  - by apply step_bounded.
Qed.

Lemma init_bounded now m : 0 ≤ m → bounded (init now m).
Proof. unfold bounded; simpl; lia. Qed.

(** A collector is determined by its three fields. *)
Lemma telemetry_eq (a b : AgentTelemetry) :
  max_history a = max_history b →
  tool_calls a = tool_calls b →
  session_start_time a = session_start_time b →
  a = b.
Proof. destruct a, b; simpl; congruence. Qed.

(** Recording a batch keeps the newest [max_history] records of the old
    history followed by the batch. *)
Lemma run_records cs self :
  0 ≤ max_history self → bounded self →
  tool_calls (run (OpRecord <$> cs) self) =
    drop (length (tool_calls self ++ cs) - Z.to_nat (max_history self))
         (tool_calls self ++ cs).
Proof.
  revert self; induction cs as [|c cs IH]; intros self Hm Hb.
  - simpl. rewrite app_nil_r. unfold bounded in Hb.
    replace (length (tool_calls self) - Z.to_nat (max_history self))%nat
      with 0%nat by lia.
    done.
  - unfold run in *; simpl.
    change (step self (OpRecord c)) with (record c self).
    rewrite IH; [|by rewrite record_max_history|by apply record_bounded].
    rewrite record_max_history, record_tool_calls.
    unfold bounded in Hb.
    case_match eqn:Hlt.
    + apply Z.ltb_lt in Hlt. rewrite length_app in Hlt; simpl in Hlt.
      replace (drop 1 (tool_calls self ++ [c]) ++ cs)
        with (drop 1 (tool_calls self ++ c :: cs)).
      2:{ rewrite (cons_middle c), app_assoc.
          rewrite (drop_app (tool_calls self ++ [c])).
          rewrite length_app; simpl.
          replace (1 - (length (tool_calls self) + 1))%nat with 0%nat by lia.
          done. }
      rewrite drop_drop, length_drop, !length_app; simpl.
      f_equal. lia.
    + by rewrite <-app_assoc.
Qed.

(** *** The per-tool dictionaries *)

Lemma calls_of_snoc t l c :
  calls_of t (l ++ [c]) =
    calls_of t l ++ (if decide (tool_name c = t) then [c] else []).
Proof.
  unfold calls_of. by rewrite filter_app.
Qed.

Lemma calls_of_nil_iff t l : calls_of t l = [] ↔ t ∉ tool_name <$> l.
Proof.
  unfold calls_of. rewrite list_elem_of_fmap. split.
  - intros Hnil (c & -> & Hc).
    assert (c ∈ filter (λ c', tool_name c' = tool_name c) l) as Hin
      by by apply list_elem_of_filter.
    rewrite Hnil in Hin. by apply not_elem_of_nil in Hin.
  - intros Hno. destruct (filter _ l) as [|c k] eqn:Hf; [done|].
    assert (c ∈ filter (λ c', tool_name c' = t) l) as Hin
      by (rewrite Hf; left).
    apply list_elem_of_filter in Hin as [<- Hin]. destruct Hno; eauto.
Qed.

Lemma counts_lookup l t :
  foldl count_call ∅ l !! t =
    if decide (calls_of t l = []) then None
    else Some (Z.of_nat (length (calls_of t l))).
Proof.
  induction l as [|c l IH] using rev_ind; [done|].
  rewrite foldl_snoc, calls_of_snoc. unfold count_call at 1.
  destruct (decide (tool_name c = t)) as [<-|Hne].
  - rewrite lookup_insert_eq, IH.
    case_decide as Hnil.
    + rewrite Hnil; simpl. done.
    + case_decide as Hnil'; [by apply app_eq_nil in Hnil' as [_ ?]|].
      rewrite length_app; simpl. f_equal. lia.
  - rewrite lookup_insert_ne, IH, app_nil_r by done. done.
Qed.

Lemma tally_lookup m c t :
  tally m c !! t =
    if decide (tool_name c = t) then
      let st := default {| total := 0; successes := 0 |} (m !! t) in
      Some {| total := total st + 1;
              successes := successes st + (if success c then 1 else 0) |}
    else m !! t.
Proof.
  unfold tally. destruct (decide (tool_name c = t)) as [<-|Hne].
  - destruct (m !! tool_name c) as [st|] eqn:Hm, (success c);
      rewrite ?lookup_alter_eq, ?lookup_insert_eq, ?Hm; simpl;
      do 2 f_equal; lia.
  - destruct (m !! tool_name c), (success c);
      by rewrite ?lookup_alter_ne, ?lookup_insert_ne by done.
Qed.

Lemma successful_app l k : successful (l ++ k) = successful l ++ successful k.
Proof. apply filter_app. Qed.

Lemma successful_singleton c :
  successful [c] = if success c then [c] else [].
Proof.
  unfold successful. rewrite filter_cons, filter_nil.
  destruct (success c); by case_decide.
Qed.

Lemma tally_fold_lookup l t :
  foldl tally ∅ l !! t =
    if decide (calls_of t l = []) then None
    else Some {| total := Z.of_nat (length (calls_of t l));
                 successes := Z.of_nat (length (successful (calls_of t l))) |}.
Proof.
  induction l as [|c l IH] using rev_ind; [done|].
  rewrite foldl_snoc, calls_of_snoc, tally_lookup.
  destruct (decide (tool_name c = t)) as [<-|Hne].
  - rewrite IH. case_decide as Hnil.
    + rewrite Hnil; simpl. rewrite successful_singleton.
      by destruct (success c).
    + case_decide as Hnil'; [by apply app_eq_nil in Hnil' as [_ ?]|].
      simpl. rewrite successful_app, successful_singleton, !length_app; simpl.
      do 2 f_equal; [lia|].
      destruct (success c); simpl; lia.
  - by rewrite IH, app_nil_r.
Qed.

Lemma collect_time_lookup m c t :
  collect_time m c !! t =
    if decide (tool_name c = t) then
      Some (default [] (m !! t) ++ [execution_time_ms c])
    else m !! t.
Proof.
  unfold collect_time. destruct (decide (tool_name c = t)) as [<-|Hne].
  - destruct (m !! tool_name c) as [ts|] eqn:Hm;
      by rewrite ?lookup_alter_eq, ?lookup_insert_eq, ?Hm.
  - destruct (m !! tool_name c);
      by rewrite ?lookup_alter_ne, ?lookup_insert_ne by done.
Qed.

Lemma collect_time_fold_lookup l t :
  foldl collect_time ∅ l !! t =
    if decide (calls_of t l = []) then None
    else Some (execution_time_ms <$> calls_of t l).
Proof.
  induction l as [|c l IH] using rev_ind; [done|].
  rewrite foldl_snoc, calls_of_snoc, collect_time_lookup.
  destruct (decide (tool_name c = t)) as [<-|Hne].
  - rewrite IH. case_decide as Hnil.
    + by rewrite Hnil.
    + case_decide as Hnil'; [by apply app_eq_nil in Hnil' as [_ ?]|].
      simpl. by rewrite fmap_app.
  - by rewrite IH, app_nil_r.
Qed.

(** A tool without retained calls has no entry in any of the three
    dictionaries. *)
Lemma counts_absent self t :
  t ∉ tool_name <$> tool_calls self → get_tool_call_counts self !! t = None.
Proof.
  intros Hno%calls_of_nil_iff. unfold get_tool_call_counts.
  rewrite counts_lookup. by case_decide.
Qed.

Lemma rates_absent self t :
  t ∉ tool_name <$> tool_calls self → get_tool_success_rate self !! t = None.
Proof.
  intros Hno%calls_of_nil_iff. unfold get_tool_success_rate.
  rewrite lookup_fmap, tally_fold_lookup. by case_decide.
Qed.

Lemma times_absent self t :
  t ∉ tool_name <$> tool_calls self →
  get_average_execution_time self !! t = None.
Proof.
  intros Hno%calls_of_nil_iff. unfold get_average_execution_time.
  rewrite lookup_fmap, collect_time_fold_lookup. by case_decide.
Qed.

End TelemetryFacts.

(** * Claims about the telemetry collector *)

Module TelemetryClaims.
Import Telemetry TelemetryFacts.
Local Open Scope Z_scope.

Lemma slice_last k {A} (l : list A) :
  1 ≤ k → slice_from (- k) l = drop (length l - Z.to_nat k) l.
Proof.
  intros Hk. unfold slice_from.
  destruct (Z.ltb_spec (- k) 0) as [_|?]; [|lia].
  f_equal. lia.
Qed.

Lemma history_some self k :
  1 ≤ k →
  get_call_history (Some k) self =
    take (Z.to_nat k) (reverse (tool_calls self)).
Proof.
  intros Hk. unfold get_call_history. rewrite slice_last, reverse_drop by done.
  destruct (decide (length (tool_calls self) ≤ Z.to_nat k)%nat) as [Hle|Hgt].
  - replace (length (tool_calls self)
             - (length (tool_calls self) - Z.to_nat k))%nat
      with (length (tool_calls self)) by lia.
    rewrite !take_ge; [done|rewrite length_reverse; lia..].
  - f_equal. lia.
Qed.

Lemma latest_is_last self : get_latest_call self = last (tool_calls self).
Proof. unfold get_latest_call, last_item. by destruct (tool_calls self). Qed.

(** C8.  On a collector whose retained history is not empty and for
    every integer [k >= 1], the first element of [history(n=k)] is
    [latest()].  [history(n=k)] is made of the [k] most recent records,
    newest first; without argument it is the whole retained history,
    newest first; and the call leaves the collector as it was. *)
Theorem history_head_is_latest (self : AgentTelemetry) (k : Z) :
  tool_calls self ≠ [] → 1 ≤ k →
  head (get_call_history (Some k) self) = get_latest_call self
  ∧ is_Some (get_latest_call self)
  ∧ get_call_history (Some k) self
    = take (Z.to_nat k) (reverse (tool_calls self))
  ∧ get_call_history None self = reverse (tool_calls self)
  ∧ (∀ n, (exec (OpHistory n) self).2 = self).
Proof.
  intros Hne Hk. rewrite latest_is_last, history_some by done.
  repeat split; try done.
  - rewrite <-head_reverse.
    destruct (Z.to_nat k) as [|k'] eqn:Hk'; [lia|].
    by destruct (reverse (tool_calls self)).
  - by apply last_is_Some.
Qed.

Lemma history_head_is_latest_witness :
  head (get_call_history (Some 2)
          (run (OpRecord <$> test_calls) (init (Qc_of_Z 0) 3)))
  = get_latest_call (run (OpRecord <$> test_calls) (init (Qc_of_Z 0) 3)).
Proof.
  apply (history_head_is_latest
           (run (OpRecord <$> test_calls) (init (Qc_of_Z 0) 3)) 2).
  - vm_compute. discriminate.
  - lia.
Defined.



Lemma exec_query_state op self :
  (∀ c, op ≠ OpRecord c) → op ≠ OpClear → (exec op self).2 = self.
Proof. intros Hr Hc. destruct op; try done. by destruct (Hr c). Qed.

(** C2.  For a collector built with capacity [max_history >= 0]:
    - after every run of operations the retained history holds at most
      [max_history] records;
    - a record appends exactly one [ToolCall], and when that would
      exceed the capacity exactly the oldest retained record is dropped;
    - once the records ever retained and then inserted number
      [max_history + N], the retained history is exactly the
      [max_history] newest of them, so the collector is the one that
      would have received only those; every query answers as on that
      collector, the [N] oldest records are neither in the history nor
      the latest call, and a tool that only they name has no entry in
      the per-tool dictionaries (on which the summary is built). *)
Theorem bounded_fifo_history (now : Qc) (m : Z) :
  0 ≤ m →
  (∀ ops, bounded (run ops (init now m)))
  ∧ (∀ ops c,
       let self := run ops (init now m) in
       tool_calls (record c self) =
         if decide (Z.of_nat (length (tool_calls self)) < m)
         then tool_calls self ++ [c]
         else drop 1 (tool_calls self ++ [c]))
  ∧ (∀ ops cs (N : nat),
       let self := run ops (init now m) in
       let all := tool_calls self ++ cs in
       let final := run (OpRecord <$> cs) self in
       length all = (Z.to_nat m + N)%nat →
       tool_calls final = drop N all
       ∧ Z.of_nat (length (tool_calls final)) = m
       ∧ final = run (OpRecord <$> drop N all) (init now m)
       ∧ (∀ op, (exec op final).1
                = (exec op (run (OpRecord <$> drop N all) (init now m))).1)
       ∧ (NoDup all → ∀ c, c ∈ take N all →
            (c ∉ get_call_history None final)
            ∧ get_latest_call final ≠ Some c)
       ∧ (∀ t, t ∉ tool_name <$> drop N all →
            get_tool_call_counts final !! t = None
            ∧ get_tool_success_rate final !! t = None
            ∧ get_average_execution_time final !! t = None
            ∧ ∀ now', tool_call_counts (get_summary now' final) !! t = None)).
Proof.
  intros Hm.
  assert (∀ ops, bounded (run ops (init now m))) as Hbounded.
  { intros ops. apply run_bounded; [done|by apply init_bounded]. }
  split; [done|]. split.
  - intros ops c self. rewrite record_tool_calls.
    assert (max_history self = m) as ->
      by (unfold self; by rewrite run_max_history).
    rewrite length_app; simpl.
    destruct (Z.ltb_spec m (Z.of_nat (length (tool_calls self) + 1)));
      case_decide; try done; lia.
  - intros ops cs N self all final Hlen.
    assert (tool_calls final = drop N all) as Hcalls.
    { assert (max_history self = m) as Hmax
        by (unfold self; by rewrite run_max_history).
      unfold final. rewrite run_records, Hmax; [|lia|apply Hbounded].
      fold all. f_equal. lia. }
    assert (final = run (OpRecord <$> drop N all) (init now m)) as Hfinal.
    { apply telemetry_eq.
      - unfold final, self. by rewrite !run_max_history.
      - rewrite Hcalls, run_records; [|done|by apply init_bounded].
        simpl. rewrite length_drop.
        replace (length all - N - Z.to_nat m)%nat with 0%nat by lia.
        done.
      - unfold final, self. by rewrite !run_session_start. }
    split; [done|]. split; [rewrite Hcalls, length_drop; lia|].
    split; [done|]. split; [by intros op; rewrite <-Hfinal|].
    split.
    + intros Hnodup c Hc.
      rewrite <-(take_drop N all) in Hnodup.
      apply NoDup_app in Hnodup as (_ & Hdisj & _).
      specialize (Hdisj c Hc). split.
      * unfold get_call_history. by rewrite elem_of_reverse, Hcalls.
      * rewrite latest_is_last, Hcalls.
        intros Hlast%last_Some_elem_of. done.
    + intros t Ht. rewrite <-Hcalls in Ht.
      repeat split; [by apply counts_absent|by apply rates_absent
                    |by apply times_absent|].
      intros now'; simpl. by apply counts_absent.
Qed.

(** Outside the theorem: with a negative [max_history] every insert is
    evicted at once and the history stays empty. *)
Lemma negative_capacity_keeps_nothing now m ops :
  m < 0 → tool_calls (run ops (init now m)) = [].
Proof.
  intros Hm.
  assert (∀ self, max_history self = m → tool_calls self = [] →
            tool_calls (run ops self) = []) as Hgen.
  { induction ops as [|op ops IH]; intros self Hmax Hnil; [done|].
    unfold run in *; simpl. apply IH.
    - by rewrite step_max_history.
    - destruct op; try done.
      change (step self (OpRecord c)) with (record c self).
      rewrite record_tool_calls, Hnil, Hmax; simpl.
      change (Z.of_nat 1) with 1.
      destruct (Z.ltb_spec m 1); [done|lia]. }
  by apply Hgen.
Qed.

Lemma bounded_fifo_history_witness :
  tool_calls (run (OpRecord <$> test_calls) (init (Qc_of_Z 0) 3))
  = drop 2 test_calls.
Proof.
  apply (proj2 (proj2 (bounded_fifo_history (Qc_of_Z 0) 3 ltac:(lia)))
           [] test_calls 2%nat).
  reflexivity.
Defined.

End TelemetryClaims.

(** * Claims about the instrumentation adapter *)

Module InstrumentClaims.
Import Telemetry Instrument Pandas DataAggregator AggregationTools.

Section Adapter.
Context {Args Kwargs Res : Type}.
Variable str_args : Args → Result string.
Variable str_kwargs : Kwargs → Result string.
Variable str_result : Res → Result string.
Variable str_exception : PyException → Result string.
Variable is_Exception : PyException → bool.

(** What the [except] clause does with an exception it catches when the
    texts it logs can be made. *)
Lemma handler_logs_failure
    (tool_func : ToolFunc (Args:=Args) (Kwargs:=Kwargs) (Res:=Res))
    (start_time now : Qc) (now_iso : string)
    (args : Args) (kwargs : Kwargs) (e : PyException)
    (telemetry : AgentTelemetry) (a k message : string) :
  str_args args = Ok a → str_kwargs kwargs = Ok k →
  is_Exception e = true → str_exception e = Ok message →
  handler str_args str_kwargs str_exception is_Exception tool_func
          start_time now now_iso args kwargs e telemetry
  = (Raise e,
     record {| timestamp := now_iso;
               tool_name := tool_name_of tool_func;
               tool_input := {[ "args" := PyStr (str_prefix 200 a);
                                "kwargs" := PyStr (str_prefix 200 k) ]};
               tool_output := PyNone;
               execution_time_ms := elapsed_ms start_time now;
               success := false;
               error_message := Some message |} telemetry).
Proof.
  intros Ha Hk He Hmsg. unfold handler, input_snapshot.
  by rewrite He, Ha, Hk; simpl; rewrite Hmsg.
Qed.

(** C6, as the code has it.  When [str(args)] and [str(kwargs)] can be
    taken: if the callable returns a result whose [str] can be taken,
    the wrapper returns that result and its only effect on the collector
    is one [log_tool_call] of a success on the state the callable left;
    if the callable raises an [Exception] [e] whose [str] can be taken,
    the wrapper raises [e] itself and its only effect is one
    [log_tool_call] of a failure that carries [str(e)]. *)
Theorem wrapper_transparent
    (tool_func : ToolFunc (Args:=Args) (Kwargs:=Kwargs) (Res:=Res))
    (start_time end_time late_time : Qc) (now_iso : string)
    (args : Args) (kwargs : Kwargs) (telemetry : AgentTelemetry)
    (a k : string) :
  str_args args = Ok a → str_kwargs kwargs = Ok k →
  let out := original_func tool_func args kwargs telemetry in
  let wrapped :=
    wrapper str_args str_kwargs str_result str_exception is_Exception
            tool_func start_time end_time late_time now_iso
            args kwargs telemetry in
  match out.1 with
  | Ok result =>
      ∀ text, str_result result = Ok text →
        wrapped.1 = Ok result
        ∧ ∃ c : ToolCall,
            wrapped.2 = record c out.2
            ∧ tool_name c = tool_name_of tool_func
            ∧ success c = true
            ∧ error_message c = None
            ∧ tool_output c = PyStr (str_prefix 200 text)
  | Raise e =>
      is_Exception e = true →
      ∀ message, str_exception e = Ok message →
        wrapped.1 = Raise e
        ∧ ∃ c : ToolCall,
            wrapped.2 = record c out.2
            ∧ tool_name c = tool_name_of tool_func
            ∧ success c = false
            ∧ error_message c = Some message
            ∧ tool_output c = PyNone
  end.
Proof.
  intros Ha Hk out wrapped. unfold wrapped, wrapper. fold out.
  destruct out as [[result|e] telemetry']; simpl.
  - intros text Htext. unfold input_snapshot. rewrite Ha, Hk; simpl.
    rewrite Htext; simpl. split; [done|].
    eexists (Build_ToolCall _ _ _ _ _ _ _). split; [reflexivity|done].
  - intros He message Hmsg.
    rewrite (handler_logs_failure _ _ _ _ _ _ _ _ a k message) by done.
    split; [done|]. eexists. split; [reflexivity|done].
Qed.

(** When the callable returns a result whose [str] raises, the wrapper
    does not return the result: the exception of [str] is caught by the
    [except] clause, logged as a failure of the tool and raised. *)
Lemma wrapper_text_failure
    (tool_func : ToolFunc (Args:=Args) (Kwargs:=Kwargs) (Res:=Res))
    (start_time end_time late_time : Qc) (now_iso : string)
    (args : Args) (kwargs : Kwargs) (telemetry telemetry' : AgentTelemetry)
    (result : Res) (e : PyException) (a k message : string) :
  original_func tool_func args kwargs telemetry = (Ok result, telemetry') →
  str_args args = Ok a → str_kwargs kwargs = Ok k →
  str_result result = Raise e →
  is_Exception e = true → str_exception e = Ok message →
  ∃ c : ToolCall,
    wrapper str_args str_kwargs str_result str_exception is_Exception
            tool_func start_time end_time late_time now_iso
            args kwargs telemetry
    = (Raise e, record c telemetry')
    ∧ success c = false
    ∧ error_message c = Some message.
Proof.
  intros Hout Ha Hk Htext He Hmsg. unfold wrapper. rewrite Hout.
  unfold input_snapshot at 1. rewrite Ha, Hk; simpl. rewrite Htext; simpl.
  rewrite (handler_logs_failure _ _ _ _ _ _ _ _ a k message) by done.
  eexists. split; [reflexivity|done].
Qed.

(** An exception that is not an [Exception] passes the wrapper without
    any record. *)
Lemma wrapper_other_exception
    (tool_func : ToolFunc (Args:=Args) (Kwargs:=Kwargs) (Res:=Res))
    (start_time end_time late_time : Qc) (now_iso : string)
    (args : Args) (kwargs : Kwargs) (telemetry telemetry' : AgentTelemetry)
    (e : PyException) :
  original_func tool_func args kwargs telemetry = (Raise e, telemetry') →
  is_Exception e = false →
  wrapper str_args str_kwargs str_result str_exception is_Exception
          tool_func start_time end_time late_time now_iso
          args kwargs telemetry
  = (Raise e, telemetry').
Proof.
  intros Hout He. unfold wrapper, handler. by rewrite Hout, He.
Qed.
End Adapter.

Lemma wrapper_transparent_witness :
  ∃ c : ToolCall,
    wrapper (λ column_name : string, Ok ("('" +:+ column_name +:+ "',)"))
            (λ _ : unit, Ok "{}")
            (λ out, match out with
                    | OutStr text => Ok text
                    | _ => Ok ""
                    end)
            (λ e, Ok (exc_str e)) (λ _, true)
            (sum_column_tool_object (H:=sequential) str_int sample_df)
            0%Qc 1%Qc 2%Qc "2025-02-02T10:00:00" "Missing" ()
            (init 0%Qc 100)
    = (Ok (OutStr "Error: Column 'Missing' not found"),
       record c (init 0%Qc 100))
    ∧ success c = true
    ∧ tool_output c = PyStr "Error: Column 'Missing' not found".
Proof.
  destruct (wrapper_transparent
              (λ column_name : string, Ok ("('" +:+ column_name +:+ "',)"))
              (λ _ : unit, Ok "{}")
              (λ out, match out with
                      | OutStr text => Ok text
                      | _ => Ok ""
                      end)
              (λ e, Ok (exc_str e)) (λ _, true)
              (sum_column_tool_object (H:=sequential) str_int sample_df)
              0%Qc 1%Qc 2%Qc "2025-02-02T10:00:00" "Missing" ()
              (init 0%Qc 100) "('Missing',)" "{}" eq_refl eq_refl
              "Error: Column 'Missing' not found" eq_refl)
    as (Hres & c & Hstate & _ & Hok & _ & Hout).
  exists c. split; [|split; [exact Hok|exact Hout]].
  apply injective_projections; [exact Hres|exact Hstate].
Defined.

(** The callable [returns_unprintable] returns normally, yet the wrapper
    raises, and what it records is a failed call: the result is not
    handed back and no successful call is recorded. *)
Lemma wrapper_raises_after_return :
  let wrapped :=
    wrapper (λ _ : unit, Ok "()") (λ _ : unit, Ok "{}") str_unprintable
            (λ e, Ok (exc_str e)) (λ _, true)
            returns_unprintable
            0%Qc 1%Qc 2%Qc "2025-02-02T10:00:00" () () (init 0%Qc 100) in
  original_func returns_unprintable () () (init 0%Qc 100)
  = (Ok unprintable, init 0%Qc 100)
  ∧ wrapped.1 = Raise (ValueError "no text")
  ∧ wrapped.1 ≠ Ok unprintable
  ∧ (success <$> tool_calls wrapped.2) = [false]
  ∧ ¬ ∃ c, wrapped.2 = record c (init 0%Qc 100) ∧ success c = true.
Proof.
  intros wrapped. split; [reflexivity|]. split; [reflexivity|].
  split; [discriminate|]. split; [reflexivity|].
  intros (c & Hc & Hsuccess).
  assert (success <$> tool_calls wrapped.2 = [success c]) as Hlist.
  { rewrite Hc. reflexivity. }
  change (success <$> tool_calls wrapped.2) with [false] in Hlist.
  rewrite Hsuccess in Hlist. discriminate Hlist.
Qed.

End InstrumentClaims.

(** * Facts about the pandas model *)

Module PandasFacts.
Import Pandas DataAggregator Float64Facts.

(** [Series.count()] on a numeric column counts the non-null values. *)
Lemma series_count_numeric vals :
  series_count (cells (NumSeries vals)) = length (dropna vals).
Proof.
  unfold series_count, dropna; simpl.
  induction vals as [|[q|] vals IH]; simpl; [done|..].
  - f_equal. exact IH.
  - exact IH.
Qed.

Lemma series_count_int vals :
  series_count (cells (IntSeries vals)) = length vals.
Proof.
  unfold series_count; simpl.
  induction vals as [|z vals IH]; simpl; [done|].
  f_equal. exact IH.
Qed.

(** The number of non-null values of a numeric column. *)
Lemma series_count_values s :
  is_numeric_dtype s = true →
  series_count (cells s) = length (numeric_values s).
Proof.
  destruct s as [vals|vals|vals]; intros Hnum; [| |done].
  - rewrite series_count_int. simpl. by rewrite length_fmap.
  - by rewrite series_count_numeric.
Qed.

(** *** Conversion to floats *)

Lemma astype_float_exact zs :
  (abs_total zs ≤ 2 ^ 53)%Z →
  astype_float zs = (λ z, Some (Qc_of_Z z)) <$> zs.
Proof.
  intros Hbound. unfold astype_float. apply list_fmap_ext.
  intros i z Hz. rewrite float_of_int_exact; [done|].
  etrans; [|exact Hbound].
  apply abs_total_elem. by eapply list_elem_of_lookup_2.
Qed.

Lemma dropna_Some {A} (f : A → Qc) (l : list A) :
  dropna ((λ x, Some (f x)) <$> l) = f <$> l.
Proof.
  unfold dropna. induction l as [|x l IH]; [done|].
  rewrite fmap_cons. simpl. f_equal. exact IH.
Qed.

Lemma length_astype_float zs : length (astype_float zs) = length zs.
Proof. unfold astype_float. by rewrite length_fmap. Qed.

(** *** [unique] *)

Lemma elem_of_unique_from x seen cs :
  x ∈ unique_from seen cs ↔ x ∈ cs ∧ x ∉ seen.
Proof.
  revert seen; induction cs as [|c cs IH]; intros seen; simpl.
  - split; [by intros ?%not_elem_of_nil|by intros [?%not_elem_of_nil _]].
  - case_decide as Hc.
    + rewrite IH, elem_of_cons. split; [tauto|].
      intros [[->|?] ?]; [done|tauto].
    + rewrite !elem_of_cons, IH, elem_of_cons.
      destruct (decide (x = c)) as [->|?]; tauto.
Qed.

Lemma NoDup_unique_from seen cs : NoDup (unique_from seen cs).
Proof.
  revert seen; induction cs as [|c cs IH]; intros seen; simpl.
  - constructor.
  - case_decide; [done|]. constructor; [|done].
    rewrite elem_of_unique_from, elem_of_cons. tauto.
Qed.

Lemma elem_of_unique x cs : x ∈ unique cs ↔ x ∈ cs.
Proof.
  unfold unique. rewrite elem_of_unique_from.
  split; [tauto|]. intros ?; split; [done|]. apply not_elem_of_nil.
Qed.

Lemma NoDup_unique cs : NoDup (unique cs).
Proof. apply NoDup_unique_from. Qed.

(** A list splits into its null and its non-null entries. *)
Lemma length_notna_is_null (l : list Cell) :
  length l = (length (filter (λ c, notna c = true) l)
              + length (filter (λ c, is_null c = true) l))%nat.
Proof.
  unfold notna. induction l as [|c l IH]; [done|].
  rewrite !filter_cons. destruct c; simpl; rewrite IH; lia.
Qed.

(** The null entries of a duplicate-free list: [None] at most once and
    [nan] at most once. *)
Lemma NoDup_length_is_null (l : list Cell) :
  NoDup l →
  length (filter (λ c, is_null c = true) l)
  = ((if decide (Null ∈ l) then 1 else 0)
     + (if decide (NotANumber ∈ l) then 1 else 0))%nat.
Proof.
  induction 1 as [|c l Hc Hl IH]; [done|].
  rewrite filter_cons.
  assert (∀ x : Cell, c ≠ x → x ∈ c :: l ↔ x ∈ l) as Hcons.
  { intros x Hne. rewrite elem_of_cons. split; [intros [?|?]; done|tauto]. }
  assert (c ∈ c :: l) as Hhere by left.
  destruct c as [q|s| |]; simpl; rewrite IH.
  - pose proof (Hcons Null ltac:(done)).
    pose proof (Hcons NotANumber ltac:(done)).
    repeat case_decide; simpl; try lia; tauto.
  - pose proof (Hcons Null ltac:(done)).
    pose proof (Hcons NotANumber ltac:(done)).
    repeat case_decide; simpl; try lia; tauto.
  - pose proof (Hcons NotANumber ltac:(done)).
    repeat case_decide; simpl; try lia; tauto.
  - pose proof (Hcons Null ltac:(done)).
    repeat case_decide; simpl; try lia; tauto.
Qed.

(** The distinct values are the non-null ones and, once each, the nulls
    that occur. *)
Lemma unique_nunique cs :
  length (unique cs)
  = (nunique cs
     + ((if decide (Null ∈ cs) then 1 else 0)
        + (if decide (NotANumber ∈ cs) then 1 else 0)))%nat.
Proof.
  unfold nunique. rewrite (length_notna_is_null (unique cs)).
  rewrite NoDup_length_is_null by apply NoDup_unique.
  f_equal. repeat case_decide; try done; by rewrite elem_of_unique in *.
Qed.

Lemma is_null_cases c : is_null c = true ↔ c = Null ∨ c = NotANumber.
Proof. destruct c; simpl; split; try done; try tauto; by intros [?|?]. Qed.

Lemma notna_is_null c : notna c = true ↔ is_null c = false.
Proof. unfold notna. by destruct (is_null c). Qed.

End PandasFacts.

(** * Claims about the aggregation engine *)

Module AggregatorFacts.
Import Pandas PandasFacts DataAggregator Float64Facts.

Lemma lookup_column_select mask cols c :
  lookup_column (prod_map id (select_series mask) <$> cols) c
  = select_series mask <$> lookup_column cols c.
Proof.
  induction cols as [|[name s] cols IH]; [done|].
  simpl. by case_decide.
Qed.

(** Boolean indexing keeps the columns and their dtypes. *)
Lemma get_column_select_rows mask df c :
  get_column (select_rows mask df) c = select_series mask <$> get_column df c.
Proof. apply lookup_column_select. Qed.

Lemma get_column_Some_columns df c s :
  get_column df c = Some s → columns df ≠ [].
Proof. unfold get_column. by destruct (columns df). Qed.

(** A frame that has a column is empty exactly when no row is kept. *)
Lemma empty_select_rows mask df :
  columns df ≠ [] →
  empty (select_rows mask df) = bool_decide (count_true mask = 0).
Proof.
  intros Hcols. unfold empty; simpl.
  rewrite (bool_decide_eq_false_2 (_ <$> _ = [])), orb_false_r; [done|].
  by destruct (columns df).
Qed.

Section Str.
Variable str_num : Qc → string.
Context `{!Reductions}.

Lemma filter_empty_raises df fc fv ac af s :
  get_column df fc = Some s →
  count_true (series_eq s fv) = 0 →
  filter_and_aggregate str_num df fc fv ac af
  = Raise (ValueError (msg_no_rows fc (py_str str_num fv))).
Proof.
  intros Hs Hzero. unfold filter_and_aggregate. rewrite Hs.
  rewrite empty_select_rows by eauto using get_column_Some_columns.
  by rewrite bool_decide_eq_true_2.
Qed.

(** With at least one matching row the keyword is dispatched. *)
Lemma filter_nonempty_dispatch df fc fv ac af s :
  get_column df fc = Some s →
  count_true (series_eq s fv) ≠ 0 →
  let filtered := select_rows (series_eq s fv) df in
  filter_and_aggregate str_num df fc fv ac af =
    if decide (af = "sum") then
      bind (sum_column filtered ac) (λ x, Ok (PyFloat x))
    else if decide (af = "avg") then
      bind (average_column filtered ac) (λ x, Ok (PyFloat x))
    else if decide (af = "min") then
      bind (min_column filtered ac) (λ x, Ok (PyFloat x))
    else if decide (af = "max") then
      bind (max_column filtered ac) (λ x, Ok (PyFloat x))
    else if decide (af = "median") then
      bind (median_column filtered ac) (λ x, Ok (PyFloat x))
    else if decide (af = "count") then
      bind (count_column filtered ac) (λ n, Ok (PyInt n))
    else Raise (ValueError (msg_unknown_agg af)).
Proof.
  intros Hs Hnz filtered. unfold filter_and_aggregate. rewrite Hs.
  rewrite empty_select_rows by eauto using get_column_Some_columns.
  by rewrite bool_decide_eq_false_2.
Qed.

Lemma filter_unknown_raises df fc fv ac af s :
  get_column df fc = Some s →
  count_true (series_eq s fv) ≠ 0 →
  af ∉ supported_aggregations →
  filter_and_aggregate str_num df fc fv ac af
  = Raise (ValueError (msg_unknown_agg af)).
Proof.
  intros Hs Hnz Haf. rewrite (filter_nonempty_dispatch _ _ _ _ _ s) by done.
  unfold supported_aggregations in Haf.
  rewrite !not_elem_of_cons in Haf.
  destruct Haf as (? & ? & ? & ? & ? & ? & _).
  repeat (case_decide; [done|]). done.
Qed.

Lemma filter_missing_agg_column df fc fv ac af s :
  get_column df fc = Some s →
  count_true (series_eq s fv) ≠ 0 →
  af ∈ supported_aggregations →
  get_column df ac = None →
  filter_and_aggregate str_num df fc fv ac af
  = Raise (ValueError (msg_not_found ac)).
Proof.
  intros Hs Hnz Haf Hac. rewrite (filter_nonempty_dispatch _ _ _ _ _ s) by done.
  unfold sum_column, average_column, min_column, max_column,
    median_column, count_column.
  rewrite get_column_select_rows, Hac; simpl.
  unfold supported_aggregations in Haf. rewrite !elem_of_cons in Haf.
  repeat (case_decide; [done|]).
  destruct Haf as [?|[?|[?|[?|[?|[?|Hnil]]]]]]; try done.
  by apply not_elem_of_nil in Hnil.
Qed.
End Str.

(** The length of [unique_values] in terms of [unique_count], with the
    cut at 20: every null that occurs, [None] or [nan], is one more
    value. *)
Lemma unique_values_length df column s :
  get_column df column = Some s →
  ∃ n vs,
    unique_count df column = Ok (Z.of_nat n)
    ∧ unique_values df column = Ok vs
    ∧ length vs
      = (n + ((if decide (Null ∈ cells s) then 1 else 0)
              + (if decide (NotANumber ∈ cells s) then 1 else 0))) `min` 20.
Proof.
  intros Hcol. exists (nunique (cells s)), (take 20 (unique (cells s))).
  unfold unique_count, unique_values. rewrite Hcol.
  split; [done|]. split; [done|].
  rewrite length_take, unique_nunique. lia.
Qed.

(** *** Messages *)

Lemma prefix_append (c q : string) : String.prefix c (c +:+ q) = true.
Proof.
  induction c as [|a c IH]; simpl; [by destruct q|].
  by destruct (Ascii.ascii_dec a a).
Qed.

Lemma index_infix (p c q : string) :
  String.index 0 c (p +:+ c +:+ q) ≠ None.
Proof.
  induction p as [|a p IH].
  - change ("" +:+ c +:+ q) with (c +:+ q).
    destruct (c +:+ q) as [|b r] eqn:Hcq.
    + destruct c; [done|discriminate Hcq].
    + change (String.index 0 c (String b r))
        with (if String.prefix c (String b r) then Some 0
              else match String.index 0 c r with
                   | Some n => Some (S n)
                   | None => None
                   end).
      by rewrite <-Hcq, prefix_append.
  - change (String.index 0 c (String a p +:+ c +:+ q))
      with (if String.prefix c (String a (p +:+ c +:+ q)) then Some 0
            else match String.index 0 c (p +:+ c +:+ q) with
                 | Some n => Some (S n)
                 | None => None
                 end).
    destruct (String.prefix c (String a (p +:+ c +:+ q))); [done|].
    by destruct (String.index 0 c (p +:+ c +:+ q)).
Qed.

(** A message built around a column name identifies that column. *)
Lemma identifies_infix (p c q : string) : identifies (p +:+ c +:+ q) c = true.
Proof.
  unfold identifies. pose proof (index_infix p c q).
  by destruct (String.index 0 c (p +:+ c +:+ q)).
Qed.

Lemma text_in_numeric_series t s :
  is_numeric_dtype s = true → Text t ∉ cells s.
Proof.
  destruct s as [vals|vals|vals]; intros Hnum; [| |done]; simpl.
  - by intros (v & Hv & _)%list_elem_of_fmap.
  - intros (v & Hv & _)%list_elem_of_fmap. by destruct v.
Qed.

(** A column that holds a text has the [object] dtype. *)
Lemma text_column_is_object t s :
  Text t ∈ cells s → ∃ vals, s = ObjSeries vals.
Proof.
  destruct s as [vals|vals|vals]; [| |by eauto];
    by intros ?%text_in_numeric_series.
Qed.

(** *** Exact sums *)

Lemma math_sum_ints (zs : list Z) :
  math_sum (Qc_of_Z <$> zs) = Qc_of_Z (int_total zs).
Proof.
  unfold math_sum, int_total. induction zs as [|z zs IH].
  - symmetry. apply Z2Qc_inj_0.
  - rewrite fmap_cons. cbn [foldr]. by rewrite IH, Z2Qc_inj_add.
Qed.

Lemma Qc_of_Z_fmap_inj (zs1 zs2 : list Z) :
  Qc_of_Z <$> zs1 = Qc_of_Z <$> zs2 → zs1 = zs2.
Proof.
  revert zs2. induction zs1 as [|z zs1 IH]; intros [|z' zs2] Heq;
    try done.
  rewrite !fmap_cons in Heq. injection Heq as Hz Hzs.
  f_equal; [done|by apply IH].
Qed.

(** The sum of [Series.sum()] and the one of [Series.mean()] on floats
    that are integers whose absolute values add up to at most
    [2 ^ 53]. *)
Lemma float_sums_exact `{!Reductions} vals (zs : list Z) :
  dropna vals = Qc_of_Z <$> zs → (abs_total zs ≤ 2 ^ 53)%Z →
  float_sum vals = Fin (Qc_of_Z (int_total zs))
  ∧ mean_sum vals = Fin (Qc_of_Z (int_total zs)).
Proof.
  intros Hvals Hbound. split.
  - by apply (summation_exact (dropna vals) _ (float_sum_order vals)).
  - by apply (summation_exact (dropna vals) _ (mean_sum_order vals)).
Qed.

(** [Series.sum()] on integers that do not overflow. *)
Lemma int_sum_exact zs :
  (abs_total zs ≤ 2 ^ 53)%Z →
  float_of_int (int_sum zs) = Fin (Qc_of_Z (int_total zs)).
Proof.
  intros Hbound. pose proof (int_total_bound zs) as Htotal.
  rewrite int_sum_wrap, wrap64_id, float_of_int_exact; [done|lia|].
  assert (2 ^ 53 < 2 ^ 63)%Z by by vm_compute. lia.
Qed.

End AggregatorFacts.

Module AggregatorClaims.
Import Pandas PandasFacts DataAggregator AggregatorFacts Float64Facts.

Section Claims.
Context `{!Reductions}.

(** C4, as the code has it.  On a numeric column whose non-null values
    are integers with absolute values that add up to at most [2 ^ 53]
    (no 64-bit sum wraps around and no partial sum is rounded), [sum] is
    the mathematical sum of the non-null values, [count] is the number of
    non-null values, and whenever that count is positive [average] is
    the quotient of the two as floats: the double nearest to the sum
    divided by the count, for a count of at most [2 ^ 53]. *)
Theorem sum_and_average_of_numeric_column
    (df : DataFrame) (column : string) (s : Series) (zs : list Z) :
  get_column df column = Some s →
  is_numeric_dtype s = true →
  numeric_values s = Qc_of_Z <$> zs →
  (abs_total zs ≤ 2 ^ 53)%Z →
  ∃ (total : Float) (n : Z),
    sum_column df column = Ok total
    ∧ count_column df column = Ok n
    ∧ total = Fin (math_sum (numeric_values s))
    ∧ n = Z.of_nat (length (numeric_values s))
    ∧ ((0 < n)%Z →
         average_column df column
         = Ok (float_div total (float_of_int n)))
    ∧ ((0 < n ≤ 2 ^ 53)%Z →
         average_column df column
         = Ok (round64 (math_sum (numeric_values s) / Qc_of_Z n)%Qc)).
Proof.
  intros Hcol Hnum Hvals Hbound.
  exists (Fin (math_sum (numeric_values s))),
         (Z.of_nat (length (numeric_values s))).
  enough (sum_column df column = Ok (Fin (math_sum (numeric_values s)))
          ∧ count_column df column
            = Ok (Z.of_nat (length (numeric_values s)))
          ∧ Fin (math_sum (numeric_values s))
            = Fin (math_sum (numeric_values s))
          ∧ Z.of_nat (length (numeric_values s))
            = Z.of_nat (length (numeric_values s))
          ∧ ((0 < Z.of_nat (length (numeric_values s)))%Z →
               average_column df column
               = Ok (float_div (Fin (math_sum (numeric_values s)))
                       (float_of_int
                          (Z.of_nat (length (numeric_values s)))))))
    as (Hsum & Hcount & _ & _ & Havg).
  { repeat split; try done; try lia.
    intros [Hpos Hle]. rewrite Havg by done.
    rewrite float_of_int_exact by lia. unfold float_div.
    rewrite bool_decide_eq_false_2; [done|].
    rewrite <- Z2Qc_inj_0. intros Hzero%Z2Qc_inj. lia. }
  unfold sum_column, count_column, average_column. rewrite Hcol.
  rewrite series_count_values by done. rewrite Hvals, math_sum_ints.
  destruct s as [vals|vals|vals]; [| |done]; simpl in Hvals.
  - apply Qc_of_Z_fmap_inj in Hvals as ->.
    rewrite int_sum_exact by done.
    repeat split; try done. intros Hpos.
    unfold int_mean, mean_of. rewrite length_fmap in *.
    case_decide; [lia|].
    destruct (float_sums_exact (astype_float zs) zs) as [_ ->]; try done.
    rewrite astype_float_exact by done. apply dropna_Some.
  - destruct (float_sums_exact vals zs Hvals Hbound) as [Hsum Hmean].
    unfold series_sum, series_mean, mean_of. rewrite Hsum, Hmean, Hvals.
    repeat split; try done. intros Hpos.
    case_decide as Hzero; [|done]. rewrite Hzero in Hpos. lia.
Qed.


(** C5.  When the filter column exists and no row matches the filter
    value, [filter_and_aggregate] raises the empty-filter error and
    returns nothing; when at least one row matches and the keyword is not
    one of [sum], [avg], [min], [max], [median], [count], it raises the
    unknown-aggregation error. *)
Theorem filter_and_aggregate_errors (str_num : Qc → string)
    (df : DataFrame) (filter_column : string) (filter_value : Cell)
    (agg_column agg_func : string) (s : Series) :
  get_column df filter_column = Some s →
  let result :=
    filter_and_aggregate str_num df filter_column filter_value
                         agg_column agg_func in
  (count_true (series_eq s filter_value) = 0 →
     result = Raise (ValueError
                       (msg_no_rows filter_column (py_str str_num filter_value)))
     ∧ is_ok result = false)
  ∧ (count_true (series_eq s filter_value) ≠ 0 →
     agg_func ∉ supported_aggregations →
     result = Raise (ValueError (msg_unknown_agg agg_func))).
Proof.
  intros Hs result. split.
  - intros Hzero. unfold result.
    by rewrite (filter_empty_raises _ _ _ _ _ _ s).
  - intros Hnz Haf. by apply (filter_unknown_raises _ _ _ _ _ _ s).
Qed.

(** C9.  In [filter_and_aggregate] the emptiness of the filter result is
    tested before the keyword and the aggregation column are looked at:
    when the filter column exists and no row matches, the error is the
    empty-filter one whatever the keyword and the aggregation column
    are, and so it is neither the unknown-aggregation, nor a
    column-not-found, nor a not-numeric error. *)
Theorem empty_filter_checked_first (str_num : Qc → string)
    (df : DataFrame) (filter_column : string) (filter_value : Cell)
    (s : Series) :
  get_column df filter_column = Some s →
  count_true (series_eq s filter_value) = 0 →
  ∀ agg_column agg_func : string,
    let result :=
      filter_and_aggregate str_num df filter_column filter_value
                           agg_column agg_func in
    result = Raise (ValueError
                      (msg_no_rows filter_column (py_str str_num filter_value)))
    ∧ (∀ f, result ≠ Raise (ValueError (msg_unknown_agg f)))
    ∧ (∀ c, result ≠ Raise (ValueError (msg_not_found c)))
    ∧ (∀ c, result ≠ Raise (ValueError (msg_not_numeric c)))
    ∧ (∀ c, result ≠ Raise (KeyError c)).
Proof.
  intros Hs Hzero agg_column agg_func result.
  unfold result. rewrite (filter_empty_raises _ _ _ _ _ _ s) by done.
  repeat split; try done; intros x Heq; by injection Heq.
Qed.

(** C1, as the code has it.  An operation on one column that is absent
    raises [ValueError("Column '<name>' not found")]; a groupby raises
    [ValueError("Group column '<name>' not found")] for an absent group
    column and, the group column being present,
    [ValueError("Value column '<name>' not found")] for an absent value
    column; [filter_and_aggregate] reports an absent aggregation column
    in the same way once the filter matched a row and the keyword is a
    supported one.  An operation with numeric semantics on a present
    column that holds a text raises
    [ValueError("Column '<name>' is not numeric")] (for a groupby: on the
    value column, both columns being present).  Each of these messages
    contains the name of the column. *)
Theorem column_validation (str_num : Qc → string) (df : DataFrame) :
  (∀ column, get_column df column = None →
     sum_column df column = Raise (ValueError (msg_not_found column))
     ∧ average_column df column = Raise (ValueError (msg_not_found column))
     ∧ min_column df column = Raise (ValueError (msg_not_found column))
     ∧ max_column df column = Raise (ValueError (msg_not_found column))
     ∧ median_column df column = Raise (ValueError (msg_not_found column))
     ∧ count_column df column = Raise (ValueError (msg_not_found column))
     ∧ unique_count df column = Raise (ValueError (msg_not_found column))
     ∧ unique_values df column = Raise (ValueError (msg_not_found column)))
  ∧ (∀ g v, get_column df g = None →
       groupby_sum str_num df g v
       = Raise (ValueError (msg_group_not_found g))
       ∧ groupby_average str_num df g v
         = Raise (ValueError (msg_group_not_found g))
       ∧ groupby_count str_num df g
         = Raise (ValueError (msg_group_not_found g)))
  ∧ (∀ g v, get_column df g ≠ None → get_column df v = None →
       groupby_sum str_num df g v
       = Raise (ValueError (msg_value_not_found v))
       ∧ groupby_average str_num df g v
         = Raise (ValueError (msg_value_not_found v)))
  ∧ (∀ fc fv ac af s,
       get_column df fc = Some s →
       count_true (series_eq s fv) ≠ 0 →
       af ∈ supported_aggregations →
       get_column df ac = None →
       filter_and_aggregate str_num df fc fv ac af
       = Raise (ValueError (msg_not_found ac)))
  ∧ (∀ column s t, get_column df column = Some s → Text t ∈ cells s →
       sum_column df column = Raise (ValueError (msg_not_numeric column))
       ∧ average_column df column
         = Raise (ValueError (msg_not_numeric column))
       ∧ min_column df column = Raise (ValueError (msg_not_numeric column))
       ∧ max_column df column = Raise (ValueError (msg_not_numeric column))
       ∧ median_column df column
         = Raise (ValueError (msg_not_numeric column)))
  ∧ (∀ g v s t,
       get_column df g ≠ None →
       get_column df v = Some s → Text t ∈ cells s →
       groupby_sum str_num df g v = Raise (ValueError (msg_not_numeric v))
       ∧ groupby_average str_num df g v
         = Raise (ValueError (msg_not_numeric v)))
  ∧ (∀ column,
       identifies (msg_not_found column) column = true
       ∧ identifies (msg_group_not_found column) column = true
       ∧ identifies (msg_value_not_found column) column = true
       ∧ identifies (msg_not_numeric column) column = true).
Proof.
  repeat apply conj.
  - intros column Hcol.
    unfold sum_column, average_column, min_column, max_column,
      median_column, count_column, unique_count, unique_values.
    by rewrite Hcol.
  - intros g v Hg. unfold groupby_sum, groupby_average, groupby_count.
    by rewrite Hg.
  - intros g v Hg Hv. unfold groupby_sum, groupby_average.
    rewrite Hv. by destruct (get_column df g).
  - intros fc fv ac af s. apply filter_missing_agg_column.
  - intros column s t Hcol [vals ->]%text_column_is_object.
    unfold sum_column, average_column, min_column, max_column,
      median_column.
    by rewrite Hcol.
  - intros g v s t Hg Hv [vals ->]%text_column_is_object.
    unfold groupby_sum, groupby_average.
    rewrite Hv. by destruct (get_column df g).
  - intros column. repeat split; apply identifies_infix.
Qed.

End Claims.

#[local] Existing Instance sequential.

Lemma sum_and_average_of_numeric_column_witness :
  ∃ (total : Float) (n : Z),
    sum_column sample_df "Salary" = Ok total
    ∧ count_column sample_df "Salary" = Ok n
    ∧ total = Fin (Qc_of_Z 330000)
    ∧ n = 5%Z
    ∧ average_column sample_df "Salary"
      = Ok (float_div total (float_of_int n)).
Proof.
  destruct (sum_and_average_of_numeric_column sample_df "Salary"
              (IntSeries [50000; 80000; 55000; 60000; 85000]%Z)
              [50000; 80000; 55000; 60000; 85000]%Z
              eq_refl eq_refl eq_refl)
    as (total & n & Hsum & Hcount & Htotal & Hn & Havg & _).
  { by vm_compute. }
  exists total, n. split; [exact Hsum|]. split; [exact Hcount|].
  split; [rewrite Htotal; apply (bool_decide_unpack _); vm_compute; exact I|].
  split; [rewrite Hn; reflexivity|].
  apply Havg. rewrite Hn. reflexivity.
Defined.

(** The [int64] column of [overflow_df] holds [2 ** 62] twice: its
    mathematical sum is [2 ** 63], and [sum_column] returns [-2 ** 63],
    the additions of 64-bit integers having wrapped around; the
    average, taken on floats, is [2 ** 62] and not the quotient of that
    sum by the count. *)
Lemma int64_sum_wraps :
  get_column overflow_df "v" = Some (IntSeries [2 ^ 62; 2 ^ 62]%Z)
  ∧ math_sum (numeric_values (IntSeries [2 ^ 62; 2 ^ 62]%Z))
    = Qc_of_Z (2 ^ 63)
  ∧ (∀ numpy : Reductions,
       @sum_column numpy overflow_df "v" = Ok (Fin (Qc_of_Z (- 2 ^ 63)))
       ∧ @sum_column numpy overflow_df "v"
         ≠ Ok (Fin (math_sum (numeric_values
                                (IntSeries [2 ^ 62; 2 ^ 62]%Z)))))
  ∧ count_column overflow_df "v" = Ok 2%Z
  ∧ average_column overflow_df "v" = Ok (Fin (Qc_of_Z (2 ^ 62)))
  ∧ float_div (Fin (Qc_of_Z (- 2 ^ 63))) (float_of_int 2)
    = Fin (Qc_of_Z (- 2 ^ 62)).
Proof.
  split; [reflexivity|].
  split; [apply (bool_decide_unpack _); vm_compute; exact I|].
  split.
  { intros numpy.
    assert (@sum_column numpy overflow_df "v"
            = Ok (Fin (Qc_of_Z (- 2 ^ 63)))) as Hsum.
    { unfold sum_column. simpl.
      apply (bool_decide_unpack _). vm_compute. exact I. }
    split; [exact Hsum|]. rewrite Hsum.
    apply (bool_decide_unpack _). vm_compute. exact I. }
  split; [reflexivity|].
  split; apply (bool_decide_unpack _); vm_compute; exact I.
Qed.

(** On a [float64] column the additions round: adding [0.1], [0.2] and
    [0.3] from the left gives the float above the sum of the three
    floats, which is no float. *)
Lemma float_sum_rounds :
  ∃ (a b c : Qc) (total : Float),
    get_column tenths_df "v" = Some (NumSeries [Some a; Some b; Some c])
    ∧ sum_column tenths_df "v" = Ok total
    ∧ total ≠ Fin (a + b + c)%Qc
    ∧ round64 (a + b + c)%Qc ≠ Fin (a + b + c)%Qc.
Proof.
  do 4 eexists. split; [reflexivity|]. split; [reflexivity|].
  split; apply (bool_decide_unpack _); vm_compute; exact I.
Qed.


Lemma filter_and_aggregate_errors_witness :
  filter_and_aggregate str_int sample_df "Department" (Text "NonExistent")
                       "Salary" "sum"
  = Raise (ValueError "No rows found where Department == NonExistent")
  ∧ filter_and_aggregate str_int sample_df "Department" (Text "Sales")
                         "Salary" "invalid"
    = Raise (ValueError "Unknown aggregation function: invalid").
Proof.
  split.
  - apply (filter_and_aggregate_errors str_int sample_df "Department"
             (Text "NonExistent") "Salary" "sum"
             (ObjSeries [Text "Sales"; Text "IT"; Text "Sales";
                         Text "HR"; Text "IT"]) eq_refl).
    reflexivity.
  - apply (filter_and_aggregate_errors str_int sample_df "Department"
             (Text "Sales") "Salary" "invalid"
             (ObjSeries [Text "Sales"; Text "IT"; Text "Sales";
                         Text "HR"; Text "IT"]) eq_refl).
    + vm_compute. discriminate.
    + unfold supported_aggregations. rewrite !not_elem_of_cons.
      repeat split; try discriminate. apply not_elem_of_nil.
Defined.

Lemma empty_filter_checked_first_witness :
  filter_and_aggregate str_int sample_df "Department" (Text "NonExistent")
                       "Missing" "invalid"
  = Raise (ValueError "No rows found where Department == NonExistent").
Proof.
  apply (empty_filter_checked_first str_int sample_df "Department"
           (Text "NonExistent")
           (ObjSeries [Text "Sales"; Text "IT"; Text "Sales";
                       Text "HR"; Text "IT"])
           ltac:(reflexivity) ltac:(reflexivity) "Missing" "invalid").
Defined.

Lemma column_validation_witness :
  sum_column sample_df "NonExistent"
  = Raise (ValueError "Column 'NonExistent' not found")
  ∧ sum_column sample_df "Name"
    = Raise (ValueError "Column 'Name' is not numeric")
  ∧ groupby_sum str_int sample_df "NonExistent" "Salary"
    = Raise (ValueError "Group column 'NonExistent' not found").
Proof.
  pose proof (column_validation str_int sample_df)
    as (Habsent & Hgroup & _ & _ & Htext & _).
  split; [|split].
  - apply (Habsent "NonExistent"). reflexivity.
  - apply (Htext "Name" (ObjSeries [Text "Alice"; Text "Bob"; Text "Charlie";
                                    Text "Diana"; Text "Eve"]) "Alice").
    + reflexivity.
    + simpl. left.
  - apply (Hgroup "NonExistent" "Salary"). reflexivity.
Defined.

(** Three calls that reference an absent column, or a textual value
    column, and do not raise the error the validation rule describes:
    - the aggregation column ["Missing"] of [filter_and_aggregate] is
      absent, the filter matches no row, and the error is the empty-filter
      one, whose message does not name ["Missing"];
    - both columns of [groupby_sum] are absent and the message names the
      group column only;
    - the value column ["Name"] of [groupby_sum] is textual, the group
      column is absent, and the error is not the not-numeric one. *)
Lemma missing_agg_column_not_reported :
  (get_column sample_df "Missing" = None
   ∧ filter_and_aggregate str_int sample_df "Department" (Text "NonExistent")
                          "Missing" "sum"
     = Raise (ValueError "No rows found where Department == NonExistent")
   ∧ ¬ ∃ msg,
         filter_and_aggregate str_int sample_df "Department"
                              (Text "NonExistent") "Missing" "sum"
         = Raise (ValueError msg)
         ∧ identifies msg "Missing" = true)
  ∧ (get_column sample_df "NoValue" = None
     ∧ groupby_sum str_int sample_df "NoGroup" "NoValue"
       = Raise (ValueError "Group column 'NoGroup' not found")
     ∧ identifies "Group column 'NoGroup' not found" "NoValue" = false)
  ∧ (get_column sample_df "Name"
     = Some (ObjSeries [Text "Alice"; Text "Bob"; Text "Charlie";
                        Text "Diana"; Text "Eve"])
     ∧ groupby_sum str_int sample_df "NoGroup" "Name"
       = Raise (ValueError "Group column 'NoGroup' not found")
     ∧ groupby_sum str_int sample_df "NoGroup" "Name"
       ≠ Raise (ValueError (msg_not_numeric "Name"))).
Proof.
  split; [|split].
  - split; [reflexivity|]. split; [reflexivity|].
    intros (msg & Hmsg & Hid). vm_compute in Hmsg.
    injection Hmsg as <-. vm_compute in Hid. discriminate Hid.
  - split; [reflexivity|]. split; reflexivity.
  - split; [reflexivity|]. split; [reflexivity|].
    vm_compute. discriminate.
Qed.

(** An absent filter column is not checked by [filter_and_aggregate]
    itself: the lookup raises pandas' [KeyError], not the [ValueError] the
    other operations raise. *)
Lemma filter_column_key_error :
  filter_and_aggregate str_int sample_df "Missing" (Text "Sales") "Salary" "sum"
  = Raise (KeyError "Missing")
  ∧ exc_class (KeyError "Missing") ≠ exc_class (ValueError (msg_not_found "Missing")).
Proof. split; [reflexivity|]. vm_compute. discriminate. Qed.

End AggregatorClaims.

(** * Partition sizes of groupby_count *)

Module GroupbyFacts.
Import Pandas PandasFacts DataAggregator AggregatorFacts.

(** *** The dict comprehension *)

Lemma dict_of_items_snoc {V} (items : list (string * V)) k v :
  dict_of_items (items ++ [(k, v)]) = <[k := v]> (dict_of_items items).
Proof. unfold dict_of_items. by rewrite foldl_snoc. Qed.

Lemma dict_of_items_fresh {V} (items : list (string * V)) k :
  k ∉ items.*1 → dict_of_items items !! k = None.
Proof.
  induction items as [|[k' v'] items IH] using rev_ind; intros Hk; [done|].
  rewrite dict_of_items_snoc. rewrite fmap_app, not_elem_of_app in Hk.
  destruct Hk as [Hk Hk'].
  rewrite lookup_insert_ne; [by apply IH|].
  intros ->. apply Hk'; simpl. left.
Qed.

Lemma sum_values_insert d k v :
  d !! k = None → sum_values (<[k := v]> d) = (v + sum_values d)%Z.
Proof.
  intros Hk. unfold sum_values.
  rewrite map_fold_insert_L; [done| |done].
  intros; lia.
Qed.

(** Without key collisions the dict holds every item once. *)
Lemma sum_values_dict (items : list (string * Z)) :
  NoDup items.*1 →
  sum_values (dict_of_items items) = foldr Z.add 0%Z items.*2.
Proof.
  induction items as [|[k v] items IH] using rev_ind; intros Hnd; [done|].
  rewrite fmap_app, NoDup_app in Hnd. destruct Hnd as (Hnd & Hdisj & _).
  rewrite dict_of_items_snoc, sum_values_insert.
  - rewrite IH by done. rewrite fmap_app, foldr_app; simpl.
    generalize (items.*2). intros zs.
    induction zs as [|z zs IHz]; simpl; lia.
  - apply dict_of_items_fresh. intros Hin.
    apply (Hdisj k Hin). simpl. left.
Qed.

(** *** Group sizes *)

Lemma count_true_group_mask cs key :
  count_true (group_mask cs key) = length (filter (λ c, c = key) cs).
Proof.
  unfold count_true, group_mask.
  induction cs as [|c cs IH]; [done|].
  rewrite fmap_cons, !filter_cons.
  destruct (decide (c = key)) as [->|Hne].
  - rewrite bool_decide_eq_true_2 by done. simpl. by rewrite IH.
  - rewrite bool_decide_eq_false_2 by done. by case_decide.
Qed.

Lemma filter_elem_of_cons (k : Cell) keys cs :
  k ∉ keys →
  length (filter (λ c, c ∈ k :: keys) cs)
  = length (filter (λ c, c = k) cs) + length (filter (λ c, c ∈ keys) cs).
Proof.
  intros Hk. induction cs as [|c cs IH]; [done|].
  rewrite !filter_cons.
  destruct (decide (c = k)) as [->|Hne].
  - rewrite decide_True by left. rewrite decide_False by done.
    simpl. by rewrite IH.
  - destruct (decide (c ∈ keys)) as [Hin|Hout].
    + rewrite decide_True by (by right). simpl. rewrite IH. lia.
    + rewrite decide_False; [done|].
      intros [?|?]%elem_of_cons; done.
Qed.

(** The sizes of distinct groups add up to the rows that carry one of
    the keys. *)
Lemma group_sizes_sum (keys cs : list Cell) :
  NoDup keys →
  sum_list_with (λ key, count_true (group_mask cs key)) keys
  = length (filter (λ c, c ∈ keys) cs).
Proof.
  induction 1 as [|k keys Hk Hnd IH]; simpl.
  - induction cs as [|c cs IHc]; [done|].
    rewrite filter_cons, decide_False; [done|]. apply not_elem_of_nil.
  - by rewrite IH, count_true_group_mask, filter_elem_of_cons.
Qed.

Lemma filter_in_unique_notna cs :
  filter (λ c, c ∈ filter (λ c', notna c' = true) (unique cs)) cs
  = filter (λ c, notna c = true) cs.
Proof.
  assert (∀ l : list Cell, (∀ c, c ∈ l → c ∈ cs) →
            filter (λ c, c ∈ filter (λ c', notna c' = true) (unique cs)) l
            = filter (λ c, notna c = true) l) as Hgen.
  { induction l as [|c l IH]; intros Hsub; [done|].
    rewrite !filter_cons, IH by (intros; apply Hsub; by right).
    assert (c ∈ cs) as Hc by (apply Hsub; left).
    destruct (decide (notna c = true)) as [Hn|Hn].
    - rewrite decide_True; [done|].
      apply list_elem_of_filter. by rewrite elem_of_unique.
    - rewrite decide_False; [done|].
      by intros [? _]%list_elem_of_filter. }
  by apply Hgen.
Qed.

Lemma NoDup_group_keys cs : NoDup (group_keys cs).
Proof.
  unfold group_keys. rewrite merge_sort_Permutation.
  apply NoDup_filter, NoDup_unique.
Qed.

(** The group sizes add up to the rows whose key is not null. *)
Lemma groupby_size_total cs :
  sum_list_with snd (groupby_size cs) = series_count cs.
Proof.
  unfold groupby_size, series_count.
  transitivity (sum_list_with (λ key, count_true (group_mask cs key))
                              (group_keys cs)).
  { generalize (group_keys cs). intros keys.
    induction keys as [|k keys IH]; simpl; [done|]. f_equal. exact IH. }
  rewrite group_sizes_sum by apply NoDup_group_keys.
  rewrite <-filter_in_unique_notna. f_equal.
  apply list_filter_iff. intros c.
  unfold group_keys. by rewrite merge_sort_Permutation.
Qed.

Lemma length_notna_null cs :
  length cs = series_count cs + null_rows cs.
Proof.
  unfold series_count, null_rows, notna.
  induction cs as [|c cs IH]; [done|].
  rewrite !filter_cons. destruct c; simpl; rewrite IH; lia.
Qed.

Lemma null_rows_zero cs :
  (∀ c, c ∈ cs → is_null c = false) → null_rows cs = 0.
Proof.
  unfold null_rows. induction cs as [|c cs IH]; intros Hn; [done|].
  rewrite filter_cons, (Hn c) by left. rewrite decide_False by done.
  apply IH. intros c' Hc'. apply Hn. by right.
Qed.

Lemma lookup_column_elem_of cols c s :
  lookup_column cols c = Some s → (c, s) ∈ cols.
Proof.
  induction cols as [|[name s'] cols IH]; [done|]. simpl.
  case_decide as Hname.
  - intros [= ->]. subst. left.
  - intros ?. right. by apply IH.
Qed.

Lemma well_formed_length df c s :
  well_formed df → get_column df c = Some s → length (cells s) = nrows df.
Proof.
  intros [Hlen _] Hs%lookup_column_elem_of.
  rewrite Forall_forall in Hlen. by apply (Hlen (c, s)).
Qed.

Lemma sample_df_well_formed : well_formed sample_df.
Proof.
  split.
  - repeat constructor.
  - apply (bool_decide_unpack _). vm_compute. exact I.
Qed.

End GroupbyFacts.

Module GroupbyClaims.
Import Pandas PandasFacts DataAggregator AggregatorFacts GroupbyFacts.

(** C3, as the code has it.  For an existing grouping column whose
    distinct non-null keys have pairwise distinct textual forms, the
    partition sizes returned by [groupby_count] sum to the number of rows
    whose key is not null: rows with a null key ([None] or [nan]) are
    left out.  On a well-formed frame the sizes and the null-key rows
    together make the total row count, so the sizes sum to the row count
    when no key is null. *)
Theorem groupby_count_partition (str_num : Qc → string)
    (df : DataFrame) (group_column : string) (s : Series) :
  get_column df group_column = Some s →
  NoDup (py_str str_num <$> group_keys (cells s)) →
  ∃ d : gmap string Z,
    groupby_count str_num df group_column = Ok d
    ∧ sum_values d = Z.of_nat (series_count (cells s))
    ∧ (well_formed df →
         (sum_values d + Z.of_nat (null_rows (cells s)))%Z = count_rows df)
    ∧ (well_formed df → (∀ c, c ∈ cells s → is_null c = false) →
         sum_values d = count_rows df).
Proof.
  intros Hs Hnd. eexists. unfold groupby_count. rewrite Hs.
  split; [reflexivity|].
  assert (sum_values
            (dict_of_items
               (prod_map (py_str str_num) Z.of_nat <$> groupby_size (cells s)))
          = Z.of_nat (series_count (cells s))) as Hsum.
  { rewrite sum_values_dict.
    - rewrite <-groupby_size_total.
      generalize (groupby_size (cells s)). intros items.
      induction items as [|[k n] items IH]; simpl; [done|].
      by rewrite Nat2Z.inj_add, <-IH.
    - unfold groupby_size. rewrite <-!list_fmap_compose. exact Hnd. }
  split; [done|]. rewrite Hsum. split.
  - intros Hwf. unfold count_rows.
    rewrite <-(well_formed_length df group_column s) by done.
    rewrite (length_notna_null (cells s)). lia.
  - intros Hwf Hnull. unfold count_rows.
    rewrite <-(well_formed_length df group_column s) by done.
    rewrite (length_notna_null (cells s)), null_rows_zero by done. lia.
Qed.

Lemma groupby_count_partition_witness :
  ∃ d : gmap string Z,
    groupby_count str_int sample_df "Department" = Ok d
    ∧ sum_values d = count_rows sample_df.
Proof.
  destruct (groupby_count_partition str_int sample_df "Department"
              (ObjSeries [Text "Sales"; Text "IT"; Text "Sales";
                          Text "HR"; Text "IT"]) eq_refl)
    as (d & Hd & _ & _ & Hrows).
  { apply (bool_decide_unpack _). vm_compute. exact I. }
  exists d. split; [exact Hd|]. apply Hrows.
  - apply sample_df_well_formed.
  - intros c Hc. simpl in Hc. rewrite !elem_of_cons in Hc.
    destruct Hc as [->|[->|[->|[->|[->|Hc]]]]]; try reflexivity.
    by apply not_elem_of_nil in Hc.
Defined.

(** The column [g] of [mixed_df] holds no null, its two rows form two
    groups, and the keys [1] and ["1"] both become ["1"]: the returned
    sizes sum to 1, not to the 2 rows. *)
Lemma groupby_count_merges_keys :
  well_formed mixed_df
  ∧ get_column mixed_df "g" = Some (ObjSeries [Num (Qc_of_Z 1); Text "1"])
  ∧ null_rows [Num (Qc_of_Z 1); Text "1"] = 0
  ∧ ∃ d : gmap string Z,
      groupby_count str_int mixed_df "g" = Ok d
      ∧ d = {[ "1" := 1%Z ]}
      ∧ sum_values d = 1%Z
      ∧ count_rows mixed_df = 2%Z
      ∧ sum_values d ≠ count_rows mixed_df.
Proof.
  split.
  { split; [by repeat constructor|].
    simpl. apply NoDup_singleton. }
  split; [reflexivity|]. split; [reflexivity|].
  exists {[ "1" := 1%Z ]}.
  split; [by vm_compute|]. split; [done|].
  split; [by vm_compute|]. split; [done|].
  by vm_compute.
Qed.

End GroupbyClaims.

(** * The repository's tests and the examples of the design document *)

Module RepositoryTests.
Import Pandas DataAggregator Telemetry.

(** The examples take every sum from the left. *)
#[local] Existing Instance sequential.

(** Equalities between closed terms are decided by evaluation. *)
Ltac by_evaluation := apply (bool_decide_unpack _); vm_compute; exact I.

(** Floats: [0.1 + 0.2] is [0.30000000000000004], the mean of three
    [0.1] is above [0.1], [float(2**53 + 1)] is [2.0**53], and the
    largest float is followed by [inf]. *)

Example float_tenths :
  round64 (Q2Qc (1 # 10)) = Fin (Q2Qc (3602879701896397 # 2 ^ 55))
  ∧ float_add (round64 (Q2Qc (1 # 10))) (round64 (Q2Qc (2 # 10)))
    = Fin (Q2Qc (1351079888211149 # 2 ^ 52))
  ∧ average_column
      {| nrows := 3;
         columns := [("v", NumSeries [float_value (round64 (Q2Qc (1 # 10)));
                                      float_value (round64 (Q2Qc (1 # 10)));
                                      float_value (round64 (Q2Qc (1 # 10)))])] |}
      "v"
    = Ok (Fin (Q2Qc (7205759403792795 # 2 ^ 56))).
Proof. repeat split; by_evaluation. Qed.

Example float_of_large_int :
  float_of_int (2 ^ 53 + 1) = Fin (Qc_of_Z (2 ^ 53))
  ∧ max_column {| nrows := 1; columns := [("v", IntSeries [2 ^ 53 + 1]%Z)] |}
               "v"
    = Ok (Fin (Qc_of_Z (2 ^ 53)))
  ∧ float_of_int (2 ^ 1024 - 2 ^ 970 - 1) = Fin (Qc_of_Z (2 ^ 1024 - 2 ^ 971))
  ∧ float_of_int (2 ^ 1024 - 2 ^ 970) = Inf false.
Proof. repeat split; by_evaluation. Qed.

(** [s[:n]] counts code points: in ["é€!"] the letters take two and
    three bytes. *)
Example str_prefix_code_points :
  code_points "é€!" = 3
  ∧ String.length "é€!" = 6
  ∧ str_prefix 2 "é€!" = "é€"
  ∧ str_prefix 200 "é€!" = "é€!"
  ∧ str_prefix 0 "é€!" = "".
Proof. repeat split; by_evaluation. Qed.

(** test_aggregator.py, [TestBasicAggregations] *)

Example test_sum_column :
  sum_column sample_df "Salary" = Ok (Fin (Qc_of_Z 330000)).
Proof. by_evaluation. Qed.

Example test_average_column :
  average_column sample_df "Salary" = Ok (Fin (Qc_of_Z 66000)).
Proof. by_evaluation. Qed.

Example test_min_column :
  min_column sample_df "Salary" = Ok (Fin (Qc_of_Z 50000)).
Proof. by_evaluation. Qed.

Example test_max_column :
  max_column sample_df "Salary" = Ok (Fin (Qc_of_Z 85000)).
Proof. by_evaluation. Qed.

Example test_median_column :
  median_column sample_df "Salary" = Ok (Fin (Qc_of_Z 60000)).
Proof. by_evaluation. Qed.

Example test_count_column : count_column sample_df "Salary" = Ok 5%Z.
Proof. by_evaluation. Qed.

Example test_unique_count : unique_count sample_df "Department" = Ok 3%Z.
Proof. by_evaluation. Qed.

(** [None] and [nan] are two entries of [unique_values]. *)
Example unique_values_two_nulls :
  unique_values two_nulls_df "c" = Ok [Text "a"; Null; NotANumber]
  ∧ unique_count two_nulls_df "c" = Ok 1%Z.
Proof. split; by_evaluation. Qed.

(** [TestGroupByAggregations] *)

Example test_groupby_sum :
  groupby_sum str_int sample_df "Department" "Salary"
  = Ok {[ "Sales" := Fin (Qc_of_Z 105000);
          "IT" := Fin (Qc_of_Z 165000);
          "HR" := Fin (Qc_of_Z 60000) ]}.
Proof. by_evaluation. Qed.

Example test_groupby_average :
  groupby_average str_int sample_df "Department" "Salary"
  = Ok {[ "Sales" := Fin (Qc_of_Z 52500);
          "IT" := Fin (Qc_of_Z 82500);
          "HR" := Fin (Qc_of_Z 60000) ]}.
Proof. by_evaluation. Qed.

Example test_groupby_count :
  groupby_count str_int sample_df "Department"
  = Ok {[ "Sales" := 2%Z; "IT" := 2%Z; "HR" := 1%Z ]}.
Proof. by_evaluation. Qed.

(** [TestFilterAndAggregate] *)

Example test_filter_and_sum :
  filter_and_aggregate str_int sample_df "Department" (Text "Sales")
                       "Salary" "sum"
  = Ok (PyFloat (Fin (Qc_of_Z 105000))).
Proof. by_evaluation. Qed.

Example test_filter_and_average :
  filter_and_aggregate str_int sample_df "Department" (Text "IT")
                       "Salary" "avg"
  = Ok (PyFloat (Fin (Qc_of_Z 82500))).
Proof. by_evaluation. Qed.

Example test_filter_and_max :
  filter_and_aggregate str_int sample_df "Department" (Text "Sales")
                       "Salary" "max"
  = Ok (PyFloat (Fin (Qc_of_Z 55000))).
Proof. by_evaluation. Qed.

(** [TestErrorHandling] *)

Example test_sum_nonexistent_column :
  sum_column sample_df "NonExistent"
  = Raise (ValueError "Column 'NonExistent' not found").
Proof. by_evaluation. Qed.

Example test_sum_non_numeric_column :
  sum_column sample_df "Name"
  = Raise (ValueError "Column 'Name' is not numeric").
Proof. by_evaluation. Qed.

Example test_groupby_nonexistent_column :
  groupby_sum str_int sample_df "NonExistent" "Salary"
  = Raise (ValueError "Group column 'NonExistent' not found").
Proof. by_evaluation. Qed.

Example test_filter_and_aggregate_no_match :
  filter_and_aggregate str_int sample_df "Department" (Text "NonExistent")
                       "Salary" "sum"
  = Raise (ValueError "No rows found where Department == NonExistent").
Proof. by_evaluation. Qed.

Example test_invalid_agg_function :
  filter_and_aggregate str_int sample_df "Department" (Text "Sales")
                       "Salary" "invalid"
  = Raise (ValueError "Unknown aggregation function: invalid").
Proof. by_evaluation. Qed.

(** Null handling on [null_key_df]: the row with the null key is in no
    group, and the null value is skipped by the sum, the count and the
    mean. *)

Example null_key_groupby_count :
  groupby_count str_int null_key_df "g" = Ok {[ "a" := 2%Z ]}
  ∧ count_rows null_key_df = 3%Z.
Proof. split; by_evaluation. Qed.

Example null_key_groupby_sum :
  groupby_sum str_int null_key_df "g" "v" = Ok {[ "a" := Fin (Qc_of_Z 1) ]}.
Proof. by_evaluation. Qed.

Example null_value_average :
  sum_column null_key_df "v" = Ok (Fin (Qc_of_Z 3))
  ∧ count_column null_key_df "v" = Ok 2%Z
  ∧ average_column null_key_df "v" = Ok (Fin (Qc_of_Z 3 / Qc_of_Z 2)%Qc).
Proof. repeat split; by_evaluation. Qed.

(** test_telemetry.py *)

Example test_max_history_enforced :
  tool_name <$> tool_calls (run (OpRecord <$> test_calls) (init (Qc_of_Z 0) 3))
  = ["tool_2"; "tool_3"; "tool_4"].
Proof. by_evaluation. Qed.

(** The example of the design document: capacity 3, tools [t0..t4]. *)
Example history_after_eviction :
  let self := run (OpRecord <$> test_calls) (init (Qc_of_Z 0) 3) in
  tool_name <$> get_call_history None self = ["tool_4"; "tool_3"; "tool_2"]
  ∧ get_tool_call_counts self !! "tool_0" = None
  ∧ get_tool_call_counts self !! "tool_1" = None
  ∧ get_tool_call_counts self !! "tool_4" = Some 1%Z.
Proof. repeat split; by_evaluation. Qed.

Example test_get_call_history_with_limit :
  tool_name <$> get_call_history (Some 2%Z)
                  (run (OpRecord <$> test_calls)
                       (init (Qc_of_Z 0) default_max_history))
  = ["tool_4"; "tool_3"].
Proof. by_evaluation. Qed.

Example test_get_average_execution_time :
  get_average_execution_time
    (run (OpRecord <$> test_calls) (init (Qc_of_Z 0) default_max_history))
  !! "tool_3" = Some (Qc_of_Z 1).
Proof. by_evaluation. Qed.

End RepositoryTests.

(** * Further properties of the telemetry collector *)

Module TelemetryExtras.
Import Telemetry TelemetryFacts TelemetryClaims.
Import DataAggregator GroupbyFacts.
Local Open Scope Z_scope.

(** *** Sums over a dictionary *)

Lemma sum_values_empty : sum_values ∅ = 0.
Proof. unfold sum_values. apply map_fold_empty. Qed.

Lemma sum_values_insert_any (d : gmap string Z) k v :
  sum_values (<[k := v]> d) = v + sum_values d - default 0 (d !! k).
Proof.
  destruct (d !! k) as [old|] eqn:Hk; simpl.
  - rewrite <-(insert_delete_eq d), sum_values_insert
      by apply lookup_delete_eq.
    rewrite <-(insert_delete_id d k old) at 2 by done.
    rewrite sum_values_insert by apply lookup_delete_eq. lia.
  - rewrite sum_values_insert by done. lia.
Qed.


(** X1.  [get_tool_call_counts] maps a tool to the number of its retained
    calls, and has no entry for a tool without retained calls. *)
Theorem call_counts_by_tool (self : AgentTelemetry) (t : string) :
  get_tool_call_counts self !! t =
    if decide (calls_of t (tool_calls self) = []) then None
    else Some (Z.of_nat (length (calls_of t (tool_calls self)))).
Proof. apply counts_lookup. Qed.

(** X2.  The counts of [get_tool_call_counts] add up to the number of
    retained calls, the [total_tool_calls] of the summary. *)
Theorem call_counts_total (self : AgentTelemetry) (now : Qc) :
  sum_values (get_tool_call_counts self)
  = Z.of_nat (length (tool_calls self))
  ∧ sum_values (tool_call_counts (get_summary now self))
    = total_tool_calls (get_summary now self).
Proof.
  assert (sum_values (get_tool_call_counts self)
          = Z.of_nat (length (tool_calls self))) as Hsum.
  { unfold get_tool_call_counts.
    induction (tool_calls self) as [|c l IH] using rev_ind.
    - apply sum_values_empty.
    - rewrite foldl_snoc, length_app. unfold count_call at 1.
      rewrite sum_values_insert_any, IH. simpl. lia. }
  split; [done|]. simpl. done.
Qed.


Lemma calls_of_nonempty_iff t l : calls_of t l ≠ [] ↔ t ∈ tool_name <$> l.
Proof.
  pose proof (calls_of_nil_iff t l) as Hnil.
  destruct (decide (t ∈ tool_name <$> l)); tauto.
Qed.

Lemma is_Some_if_nonempty {A B} (l : list A) (x : B) :
  is_Some (if decide (l = []) then None else Some x) ↔ l ≠ [].
Proof.
  case_decide; split; intros H';
    first [done | by destruct H' as [? ?] | by eexists].
Qed.

(** X4.  The three per-tool dictionaries have the same keys: the names of
    the tools with a retained call. *)
Theorem per_tool_keys (self : AgentTelemetry) :
  dom (get_tool_success_rate self) = dom (get_tool_call_counts self)
  ∧ dom (get_average_execution_time self) = dom (get_tool_call_counts self)
  ∧ ∀ t, t ∈ dom (get_tool_call_counts self)
         ↔ t ∈ tool_name <$> tool_calls self.
Proof.
  assert (∀ t, t ∈ dom (get_tool_call_counts self)
               ↔ t ∈ tool_name <$> tool_calls self) as Hcounts.
  { intros t. rewrite elem_of_dom. unfold get_tool_call_counts.
    by rewrite counts_lookup, is_Some_if_nonempty, calls_of_nonempty_iff. }
  split; [|split; [|done]].
  - apply set_eq. intros t. rewrite Hcounts, elem_of_dom.
    unfold get_tool_success_rate. rewrite lookup_fmap, tally_fold_lookup.
    rewrite <-calls_of_nonempty_iff.
    case_decide; simpl; split; intros Hin;
      first [done | by destruct Hin as [? ?] | by eexists].
  - apply set_eq. intros t. rewrite Hcounts, elem_of_dom.
    unfold get_average_execution_time.
    rewrite lookup_fmap, collect_time_fold_lookup.
    rewrite <-calls_of_nonempty_iff.
    case_decide; simpl; split; intros Hin;
      first [done | by destruct Hin as [? ?] | by eexists].
Qed.

(** *** Success rates *)

Lemma Qc_of_Z_pos n : 0 < n → (0 < Qc_of_Z n)%Qc.
Proof. intros Hn. rewrite <-Z2Qc_inj_0. by apply (proj1 (Z2Qc_inj_lt _ _)). Qed.

Lemma Qc_of_Z_nonzero n : 0 < n → Qc_of_Z n ≠ 0%Qc.
Proof.
  intros Hn Heq. rewrite <-Z2Qc_inj_0 in Heq. apply Z2Qc_inj in Heq. lia.
Qed.

Lemma true_div_bounds s n :
  0 < n → 0 ≤ s ≤ n → (0 ≤ true_div s n ≤ 1)%Qc.
Proof.
  intros Hn [Hs Hsn]. unfold true_div, Qcdiv.
  assert (0 ≤ / Qc_of_Z n)%Qc as Hinv
    by (apply Qclt_le_weak, Qcinv_pos, Qc_of_Z_pos; lia).
  split.
  - apply Qcmult_nonneg_nonneg; [|done].
    rewrite <-Z2Qc_inj_0. by apply (proj1 (Z2Qc_inj_le _ _)).
  - rewrite <-(Qcmult_inv_r (Qc_of_Z n)) by (by apply Qc_of_Z_nonzero).
    apply Qcmult_le_mono_nonneg_r; [done|]. by apply (proj1 (Z2Qc_inj_le _ _)).
Qed.

Lemma true_div_eq s n k :
  0 < n → true_div s n = Qc_of_Z k ↔ s = k * n.
Proof.
  intros Hn. unfold true_div. split.
  - intros Heq.
    pose proof (Qcmult_div_r (Qc_of_Z s) (Qc_of_Z n)
                  (Qc_of_Z_nonzero n Hn)) as Hmul.
    rewrite Heq, <-Z2Qc_inj_mul in Hmul. apply Z2Qc_inj in Hmul. lia.
  - intros ->. rewrite Z2Qc_inj_mul. unfold Qcdiv.
    rewrite <-Qcmult_assoc, Qcmult_inv_r by (by apply Qc_of_Z_nonzero).
    by rewrite Qcmult_1_r.
Qed.

Lemma successful_all (l : list ToolCall) :
  length (successful l) = length l ↔ Forall (λ c, success c = true) l.
Proof.
  unfold successful. induction l as [|c l IH]; [by split; constructor|].
  rewrite filter_cons, Forall_cons.
  pose proof (length_filter (λ c, success c = true) l).
  destruct (success c); case_decide; simpl; try done.
  - rewrite <-IH. split; [intros ?; split; [done|lia]|intros [_ ?]; lia].
  - split; [lia|]. by intros [? _].
Qed.

Lemma successful_none (l : list ToolCall) :
  length (successful l) = 0%nat ↔ Forall (λ c, success c = false) l.
Proof.
  unfold successful. induction l as [|c l IH]; [by split; constructor|].
  rewrite filter_cons, Forall_cons.
  destruct (success c); case_decide; simpl; try done.
  - split; [lia|]. by intros [? _].
  - rewrite IH. tauto.
Qed.

(** X5.  Every success rate lies between 0 and 1 (the default [0.0] for a
    tool with a total of zero is never used: an entry has a call); it is
    1 exactly when all retained calls of the tool succeeded, and 0
    exactly when none did. *)
Theorem success_rate_bounds (self : AgentTelemetry) (t : string) (r : Qc) :
  get_tool_success_rate self !! t = Some r →
  calls_of t (tool_calls self) ≠ []
  ∧ (0 ≤ r ≤ 1)%Qc
  ∧ (r = Qc_of_Z 1
     ↔ Forall (λ c, success c = true) (calls_of t (tool_calls self)))
  ∧ (r = Qc_of_Z 0
     ↔ Forall (λ c, success c = false) (calls_of t (tool_calls self))).
Proof.
  unfold get_tool_success_rate. rewrite lookup_fmap, tally_fold_lookup.
  set (retained := calls_of t (tool_calls self)).
  case_decide as Hnil; [done|]. simpl. intros [= <-].
  assert (0 < Z.of_nat (length retained)) as Hpos
    by (destruct retained; [done|simpl; lia]).
  pose proof (length_filter (λ c, success c = true) retained) as Hle.
  fold (successful retained) in Hle.
  unfold rate_of; simpl.
  destruct (Z.ltb_spec 0 (Z.of_nat (length retained))) as [_|?]; [|lia].
  split; [done|]. split; [apply true_div_bounds; lia|]. split.
  - rewrite true_div_eq, <-successful_all by done. lia.
  - rewrite true_div_eq, <-successful_none by done. lia.
Qed.

Lemma success_rate_bounds_witness :
  let self :=
    run [OpRecord (test_outcome "sum_column" true);
         OpRecord (test_outcome "sum_column" false)]
        (init (Qc_of_Z 0) default_max_history) in
  (0 ≤ true_div 1 2 ≤ 1)%Qc.
Proof.
  intros self.
  apply (success_rate_bounds self "sum_column" (true_div 1 2)).
  apply (bool_decide_unpack _). vm_compute. exact I.
Defined.

(** *** Clearing, history and the latest call *)

Lemma clear_is_init self :
  clear self = init (session_start_time self) (max_history self).
Proof. done. Qed.

(** X6.  After [clear] the collector is the one a constructor call with
    the same capacity and the same start time would give: whatever was
    recorded before has no effect on any later operation. *)
Theorem clear_forgets (now : Qc) (m : Z) (before later : list Op) :
  run (before ++ OpClear :: later) (init now m) = run later (init now m).
Proof.
  unfold run. rewrite foldl_app. simpl. f_equal.
  change (step (foldl step (init now m) before) OpClear)
    with (clear (run before (init now m))).
  by rewrite clear_is_init, run_max_history, run_session_start.
Qed.

(** X7.  The length of [get_call_history(n)] is [min(n, len)] for
    [n >= 1].  With [n = 0] the slice [[-0:]] is the whole list, so the
    full history comes back; a negative [n] drops the [-n] oldest
    records. *)
Theorem history_edge_cases (self : AgentTelemetry) :
  (∀ k, 1 ≤ k →
     length (get_call_history (Some k) self)
     = (Z.to_nat k `min` length (tool_calls self))%nat)
  ∧ get_call_history (Some 0) self = get_call_history None self
  ∧ (∀ n, n < 0 →
       get_call_history (Some n) self
       = reverse (drop (Z.to_nat (- n)) (tool_calls self))).
Proof.
  split; [|split].
  - intros k Hk. rewrite history_some by done.
    by rewrite length_take, length_reverse.
  - unfold get_call_history, slice_from. simpl.
    by rewrite Z.min_l by lia.
  - intros n Hn. unfold get_call_history, slice_from.
    destruct (Z.ltb_spec (- n) 0) as [?|_]; [lia|].
    f_equal.
    destruct (decide (- n ≤ Z.of_nat (length (tool_calls self)))).
    + f_equal. lia.
    + rewrite !drop_ge; [done|lia..].
Qed.

(** X8.  With a capacity of at least 1, the call just recorded is the
    latest call and the head of the history. *)
Theorem latest_after_record (self : AgentTelemetry) (c : ToolCall) :
  1 ≤ max_history self →
  get_latest_call (record c self) = Some c
  ∧ head (get_call_history None (record c self)) = Some c.
Proof.
  intros Hm.
  assert (last (tool_calls (record c self)) = Some c) as Hlast.
  { rewrite record_tool_calls. case_match eqn:Hlt; [|apply last_snoc].
    destruct (tool_calls self) as [|c' l]; simpl.
    - apply Z.ltb_lt in Hlt. simpl in Hlt. lia.
    - rewrite drop_0. apply last_snoc. }
  split.
  - by rewrite latest_is_last.
  - unfold get_call_history. by rewrite head_reverse.
Qed.

Lemma latest_after_record_witness :
  get_latest_call
    (record (test_call 4 "tool_4")
            (run (OpRecord <$> take 4 test_calls) (init (Qc_of_Z 0) 3)))
  = Some (test_call 4 "tool_4").
Proof.
  apply (latest_after_record
           (run (OpRecord <$> take 4 test_calls) (init (Qc_of_Z 0) 3))
           (test_call 4 "tool_4")).
  vm_compute. discriminate.
Defined.

End TelemetryExtras.

(** * Further properties of the aggregation engine *)

Module AggregatorExtras.
Import Pandas PandasFacts DataAggregator AggregatorFacts GroupbyFacts.
Import Float64Facts AggregationTools.

Section Extras.
Context `{!Reductions}.

(** X9.  A numeric column without non-null values is no error: [sum]
    returns 0, [count] returns 0, and [average], [min], [max] and [median]
    return [nan]. *)
Theorem numeric_column_without_values
    (df : DataFrame) (column : string) (vals : list (option Qc)) :
  get_column df column = Some (NumSeries vals) →
  dropna vals = [] →
  sum_column df column = Ok (Fin (Qc_of_Z 0))
  ∧ count_column df column = Ok 0%Z
  ∧ average_column df column = Ok NaN
  ∧ min_column df column = Ok NaN
  ∧ max_column df column = Ok NaN
  ∧ median_column df column = Ok NaN.
Proof.
  intros Hcol Hnone.
  unfold sum_column, count_column, average_column, min_column, max_column,
    median_column.
  rewrite Hcol, series_count_numeric.
  unfold series_sum, series_mean, mean_of, series_min, series_max,
    series_median.
  pose proof (float_sum_order vals) as Hsum. rewrite Hnone in Hsum.
  rewrite (summation_nil_inv _ Hsum), Hnone, Z2Qc_inj_0. repeat split.
Qed.

(** *** Minimum and maximum *)

Lemma foldl_Qc_min q qs :
  foldl Qc_min q qs ∈ q :: qs
  ∧ ∀ x, x ∈ q :: qs → (foldl Qc_min q qs ≤ x)%Qc.
Proof.
  revert q; induction qs as [|q' qs IH]; intros q; simpl.
  - split; [left|]. intros x ->%list_elem_of_singleton. apply Qcle_refl.
  - destruct (IH (Qc_min q q')) as [Hin Hle]. unfold Qc_min in *.
    destruct (decide (q ≤ q')%Qc) as [Hqq|Hqq].
    + split.
      * apply elem_of_cons in Hin as [->|Hin]; [left|by do 2 right].
      * intros x [->|[->|Hx]%elem_of_cons]%elem_of_cons.
        -- apply Hle. left.
        -- eapply Qcle_trans; [apply Hle; left|done].
        -- apply Hle. by right.
    + assert (q' ≤ q)%Qc as Hq'q
        by (destruct (Qc_le_total q q'); [done|done]).
      split.
      * apply elem_of_cons in Hin as [->|Hin]; [right; left|by do 2 right].
      * intros x [->|[->|Hx]%elem_of_cons]%elem_of_cons.
        -- eapply Qcle_trans; [apply Hle; left|done].
        -- apply Hle. left.
        -- apply Hle. by right.
Qed.

Lemma foldl_Qc_max q qs :
  foldl Qc_max q qs ∈ q :: qs
  ∧ ∀ x, x ∈ q :: qs → (x ≤ foldl Qc_max q qs)%Qc.
Proof.
  revert q; induction qs as [|q' qs IH]; intros q; simpl.
  - split; [left|]. intros x ->%list_elem_of_singleton. apply Qcle_refl.
  - destruct (IH (Qc_max q q')) as [Hin Hle]. unfold Qc_max in *.
    destruct (decide (q ≤ q')%Qc) as [Hqq|Hqq].
    + split.
      * apply elem_of_cons in Hin as [->|Hin]; [right; left|by do 2 right].
      * intros x [->|[->|Hx]%elem_of_cons]%elem_of_cons.
        -- eapply Qcle_trans; [done|apply Hle; left].
        -- apply Hle. left.
        -- apply Hle. by right.
    + assert (q' ≤ q)%Qc as Hq'q
        by (destruct (Qc_le_total q q'); [done|done]).
      split.
      * apply elem_of_cons in Hin as [->|Hin]; [left|by do 2 right].
      * intros x [->|[->|Hx]%elem_of_cons]%elem_of_cons.
        -- apply Hle. left.
        -- eapply Qcle_trans; [done|apply Hle; left].
        -- apply Hle. by right.
Qed.

Lemma foldl_Z_min z zs :
  foldl Z.min z zs ∈ z :: zs
  ∧ ∀ x, x ∈ z :: zs → (foldl Z.min z zs ≤ x)%Z.
Proof.
  revert z; induction zs as [|z' zs IH]; intros z; simpl.
  - split; [left|]. intros x ->%list_elem_of_singleton. lia.
  - destruct (IH (Z.min z z')) as [Hin Hle]. split.
    + apply elem_of_cons in Hin as [->|Hin]; [|by do 2 right].
      destruct (Z.min_spec z z') as [[_ ->]|[_ ->]]; [left|right; left].
    + intros x [->|[->|Hx]%elem_of_cons]%elem_of_cons.
      * specialize (Hle (Z.min z z') ltac:(left)). lia.
      * specialize (Hle (Z.min z z') ltac:(left)). lia.
      * apply Hle. by right.
Qed.

Lemma foldl_Z_max z zs :
  foldl Z.max z zs ∈ z :: zs
  ∧ ∀ x, x ∈ z :: zs → (x ≤ foldl Z.max z zs)%Z.
Proof.
  revert z; induction zs as [|z' zs IH]; intros z; simpl.
  - split; [left|]. intros x ->%list_elem_of_singleton. lia.
  - destruct (IH (Z.max z z')) as [Hin Hle]. split.
    + apply elem_of_cons in Hin as [->|Hin]; [|by do 2 right].
      destruct (Z.max_spec z z') as [[_ ->]|[_ ->]]; [right; left|left].
    + intros x [->|[->|Hx]%elem_of_cons]%elem_of_cons.
      * specialize (Hle (Z.max z z') ltac:(left)). lia.
      * specialize (Hle (Z.max z z') ltac:(left)). lia.
      * apply Hle. by right.
Qed.

(** X10.  On a numeric column with a non-null value, [min] and [max]
    return [float] of a value of the column that is below, respectively
    above, every non-null value.  On a [float64] column, and on an
    [int64] column when that value has a magnitude of at most [2 ^ 53],
    the result is the value itself; a larger integer is rounded to the
    nearest float. *)
Theorem min_max_of_numeric_column
    (df : DataFrame) (column : string) (s : Series) :
  get_column df column = Some s →
  is_numeric_dtype s = true →
  numeric_values s ≠ [] →
  ∃ lo hi : Qc,
    lo ∈ numeric_values s
    ∧ hi ∈ numeric_values s
    ∧ (∀ q, q ∈ numeric_values s → (lo ≤ q ≤ hi)%Qc)
    ∧ min_column df column = Ok (float_of_value s lo)
    ∧ max_column df column = Ok (float_of_value s hi)
    ∧ (∀ z, lo = Qc_of_Z z → (Z.abs z ≤ 2 ^ 53)%Z →
            min_column df column = Ok (Fin lo))
    ∧ (∀ z, hi = Qc_of_Z z → (Z.abs z ≤ 2 ^ 53)%Z →
            max_column df column = Ok (Fin hi)).
Proof.
  intros Hcol Hnum Hsome. unfold min_column, max_column. rewrite Hcol.
  destruct s as [vals|vals|vals]; [| |done]; simpl in *.
  - destruct vals as [|z zs]; [done|].
    destruct (foldl_Z_min z zs) as [Hmin_in Hmin].
    destruct (foldl_Z_max z zs) as [Hmax_in Hmax].
    exists (Qc_of_Z (foldl Z.min z zs)), (Qc_of_Z (foldl Z.max z zs)).
    split; [by apply (list_elem_of_fmap_2 Qc_of_Z)|].
    split; [by apply (list_elem_of_fmap_2 Qc_of_Z)|].
    split.
    { intros q (x & -> & Hx)%list_elem_of_fmap.
      split; apply (proj1 (Z2Qc_inj_le _ _)); [by apply Hmin|by apply Hmax]. }
    split; [done|]. split; [done|].
    split; intros x Heq%Z2Qc_inj Hx; subst x; unfold int_min, int_max;
      rewrite float_of_int_exact; done.
  - unfold series_min, series_max.
    destruct (dropna vals) as [|q qs]; [done|].
    destruct (foldl_Qc_min q qs) as [Hmin_in Hmin].
    destruct (foldl_Qc_max q qs) as [Hmax_in Hmax].
    exists (foldl Qc_min q qs), (foldl Qc_max q qs).
    repeat split; eauto.
Qed.

(** *** The advertised aggregations *)

Lemma lookup_column_None cols c :
  lookup_column cols c = None ↔ c ∉ cols.*1.
Proof.
  induction cols as [|[name s] cols IH]; simpl.
  - split; [intros _; apply not_elem_of_nil|done].
  - rewrite not_elem_of_cons. case_decide as Hname; simpl.
    + split; [done|]. by intros [? _].
    + rewrite IH. split; [by intros ?; split|by intros [_ ?]].
Qed.

Lemma lookup_column_snoc cols name s c :
  name ∉ cols.*1 →
  lookup_column (cols ++ [(name, s)]) c
  = if decide (name = c) then Some s else lookup_column cols c.
Proof.
  intros Hfresh. induction cols as [|[name' s'] cols IH]; simpl; [done|].
  simpl in Hfresh. rewrite not_elem_of_cons in Hfresh.
  destruct Hfresh as [Hne Hfresh].
  rewrite IH by done.
  destruct (decide (name' = c)) as [->|?], (decide (name = c)) as [->|?];
    done.
Qed.

(** The list [get_available_aggregations] stores for a column. *)
Lemma available_aggregations_lookup df c :
  NoDup (columns df).*1 →
  get_available_aggregations df !! c
  = (λ s, if is_numeric_dtype s
          then ["sum"; "avg"; "min"; "max"; "median"; "count"]
          else ["count"; "unique_values"]) <$> get_column df c.
Proof.
  unfold get_available_aggregations, get_column.
  induction (columns df) as [|[name s] cols IH] using rev_ind; intros Hnd.
  - done.
  - rewrite fmap_app, NoDup_app in Hnd. destruct Hnd as (Hnd & Hdisj & _).
    assert (name ∉ cols.*1) as Hfresh.
    { intros Hin. apply (Hdisj name Hin). simpl. left. }
    rewrite foldl_snoc, lookup_column_snoc by done.
    cbn [fst snd fmap option_fmap option_map].
    destruct (decide (name = c)) as [->|Hne].
    + simpl. by destruct (is_numeric_dtype s); rewrite lookup_insert_eq.
    + destruct (is_numeric_dtype s);
        rewrite lookup_insert_ne by done; by apply IH.
Qed.

(** X16.  On a frame with distinct column names,
    [get_available_aggregations] has an entry exactly for the columns of
    the frame, and what it lists can be trusted: [count] is always listed
    and succeeds, [sum], [avg], [min], [max] and [median] are listed
    exactly when the matching operation succeeds, and [unique_values]
    succeeds where it is listed. *)
Theorem available_aggregations_are_valid (df : DataFrame) (column : string) :
  NoDup (columns df).*1 →
  match get_available_aggregations df !! column with
  | None => get_column df column = None
  | Some aggs =>
      "count" ∈ aggs
      ∧ is_ok (count_column df column) = true
      ∧ ("sum" ∈ aggs ↔ is_ok (sum_column df column) = true)
      ∧ ("avg" ∈ aggs ↔ is_ok (average_column df column) = true)
      ∧ ("min" ∈ aggs ↔ is_ok (min_column df column) = true)
      ∧ ("max" ∈ aggs ↔ is_ok (max_column df column) = true)
      ∧ ("median" ∈ aggs ↔ is_ok (median_column df column) = true)
      ∧ ("unique_values" ∈ aggs → is_ok (unique_values df column) = true)
  end.
Proof.
  intros Hnd. rewrite available_aggregations_lookup by done.
  unfold count_column, sum_column, average_column, min_column, max_column,
    median_column, unique_values.
  destruct (get_column df column) as [[vals|vals|vals]|]; simpl;
    [| | |done].
  - repeat split; try done;
      try intros _; apply (bool_decide_unpack _); by vm_compute.
  - repeat split; try done;
      try intros _; apply (bool_decide_unpack _); by vm_compute.
  - repeat split; try done;
      first [ by intros Hin%(bool_decide_pack _); vm_compute in Hin
            | apply (bool_decide_unpack _); by vm_compute ].
Qed.

(** *** Distinct values and counts *)

(** X17.  [unique_values] returns at most 20 values, pairwise distinct,
    each of them a value of the column, as a prefix of the distinct values
    in order of first occurrence; when the column has at most 20 distinct
    values, every value of the column is in the list. *)
Theorem unique_values_are_distinct_values
    (df : DataFrame) (column : string) (s : Series) :
  get_column df column = Some s →
  ∃ vs : list Cell,
    unique_values df column = Ok vs
    ∧ NoDup vs
    ∧ length vs ≤ 20
    ∧ vs `prefix_of` unique (cells s)
    ∧ (∀ x, x ∈ vs → x ∈ cells s)
    ∧ (length (unique (cells s)) ≤ 20 → ∀ x, x ∈ cells s → x ∈ vs).
Proof.
  intros Hcol. unfold unique_values. rewrite Hcol.
  eexists. split; [reflexivity|].
  split; [|split; [|split; [|split]]].
  - eapply sublist_NoDup; [apply NoDup_unique|apply sublist_take].
  - rewrite length_take. lia.
  - apply prefix_take.
  - intros x Hx. apply elem_of_unique.
    by eapply subseteq_take.
  - intros Hlen x Hx. rewrite take_ge by done. by apply elem_of_unique.
Qed.

(** X18.  On a well-formed frame, [unique_count] is at most
    [count_column], which is at most [count_rows]; the rows that
    [count_column] leaves out are those with a null in the column. *)
Theorem counts_are_ordered (df : DataFrame) (column : string) (s : Series) :
  well_formed df →
  get_column df column = Some s →
  ∃ u n : Z,
    unique_count df column = Ok u
    ∧ count_column df column = Ok n
    ∧ (0 ≤ u ≤ n)%Z
    ∧ (n ≤ count_rows df)%Z
    ∧ (n + Z.of_nat (null_rows (cells s)))%Z = count_rows df.
Proof.
  intros Hwf Hcol. unfold unique_count, count_column, count_rows.
  rewrite Hcol. do 2 eexists. split; [reflexivity|]. split; [reflexivity|].
  pose proof (well_formed_length df column s Hwf Hcol) as Hlen.
  pose proof (length_notna_null (cells s)) as Hsplit.
  assert (nunique (cells s) ≤ series_count (cells s)) as Hle.
  { unfold nunique, series_count. apply submseteq_length, NoDup_submseteq.
    - apply NoDup_filter, NoDup_unique.
    - intros x [Hx Hin]%list_elem_of_filter.
      apply list_elem_of_filter. split; [done|]. by apply elem_of_unique. }
  lia.
Qed.

(** *** Comparison with the filter value *)

Lemma count_true_all_false {A} (f : A → bool) (l : list A) :
  (∀ x, x ∈ l → f x = false) → count_true (f <$> l) = 0.
Proof.
  unfold count_true. induction l as [|x l IH]; intros Hf; [done|].
  rewrite fmap_cons, filter_cons, (Hf x) by left.
  rewrite decide_False by done. apply IH. intros y Hy. apply Hf. by right.
Qed.

(** X19.  The comparison with the filter value is typed: a text never
    equals a value of a numeric column and a null equals nothing, so
    [filter_and_aggregate] with a text on a numeric filter column, or with
    a null on any existing filter column, raises the empty-filter
    error. *)
Theorem filter_value_of_another_type (str_num : Qc → string)
    (df : DataFrame) (filter_column : string) (s : Series)
    (agg_column agg_func : string) :
  get_column df filter_column = Some s →
  (is_numeric_dtype s = true →
   ∀ text,
     filter_and_aggregate str_num df filter_column (Text text)
                          agg_column agg_func
     = Raise (ValueError (msg_no_rows filter_column text)))
  ∧ filter_and_aggregate str_num df filter_column Null agg_column agg_func
    = Raise (ValueError (msg_no_rows filter_column "None")).
Proof.
  intros Hs. split.
  - intros Hnum text. rewrite (filter_empty_raises _ _ _ _ _ _ s); [done|done|].
    unfold series_eq. apply count_true_all_false.
    intros c Hc. destruct c as [q|t| |]; try done.
    by apply text_in_numeric_series in Hc.
  - rewrite (filter_empty_raises _ _ _ _ _ _ s); [done|done|].
    unfold series_eq. apply count_true_all_false.
    intros c _. by destruct c.
Qed.

End Extras.

#[local] Existing Instance sequential.

Lemma numeric_column_without_values_witness :
  sum_column all_null_df "v" = Ok (Fin (Qc_of_Z 0))
  ∧ count_column all_null_df "v" = Ok 0%Z
  ∧ average_column all_null_df "v" = Ok NaN
  ∧ min_column all_null_df "v" = Ok NaN
  ∧ max_column all_null_df "v" = Ok NaN
  ∧ median_column all_null_df "v" = Ok NaN.
Proof.
  apply (numeric_column_without_values all_null_df "v" [None; None]);
    reflexivity.
Defined.

Lemma min_max_of_numeric_column_witness :
  ∃ lo hi : Qc,
    lo ∈ Qc_of_Z <$> [50000; 80000; 55000; 60000; 85000]%Z
    ∧ hi ∈ Qc_of_Z <$> [50000; 80000; 55000; 60000; 85000]%Z
    ∧ min_column sample_df "Salary" = Ok (Fin lo)
    ∧ max_column sample_df "Salary" = Ok (Fin hi)
    ∧ lo = Qc_of_Z 50000
    ∧ hi = Qc_of_Z 85000.
Proof.
  destruct (min_max_of_numeric_column sample_df "Salary"
              (IntSeries [50000; 80000; 55000; 60000; 85000]%Z)
              eq_refl eq_refl ltac:(discriminate))
    as (lo & hi & Hlo & Hhi & Hbounds & Hmin & Hmax & _).
  exists lo, hi. split; [exact Hlo|]. split; [exact Hhi|].
  assert (min_column sample_df "Salary" = Ok (Fin (Qc_of_Z 50000))) as Hmin'
    by (apply (bool_decide_unpack _); vm_compute; exact I).
  assert (max_column sample_df "Salary" = Ok (Fin (Qc_of_Z 85000))) as Hmax'
    by (apply (bool_decide_unpack _); vm_compute; exact I).
  assert (lo = Qc_of_Z 50000) as Hlo50.
  { apply Qcle_antisym.
    - apply Hbounds. simpl. left.
    - simpl in Hlo. rewrite !elem_of_cons in Hlo.
      destruct Hlo as [->|[->|[->|[->|[->|Hnil]]]]];
        try (apply (bool_decide_unpack _); vm_compute; exact I).
      by apply not_elem_of_nil in Hnil. }
  assert (hi = Qc_of_Z 85000) as Hhi85.
  { apply Qcle_antisym.
    - simpl in Hhi. rewrite !elem_of_cons in Hhi.
      destruct Hhi as [->|[->|[->|[->|[->|Hnil]]]]];
        try (apply (bool_decide_unpack _); vm_compute; exact I).
      by apply not_elem_of_nil in Hnil.
    - apply Hbounds. simpl. do 4 right. left. }
  split; [by rewrite Hlo50|]. split; [by rewrite Hhi85|]. done.
Defined.

Lemma available_aggregations_are_valid_witness :
  match get_available_aggregations sample_df !! "Salary" with
  | None => get_column sample_df "Salary" = None
  | Some aggs =>
      "count" ∈ aggs
      ∧ is_ok (count_column sample_df "Salary") = true
      ∧ ("sum" ∈ aggs ↔ is_ok (sum_column sample_df "Salary") = true)
      ∧ ("avg" ∈ aggs ↔ is_ok (average_column sample_df "Salary") = true)
      ∧ ("min" ∈ aggs ↔ is_ok (min_column sample_df "Salary") = true)
      ∧ ("max" ∈ aggs ↔ is_ok (max_column sample_df "Salary") = true)
      ∧ ("median" ∈ aggs ↔ is_ok (median_column sample_df "Salary") = true)
      ∧ ("unique_values" ∈ aggs
         → is_ok (unique_values sample_df "Salary") = true)
  end.
Proof.
  apply (available_aggregations_are_valid sample_df "Salary").
  apply (bool_decide_unpack _). vm_compute. exact I.
Defined.

Lemma unique_values_are_distinct_values_witness :
  ∃ vs : list Cell,
    unique_values sample_df "Department" = Ok vs
    ∧ NoDup vs
    ∧ length vs ≤ 20
    ∧ vs `prefix_of` unique (cells (ObjSeries [Text "Sales"; Text "IT";
                                               Text "Sales"; Text "HR";
                                               Text "IT"]))
    ∧ (∀ x, x ∈ vs → x ∈ cells (ObjSeries [Text "Sales"; Text "IT";
                                           Text "Sales"; Text "HR";
                                           Text "IT"]))
    ∧ (length (unique (cells (ObjSeries [Text "Sales"; Text "IT";
                                         Text "Sales"; Text "HR";
                                         Text "IT"]))) ≤ 20 →
       ∀ x, x ∈ cells (ObjSeries [Text "Sales"; Text "IT"; Text "Sales";
                                  Text "HR"; Text "IT"]) → x ∈ vs).
Proof.
  apply (unique_values_are_distinct_values sample_df "Department").
  reflexivity.
Defined.

Lemma counts_are_ordered_witness :
  ∃ u n : Z,
    unique_count sample_df "Department" = Ok u
    ∧ count_column sample_df "Department" = Ok n
    ∧ (0 ≤ u ≤ n)%Z
    ∧ (n ≤ count_rows sample_df)%Z
    ∧ (n + Z.of_nat (null_rows (cells (ObjSeries [Text "Sales"; Text "IT";
                                                  Text "Sales"; Text "HR";
                                                  Text "IT"]))))%Z
      = count_rows sample_df.
Proof.
  apply (counts_are_ordered sample_df "Department").
  - apply sample_df_well_formed.
  - reflexivity.
Defined.

Lemma filter_value_of_another_type_witness :
  filter_and_aggregate str_int sample_df "Age" (Text "30") "Salary" "sum"
  = Raise (ValueError "No rows found where Age == 30").
Proof.
  apply (filter_value_of_another_type str_int sample_df "Age"
           (IntSeries [25; 30; 28; 35; 32]%Z)
           "Salary" "sum" eq_refl).
  reflexivity.
Defined.

End AggregatorExtras.

(** * Further properties of the groupby operations *)

Module GroupbyExtras.
Import Pandas PandasFacts DataAggregator AggregatorFacts GroupbyFacts.
Import AggregationTools.

Lemma elem_of_dom_dict_of_items {V} (items : list (string * V)) k :
  k ∈ dom (dict_of_items items) ↔ k ∈ items.*1.
Proof.
  induction items as [|[k' v'] items IH] using rev_ind.
  - unfold dict_of_items; simpl. rewrite dom_empty_L.
    split; [by intros ?%not_elem_of_empty|by intros ?%not_elem_of_nil].
  - rewrite dict_of_items_snoc, dom_insert_L, fmap_app, elem_of_app.
    rewrite elem_of_union, elem_of_singleton, IH. simpl.
    rewrite list_elem_of_singleton. tauto.
Qed.

(** Without key collisions every item is found under its key. *)
Lemma dict_of_items_lookup {K V} (f : K → string) (h : K → V)
    (keys : list K) (key : K) :
  NoDup (f <$> keys) → key ∈ keys →
  dict_of_items ((λ k, (f k, h k)) <$> keys) !! f key = Some (h key).
Proof.
  induction keys as [|k keys IH] using rev_ind; intros Hnd Hin.
  - by apply not_elem_of_nil in Hin.
  - rewrite fmap_app in Hnd. apply NoDup_app in Hnd as (Hnd & Hdisj & _).
    rewrite fmap_app; simpl. rewrite dict_of_items_snoc.
    apply elem_of_app in Hin as [Hin|Hin%list_elem_of_singleton].
    + rewrite lookup_insert_ne; [by apply IH|].
      intros Heq. apply (Hdisj (f key)).
      * apply list_elem_of_fmap. eauto.
      * rewrite <-Heq. simpl. left.
    + subst. apply lookup_insert_eq.
Qed.

Lemma elem_of_group_keys key cs :
  key ∈ group_keys cs ↔ key ∈ cs ∧ is_null key = false.
Proof.
  unfold group_keys.
  rewrite merge_sort_Permutation, list_elem_of_filter, elem_of_unique.
  rewrite notna_is_null. tauto.
Qed.

(** For a key that is not null, the rows of its group are the rows that
    [series == key] selects. *)
Lemma series_eq_group_mask s key :
  is_null key = false → series_eq s key = group_mask (cells s) key.
Proof.
  intros Hkey. unfold series_eq, group_mask.
  apply list_fmap_ext. intros _ c _.
  destruct c as [a|a| |], key as [b|b| |]; simpl; try done.
  - apply bool_decide_ext. split; [by intros ->|by intros [= ->]].
  - apply bool_decide_ext. split; [by intros ->|by intros [= ->]].
Qed.

Lemma count_true_group_mask_pos cs key :
  key ∈ cs → count_true (group_mask cs key) ≠ 0.
Proof.
  intros Hin. rewrite count_true_group_mask.
  assert (key ∈ filter (λ c, c = key) cs) as Hf
    by by apply list_elem_of_filter.
  by destruct (filter (λ c, c = key) cs); [apply not_elem_of_nil in Hf|].
Qed.

Section Str.
Variable str_num : Qc → string.
Context `{!Reductions}.

Lemma groupby_items_compose {V} (h : Cell → V) (keys : list Cell) :
  prod_map (py_str str_num) id <$> ((λ key, (key, h key)) <$> keys)
  = (λ key, (py_str str_num key, h key)) <$> keys.
Proof. by rewrite <-list_fmap_compose. Qed.

(** X13.  For a key of the group column that is not null ([None] or
    [nan]), and without two keys of the same textual form, the entry of
    [groupby_count] under the key is the number the [filter_count] tool
    returns for that key, and it is positive. *)
Theorem groupby_count_matches_filter_count
    (df : DataFrame) (group_column : string) (s : Series) (key : Cell) :
  get_column df group_column = Some s →
  key ∈ cells s → is_null key = false →
  NoDup (py_str str_num <$> group_keys (cells s)) →
  ∃ (d : gmap string Z) (n : Z),
    groupby_count str_num df group_column = Ok d
    ∧ d !! py_str str_num key = Some n
    ∧ filter_count_tool df group_column key = Ok (OutInt n)
    ∧ (0 < n)%Z.
Proof.
  intros Hg Hin Hkey Hnd.
  assert (key ∈ group_keys (cells s)) as Hgk by by apply elem_of_group_keys.
  unfold groupby_count, filter_count_tool. rewrite Hg.
  unfold Pandas.groupby_size.
  rewrite <-list_fmap_compose.
  do 2 eexists. split; [reflexivity|].
  split; [by apply (dict_of_items_lookup (py_str str_num)
                      (λ key, Z.of_nat (count_true (group_mask (cells s) key))))|].
  simpl. rewrite series_eq_group_mask by done. split; [done|].
  pose proof (count_true_group_mask_pos (cells s) key Hin). lia.
Qed.

(** X14.  The keys of the dictionary returned by [groupby_count] are the
    textual forms of the non-null values of the group column: no other
    key appears, and a null ([None] or [nan]) is never a group.
    [groupby_sum] and [groupby_average] on a numeric value column have
    the same keys. *)
Theorem groupby_key_set
    (df : DataFrame) (group_column : string) (s : Series) :
  get_column df group_column = Some s →
  ∃ d : gmap string Z,
    groupby_count str_num df group_column = Ok d
    ∧ (∀ k, k ∈ dom d
            ↔ ∃ c, c ∈ cells s ∧ is_null c = false ∧ k = py_str str_num c)
    ∧ ∀ value_column v,
        get_column df value_column = Some v →
        is_numeric_dtype v = true →
        ∃ sums means : gmap string Float,
          groupby_sum str_num df group_column value_column = Ok sums
          ∧ groupby_average str_num df group_column value_column = Ok means
          ∧ dom sums = dom d
          ∧ dom means = dom d.
Proof.
  intros Hg. unfold groupby_count, groupby_sum, groupby_average. rewrite Hg.
  eexists. split; [reflexivity|].
  assert (∀ {V} (h : Cell → V) k,
            k ∈ dom (dict_of_items
                       ((λ key, (py_str str_num key, h key))
                          <$> group_keys (cells s)))
            ↔ ∃ c, c ∈ cells s ∧ is_null c = false ∧ k = py_str str_num c)
    as Hdom.
  { intros V h k. rewrite elem_of_dom_dict_of_items, <-list_fmap_compose.
    rewrite list_elem_of_fmap. split.
    - intros (c & -> & [? ?]%elem_of_group_keys). eauto.
    - intros (c & ? & ? & ->). exists c. split; [done|].
      by apply elem_of_group_keys. }
  unfold Pandas.groupby_size, Pandas.groupby_sum, Pandas.groupby_mean.
  split.
  - intros k. rewrite <-list_fmap_compose. apply (Hdom Z).
  - intros value_column v Hv Hnum. rewrite Hv, Hnum.
    do 2 eexists. split; [reflexivity|]. split; [reflexivity|].
    rewrite !groupby_items_compose, <-list_fmap_compose.
    split; apply set_eq; intros k.
    + rewrite (Hdom Float). symmetry. apply (Hdom Z).
    + rewrite (Hdom Float). symmetry. apply (Hdom Z).
Qed.

End Str.

#[local] Existing Instance sequential.

Lemma groupby_count_matches_filter_count_witness :
  ∃ (d : gmap string Z) (n : Z),
    groupby_count str_int sample_df "Department" = Ok d
    ∧ d !! py_str str_int (Text "Sales") = Some n
    ∧ filter_count_tool sample_df "Department" (Text "Sales") = Ok (OutInt n)
    ∧ (0 < n)%Z.
Proof.
  apply (groupby_count_matches_filter_count str_int sample_df "Department"
           (ObjSeries [Text "Sales"; Text "IT"; Text "Sales";
                       Text "HR"; Text "IT"])).
  - reflexivity.
  - simpl. left.
  - reflexivity.
  - apply (bool_decide_unpack _). vm_compute. exact I.
Defined.

Lemma groupby_key_set_witness :
  ∃ d : gmap string Z,
    groupby_count str_int null_key_df "g" = Ok d
    ∧ (∀ k, k ∈ dom d
            ↔ ∃ c, c ∈ cells (ObjSeries [Text "a"; Null; Text "a"])
                   ∧ is_null c = false ∧ k = py_str str_int c)
    ∧ ∀ value_column v,
        get_column null_key_df value_column = Some v →
        is_numeric_dtype v = true →
        ∃ sums means : gmap string Float,
          groupby_sum str_int null_key_df "g" value_column = Ok sums
          ∧ groupby_average str_int null_key_df "g" value_column = Ok means
          ∧ dom sums = dom d
          ∧ dom means = dom d.
Proof.
  apply (groupby_key_set str_int null_key_df "g"). reflexivity.
Defined.

End GroupbyExtras.

(** * Properties of the aggregation tools (app_hybrid.py) *)

Module ToolExtras.
Import Pandas DataAggregator AggregatorFacts Telemetry Instrument.
Import AggregationTools.

(** [s[:n]] is the part of [s] that ends before its code point number
    [n]: a prefix, of [min(n, len(s))] code points, whose remainder does
    not start inside a code point. *)
Lemma str_prefix_spec (n : nat) (s : string) :
  ∃ rest : string,
    s = str_prefix n s +:+ rest
    ∧ code_points (str_prefix n s) = n `min` code_points s
    ∧ match rest with
      | EmptyString => True
      | String a _ => is_continuation a = false
      end.
Proof.
  revert n. induction s as [|a s IH]; intros n.
  - exists "". by rewrite Nat.min_0_r.
  - simpl. destruct (is_continuation a) eqn:Ha.
    + destruct (IH n) as (rest & Hs & Hlen & Hrest).
      exists rest. simpl. rewrite Ha.
      split; [|done].
      change (String a s = String a (str_prefix n s +:+ rest)).
      by f_equal.
    + destruct n as [|n].
      * exists (String a s). by rewrite Ha.
      * destruct (IH n) as (rest & Hs & Hlen & Hrest).
        exists rest. simpl. rewrite Ha, Hlen.
        split; [|done].
        change (String a s = String a (str_prefix n s +:+ rest)).
        by f_equal.
Qed.

Section Tools.
Context `{!Reductions}.

(** The text a tool returns for an engine error. *)
Lemma or_error_text_value_error {A} (wrap : A → ToolOutput)
    (call : Result A) :
  (∀ e, call = Raise e → exc_class e = "ValueError") →
  or_error_text wrap call
  = match call with
    | Ok a => Ok (wrap a)
    | Raise e => Ok (OutStr ("Error: " +:+ exc_str e))
    end.
Proof.
  intros Hclass. destruct call as [a|e]; [done|]. simpl.
  by rewrite decide_True by by apply Hclass.
Qed.

(** Every error of the engine functions behind the tools is a
    [ValueError]. *)
Lemma column_errors_are_value_errors df c e :
  (sum_column df c = Raise e ∨ average_column df c = Raise e
   ∨ min_column df c = Raise e ∨ max_column df c = Raise e)
  ∨ count_column df c = Raise e →
  exc_class e = "ValueError".
Proof.
  unfold sum_column, average_column, min_column, max_column, count_column.
  destruct (get_column df c) as [[vals|vals|vals]|]; simpl;
    intros [[Hr|[Hr|[Hr|Hr]]]|Hr]; by simplify_eq.
Qed.

Lemma groupby_errors_are_value_errors str_num df g v e :
  groupby_sum str_num df g v = Raise e
  ∨ groupby_average str_num df g v = Raise e →
  exc_class e = "ValueError".
Proof.
  unfold groupby_sum, groupby_average.
  destruct (get_column df g) as [gs|]; simpl;
    [|by intros [Hr|Hr]; simplify_eq].
  destruct (get_column df v) as [[vals|vals|vals]|]; simpl;
    intros [Hr|Hr]; by simplify_eq.
Qed.

Lemma groupby_count_errors_are_value_errors str_num df g e :
  groupby_count str_num df g = Raise e → exc_class e = "ValueError".
Proof.
  unfold groupby_count.
  destruct (get_column df g) as [gs|]; simpl; intros Hr; by simplify_eq.
Qed.

(** What a tool returns, from what the engine call it wraps does. *)
Lemma run_tool_engine str_num df r call :
  engine_call str_num df r = Some call →
  run_tool str_num df r
  = match call with
    | Ok out => Ok out
    | Raise e => Ok (OutStr ("Error: " +:+ exc_str e))
    end.
Proof.
  destruct r as [c|c|c|c|c|g v|g v|g|c value]; simpl; intros Hcall;
    simplify_eq; unfold sum_column_tool, average_column_tool,
      min_column_tool, max_column_tool, count_column_tool,
      groupby_sum_tool, groupby_average_tool, groupby_count_tool.
  - rewrite or_error_text_value_error; [by destruct (sum_column df c)|].
    intros e He. apply (column_errors_are_value_errors df c). tauto.
  - rewrite or_error_text_value_error; [by destruct (average_column df c)|].
    intros e He. apply (column_errors_are_value_errors df c). tauto.
  - rewrite or_error_text_value_error; [by destruct (min_column df c)|].
    intros e He. apply (column_errors_are_value_errors df c). tauto.
  - rewrite or_error_text_value_error; [by destruct (max_column df c)|].
    intros e He. apply (column_errors_are_value_errors df c). tauto.
  - rewrite or_error_text_value_error; [by destruct (count_column df c)|].
    intros e He. apply (column_errors_are_value_errors df c). tauto.
  - rewrite or_error_text_value_error;
      [by destruct (groupby_sum str_num df g v)|].
    intros e He. apply (groupby_errors_are_value_errors str_num df g v).
    tauto.
  - rewrite or_error_text_value_error;
      [by destruct (groupby_average str_num df g v)|].
    intros e He. apply (groupby_errors_are_value_errors str_num df g v).
    tauto.
  - rewrite or_error_text_value_error;
      [by destruct (groupby_count str_num df g)|].
    intros e He.
    by apply (groupby_count_errors_are_value_errors str_num df g).
Qed.

Lemma run_tool_returns str_num df r :
  ∃ out, run_tool str_num df r = Ok out.
Proof.
  destruct (engine_call str_num df r) as [call|] eqn:Hcall.
  - rewrite (run_tool_engine _ _ _ _ Hcall). destruct call; eauto.
  - destruct r; simplify_eq/=. unfold filter_count_tool.
    destruct (get_column df column_name); eauto.
Qed.

(** X20.  On a frame with distinct column names, a tool of
    [create_aggregation_tools] never raises: it returns what the engine
    function it wraps returns, and when that function raises (always a
    [ValueError]) it returns the text ["Error: "] followed by the
    message of the error. *)
Theorem tools_return_errors_as_text
    (str_num : Qc → string) (df : DataFrame) (r : ToolRequest) :
  NoDup (columns df).*1 →
  (∃ out, run_tool str_num df r = Ok out)
  ∧ match engine_call str_num df r with
    | Some (Ok out) => run_tool str_num df r = Ok out
    | Some (Raise e) =>
        exc_class e = "ValueError"
        ∧ run_tool str_num df r = Ok (OutStr ("Error: " +:+ exc_str e))
    | None => ∃ column_name value, r = FilterCount column_name value
    end.
Proof.
  intros _.
  split; [apply run_tool_returns|].
  destruct (engine_call str_num df r) as [[out|e]|] eqn:Hcall.
  - by rewrite (run_tool_engine _ _ _ _ Hcall).
  - split; [|by rewrite (run_tool_engine _ _ _ _ Hcall)].
    destruct r as [c|c|c|c|c|g v|g v|g|c value]; simpl in Hcall;
      simplify_eq.
    + destruct (sum_column df c) eqn:He; simplify_eq/=.
      apply (column_errors_are_value_errors df c). tauto.
    + destruct (average_column df c) eqn:He; simplify_eq/=.
      apply (column_errors_are_value_errors df c). tauto.
    + destruct (min_column df c) eqn:He; simplify_eq/=.
      apply (column_errors_are_value_errors df c). tauto.
    + destruct (max_column df c) eqn:He; simplify_eq/=.
      apply (column_errors_are_value_errors df c). tauto.
    + destruct (count_column df c) eqn:He; simplify_eq/=.
      apply (column_errors_are_value_errors df c). tauto.
    + destruct (groupby_sum str_num df g v) eqn:He; simplify_eq/=.
      apply (groupby_errors_are_value_errors str_num df g v). tauto.
    + destruct (groupby_average str_num df g v) eqn:He; simplify_eq/=.
      apply (groupby_errors_are_value_errors str_num df g v). tauto.
    + destruct (groupby_count str_num df g) eqn:He; simplify_eq/=.
      by apply (groupby_count_errors_are_value_errors str_num df g).
  - destruct r; simplify_eq/=. eauto.
Qed.

(** The number of rows a mask keeps. *)
Lemma nrows_select_rows mask df :
  nrows (select_rows mask df) = count_true mask.
Proof. done. Qed.

Lemma count_true_le {A} (f : A → bool) (l : list A) :
  count_true (f <$> l) ≤ length l.
Proof.
  unfold count_true. etrans; [apply length_filter|]. by rewrite length_fmap.
Qed.

Lemma length_series_eq s value :
  length (series_eq s value) = length (cells s).
Proof. unfold series_eq. by rewrite length_fmap. Qed.

(** X21.  [filter_count] compares by value and type.  For a column of
    the frame it returns the number of matching rows, between 0 and the
    number of rows of a well-formed frame; a text never matches in a
    numeric column, so that count is 0 whatever the text; for an absent
    column the tool returns the column-not-found text. *)
Theorem filter_count_of_text_in_numeric_column
    (df : DataFrame) (column_name : string) :
  match get_column df column_name with
  | None =>
      ∀ value,
        filter_count_tool df column_name value
        = Ok (OutStr ("Error: " +:+ msg_not_found column_name))
  | Some s =>
      (∀ value, ∃ n : Z,
          filter_count_tool df column_name value = Ok (OutInt n)
          ∧ (0 ≤ n)%Z
          ∧ (well_formed df → (n ≤ count_rows df)%Z))
      ∧ (is_numeric_dtype s = true →
         ∀ text, filter_count_tool df column_name (Text text)
                 = Ok (OutInt 0))
  end.
Proof.
  unfold filter_count_tool.
  destruct (get_column df column_name) as [s|] eqn:Hs; [|done].
  split.
  - intros value. eexists. split; [reflexivity|].
    rewrite nrows_select_rows. split; [lia|]. intros Hwf.
    pose proof (GroupbyFacts.well_formed_length df column_name s Hwf Hs)
      as Hlen.
    unfold count_rows. rewrite <-Hlen. unfold series_eq.
    pose proof (count_true_le (λ c, cell_eqb c value) (cells s)). lia.
  - intros Hnum text. rewrite nrows_select_rows.
    unfold series_eq.
    rewrite AggregatorExtras.count_true_all_false; [done|].
    intros c Hc. destruct c as [q|t| |]; try done.
    by apply text_in_numeric_series in Hc.
Qed.

End Tools.

Section Instrumented.
Context {Args Kwargs X : Type}.
Context `{!Reductions}.
Variable str_args : Args → Result string.
Variable str_kwargs : Kwargs → Result string.
Variable str_output : ToolOutput → string.
Variable str_exception : PyException → Result string.
Variable is_Exception : PyException → bool.
Variable str_num : Qc → string.
Variable df : DataFrame.

(** X22.  On a frame with distinct column names, an aggregation tool
    behind [instrument_tool], called with arguments that fit its
    signature and whose texts can be taken, returns the tool's result
    and is recorded under the tool's [name] as a success without error
    message, also when the engine raised and the result is the
    ["Error: ..."] text.  The recorded output is [str(result)[:200]]:
    the prefix of [str(result)] that holds its first 200 code points,
    or all of it when it is shorter. *)
Theorem instrumented_tool_records_success
    (tool_func : ToolFunc (Args:=Args) (Kwargs:=Kwargs) (Res:=ToolOutput))
    (bind_args : Args → Kwargs → Result X) (request : X → ToolRequest)
    (start_time end_time late_time : Qc) (now_iso : string)
    (args : Args) (kwargs : Kwargs) (telemetry : AgentTelemetry) (x : X)
    (name a k : string) :
  NoDup (columns df).*1 →
  attr_func tool_func
  = Some (tool_callable bind_args (λ x, run_tool str_num df (request x))) →
  attr_name tool_func = Some name →
  bind_args args kwargs = Ok x →
  str_args args = Ok a → str_kwargs kwargs = Ok k →
  ∃ (out : ToolOutput) (c : ToolCall) (text rest : string),
    wrapper str_args str_kwargs (λ out, Ok (str_output out))
            str_exception is_Exception tool_func
            start_time end_time late_time now_iso args kwargs telemetry
    = (Ok out, record c telemetry)
    ∧ run_tool str_num df (request x) = Ok out
    ∧ tool_name c = name
    ∧ success c = true
    ∧ error_message c = None
    ∧ tool_output c = PyStr text
    ∧ str_output out = text +:+ rest
    ∧ code_points text = 200 `min` code_points (str_output out)
    ∧ match rest with
      | EmptyString => True
      | String b _ => is_continuation b = false
      end
    ∧ ∀ e, engine_call str_num df (request x) = Some (Raise e) →
           out = OutStr ("Error: " +:+ exc_str e).
Proof.
  intros _ Hfunc Hname Hbind Ha Hk.
  destruct (run_tool_returns str_num df (request x)) as [out Hout].
  destruct (str_prefix_spec 200 (str_output out))
    as (rest & Hrest & Hlen & Hcut).
  exists out. eexists (Build_ToolCall _ _ _ _ _ _ _).
  exists (str_prefix 200 (str_output out)), rest.
  split.
  { unfold wrapper, original_func, input_snapshot, tool_name_of.
    rewrite Hfunc, Hname. unfold tool_callable.
    rewrite Hbind. simpl. rewrite Hout, Ha, Hk. reflexivity. }
  repeat split; try done.
  intros e He. rewrite (run_tool_engine _ _ _ _ He) in Hout.
  by simplify_eq.
Qed.
End Instrumented.

#[local] Existing Instance sequential.

Lemma tools_return_errors_as_text_witness :
  run_tool str_int sample_df (SumColumn "Name")
  = Ok (OutStr "Error: Column 'Name' is not numeric").
Proof.
  destruct (tools_return_errors_as_text str_int sample_df (SumColumn "Name"))
    as [_ [_ Htext]].
  - apply (bool_decide_unpack _). vm_compute. exact I.
  - exact Htext.
Defined.

Lemma instrumented_tool_records_success_witness :
  ∃ (out : ToolOutput) (c : ToolCall) (text rest : string),
    wrapper (λ column_name : string, Ok ("('" +:+ column_name +:+ "',)"))
            (λ _ : unit, Ok "{}")
            (λ out, Ok (match out with OutStr text => text | _ => "" end))
            (λ e, Ok (exc_str e)) (λ _, true)
            (sum_column_tool_object str_int sample_df)
            0%Qc 1%Qc 2%Qc "2025-02-02T10:00:00" "Missing" ()
            (init 0%Qc 100)
    = (Ok out, record c (init 0%Qc 100))
    ∧ run_tool str_int sample_df (SumColumn "Missing") = Ok out
    ∧ tool_name c = "sum_column"
    ∧ success c = true
    ∧ error_message c = None
    ∧ tool_output c = PyStr text
    ∧ match out with OutStr text => text | _ => "" end = text +:+ rest
    ∧ code_points text
      = 200 `min` code_points (match out with
                               | OutStr text => text
                               | _ => ""
                               end)
    ∧ match rest with
      | EmptyString => True
      | String b _ => is_continuation b = false
      end
    ∧ ∀ e, engine_call str_int sample_df (SumColumn "Missing")
           = Some (Raise e) →
           out = OutStr ("Error: " +:+ exc_str e).
Proof.
  apply (instrumented_tool_records_success
           (λ column_name : string, Ok ("('" +:+ column_name +:+ "',)"))
           (λ _ : unit, Ok "{}")
           (λ out, match out with OutStr text => text | _ => "" end)
           (λ e, Ok (exc_str e)) (λ _, true)
           str_int sample_df
           (sum_column_tool_object str_int sample_df)
           (λ (column_name : string) (_ : unit), Ok column_name)
           SumColumn 0%Qc 1%Qc 2%Qc "2025-02-02T10:00:00" "Missing" ()
           (init 0%Qc 100) "Missing" "sum_column" "('Missing',)" "{}");
    try reflexivity.
  apply (bool_decide_unpack _). vm_compute. exact I.
Defined.

End ToolExtras.
